(** * Version-tracked incremental analysis pipeline

    A shallow embedding of the analysis core of the repository:

    - [lib/multi-dimensional-analyzer]: the five-dimension static analyzer
      and its scoring ([analyzeCodeMultiDimensional], [calculateScores]);
    - the code-review route: the flat analyzer [analyzeCode], which the
      incremental route imports but the code-review route does not export;
    - [lib/version-tracker]: the version store ([storeFileVersion],
      [getLatestFileVersion]);
    - the incremental code-review route: the orchestrator ([POST]).

    Conventions.  JavaScript numbers that the code only ever uses as integers
    (line numbers, counters, scores, version numbers) are [Z].  Strings are
    sequences of 8-bit code units, so [length], [endsWith], [includes] and
    the like are computed on them directly; regular expressions, the acorn
    parser, [JSON.parse], SHA-256 and [Buffer.byteLength] are operations of
    the JavaScript platform and are taken from a [JsRuntime] structure.  The
    diff engine ([lib/diff-engine]) is consumed through its two entry
    points, bundled in a [DiffEngine] structure.  Database and object-store
    calls are total: their own failures are not modelled, except a missing
    object. *)

From Stdlib Require Import ZArith Lia Ascii String QArith.
From stdpp Require Import base option list strings gmap pretty sorting.

Local Open Scope Z_scope.

(* ===================================================================== *)
(** * JavaScript values used by the code *)
(* ===================================================================== *)

(** An [Error] object as the code inspects it: [error.message] and the
    optional [error.loc.line] that acorn attaches to its syntax errors. *)
Record JsError := {
  err_message : string;
  err_loc : option Z;
}.

(** Result of evaluating an expression that may throw. *)
Inductive completion (A : Type) : Type :=
| Normal (a : A)
| Throw (e : JsError).
Arguments Normal {A} a.
Arguments Throw {A} e.

(** ** Array.prototype.forEach with its index argument

    The callbacks of the analyzers mutate an accumulator object; the
    accumulator is threaded explicitly. *)
Fixpoint forEach_from {A S : Type} (index : Z) (f : A -> Z -> S -> S)
    (l : list A) (s : S) : S :=
  match l with
  | [] => s
  | x :: l' => forEach_from (index + 1) f l' (f x index s)
  end.

Definition forEach {A S : Type} (l : list A) (f : A -> Z -> S -> S) (s : S) : S :=
  forEach_from 0 f l s.

(** [Array.prototype.some]. *)
Definition some {A : Type} (p : A -> bool) (l : list A) : bool := existsb p l.

(** [arr.length] and [str.length] as numbers. *)
Definition len {A : Type} (l : list A) : Z := Z.of_nat (List.length l).
Definition strlen (s : string) : Z := Z.of_nat (String.length s).

(** [x || fallback] on numbers: [0] is falsy. *)
Definition num_or (x fallback : Z) : Z := if x =? 0 then fallback else x.

(** ** String methods *)

(** [s.split(sep)] for a one-character separator. *)
Fixpoint split_on (sep : ascii) (s : string) : list string :=
  match s with
  | EmptyString => [""]
  | String c s' =>
      if Ascii.eqb c sep then "" :: split_on sep s'
      else match split_on sep s' with
           | w :: ws => String c w :: ws
           | [] => [String c ""]
           end
  end.

Definition newline : ascii := "010"%char.
Definition split_lines (content : string) : list string := split_on newline content.

(** [arr.pop()] on the array just returned by [split], which is never
    empty. *)
Definition pop (l : list string) : string := List.last l "".

Definition includes (s sub : string) : bool :=
  match String.index 0 sub s with Some _ => true | None => false end.

Definition startsWith (s p : string) : bool := String.prefix p s.

Definition endsWith (s p : string) : bool :=
  let n := String.length s in
  let m := String.length p in
  if (m <=? n)%nat then String.eqb (String.substring (n - m) m s) p else false.

(** White space and line terminators among the code units below 256. *)
Definition is_js_space (c : ascii) : bool :=
  match c with
  | "009" | "010" | "011" | "012" | "013" | " " | "160" => true
  | _ => false
  end%char.

Fixpoint trimStart (s : string) : string :=
  match s with
  | EmptyString => ""
  | String c s' => if is_js_space c then trimStart s' else s
  end.

Fixpoint string_rev_onto (s acc : string) : string :=
  match s with
  | EmptyString => acc
  | String c s' => string_rev_onto s' (String c acc)
  end.
Definition string_rev (s : string) : string := string_rev_onto s "".

Definition trimEnd (s : string) : string := string_rev (trimStart (string_rev s)).
Definition trim (s : string) : string := trimEnd (trimStart s).

Definition lower_ascii (c : ascii) : ascii :=
  let n := nat_of_ascii c in
  if ((65 <=? n) && (n <=? 90))%nat then ascii_of_nat (n + 32) else c.

Fixpoint toLowerCase (s : string) : string :=
  match s with
  | EmptyString => ""
  | String c s' => String (lower_ascii c) (toLowerCase s')
  end.

(** [arr.join(sep)]. *)
Definition join (sep : string) (l : list string) : string := String.concat sep l.

(** [line.search(/\S/)]: index of the first character that is not white
    space, [-1] when there is none. *)
Fixpoint search_nonspace_from (i : Z) (s : string) : Z :=
  match s with
  | EmptyString => -1
  | String c s' => if is_js_space c then search_nonspace_from (i + 1) s' else i
  end.
Definition search_nonspace (s : string) : Z := search_nonspace_from 0 s.

(** [(line.match(/c/g) || []).length] for a single literal character. *)
Fixpoint count_char (c : ascii) (s : string) : Z :=
  match s with
  | EmptyString => 0
  | String d s' => (if Ascii.eqb c d then 1 else 0) + count_char c s'
  end.

(** [s.split(/\s+/)]. *)
Fixpoint split_spaces_aux (in_space : bool) (s : string) : list string :=
  match s with
  | EmptyString => [""]
  | String c s' =>
      if is_js_space c then
        if in_space then split_spaces_aux true s'
        else "" :: split_spaces_aux true s'
      else match split_spaces_aux false s' with
           | w :: ws => String c w :: ws
           | [] => [String c ""]
           end
  end.
Definition split_spaces (s : string) : list string := split_spaces_aux false s.

(** A string is truthy when it is not empty. *)
Definition truthy (s : string) : bool := negb (String.eqb s "").

Definition dquote : ascii := "034"%char.
Definition triple_dquote : string :=
  String dquote (String dquote (String dquote EmptyString)).

(** A word between double quotes, for message texts. *)
Definition quoted (s : string) : string :=
  String dquote (s +:+ String dquote EmptyString).

(** Template-literal interpolation of an integer. *)
Definition show (n : Z) : string := pretty n.

(** ** Regular expressions of the analyzers

    Each constructor names one regular-expression literal of the source;
    flags [g]/[m]/[i] are part of the literal. *)
Inductive pattern : Type :=
| P_var                 (* /\bvar\s+/ *)
| P_looseEquality       (* /[^=!><]={2}[^=]/ *)
| P_consoleLint         (* /console\.(log|debug|info|warn)/ *)
| P_console             (* /console\.(log|debug|info|warn|error)/ *)
| P_print               (* /\bprint\s*\(/ *)
| P_apiKey              (* /api[_-]?key\s*=\s*['dq]\w{20,}['dq]/i *)
| P_apiSecret           (* /api[_-]?secret\s*=\s*['dq]\w{20,}['dq]/i *)
| P_password            (* /password\s*=\s*['dq]\w+['dq]/i *)
| P_token               (* /token\s*=\s*['dq]\w{20,}['dq]/i *)
| P_secret              (* /secret\s*=\s*['dq]\w{20,}['dq]/i *)
| P_awsAccessKey        (* /aws[_-]?access[_-]?key\s*=\s*['dq]\w+['dq]/i *)
| P_eval                (* /\beval\s*\(/ *)
| P_innerHTML           (* /\.innerHTML\s*=/ *)
| P_documentWrite       (* /document\.write\s*\(/ *)
| P_redos               (* /\/.*\+.*\+.*\// *)
| P_exec                (* /\bexec\s*\(/ *)
| P_sqlSelect           (* /execute\s*\(\s*['dq]\s*SELECT.*%s/i *)
| P_functionDecl        (* /function\s+\w+|const\s+\w+\s*=\s*\(/ *)
| P_importLine          (* /^import\s+.+$/gm *)
| P_namedExport         (* /export\s+(const|let|var|function|class)/g *)
| P_magicNumber         (* /\b\d{3,}\b/g *)
| P_todo                (* /\/\/\s*(TODO|FIXME|HACK|XXX|BUG)/i *)
| P_emptyCatch          (* /catch\s*\([^)]*\)\s*{\s*}/g *)
| P_documentedDecl      (* /^(export\s+)?(async\s+)?function\s+\w+|^(export\s+)?const\s+\w+\s*=\s*(async\s{0,})?\(/ *)
| P_branchingDoc        (* /if|else|for|while|switch|case|\?|&&|\|\|/g *)
| P_branchingMetric     (* /if|else|for|while|case|catch|\?|&&|\|\|/g *)
| P_declaration         (* /(?:const|let|var)\s+(\w+)/g *)
| P_word (name : string) (* new RegExp(`\\b${name}\\b`, 'g') *)
| P_cssColor.           (* /#[0-9a-fA-F]{3,6}/ *)

(** The platform operations the code calls. *)
Class JsRuntime := {
  (** all matches of a pattern in a string, as [s.match(/.../g)] lists them
      ([null] is the empty list) *)
  re_match_all : pattern -> string -> list string;
  (** [Buffer.byteLength(s, 'utf-8')] *)
  byteLength : string -> Z;
  (** [(bytes / 1024).toFixed(2)] *)
  kilobytes_toFixed2 : Z -> string;
  (** [acorn.parse(content, options)], its syntax tree dropped *)
  acorn_parse : string -> completion unit;
  (** [JSON.parse(content)], its value dropped *)
  JSON_parse : string -> completion unit;
  (** [createHash('sha256').update(s).digest('hex')] *)
  sha256_hex : string -> string;
}.

(** [re.test(s)] and [s.match(re)] used as a condition. *)
Definition re_test `{JsRuntime} (p : pattern) (s : string) : bool :=
  match re_match_all p s with [] => false | _ :: _ => true end.

(** [(s.match(re) || []).length]. *)
Definition re_count `{JsRuntime} (p : pattern) (s : string) : Z :=
  len (re_match_all p s).

(** The same runtime with another parser result. *)
Definition with_acorn (parse : string -> completion unit) (rt : JsRuntime) : JsRuntime :=
  {| re_match_all := @re_match_all rt;
     byteLength := @byteLength rt;
     kilobytes_toFixed2 := @kilobytes_toFixed2 rt;
     acorn_parse := parse;
     JSON_parse := @JSON_parse rt;
     sha256_hex := @sha256_hex rt |}.

(* ===================================================================== *)
(** * Issues *)
(* ===================================================================== *)

(** An issue object.  The multi-dimensional analyzer sets [category] and
    [autoFixable]; the flat analyzer and the documentation suggestions leave
    them out. *)
Record Issue := {
  type : string;
  category : option string;
  severity : string;
  line : Z;
  message : string;
  suggestion : string;
  autoFixable : option bool;
}.

Global Instance Issue_eq_dec : EqDecision Issue.
Proof. solve_decision. Defined.

(** The runtime whose parser accepts every input: the reference against
    which the effect of a parse error is measured. *)
Definition parses_everything (rt : JsRuntime) : JsRuntime :=
  with_acorn (fun _ => Normal tt) rt.

(** [arr.includes(x)] on an array of strings. *)
Definition array_includes (l : list string) (x : string) : bool :=
  existsb (String.eqb x) l.

Definition tab : string := String "009"%char EmptyString.

(* ===================================================================== *)
(** * The multi-dimensional analyzer ([lib/multi-dimensional-analyzer]) *)
(* ===================================================================== *)

Module MultiDimensional.

(** [{ issues: [], score: 100 }] *)
Record Dimension := {
  dim_issues : list Issue;
  dim_score : Z;
}.

(** [{ issues: [], suggestions: [] }]: the documentation dimension carries
    no score. *)
Record Documentation := {
  doc_issues : list Issue;
  doc_suggestions : list Issue;
}.

(** [analysis.metrics].  [maintainabilityIndex] is given by its exact
    rational value; the source computes it in double precision. *)
Record Metrics := {
  totalLines : Z;
  codeLines : Z;
  commentLines : Z;
  fileSize : Z;
  complexityScore : Z;
  maintainabilityIndex : Q;
}.

(** The [analysis] object; [metrics] is [None] while it is still [{}]. *)
Record Analysis := {
  linting : Dimension;
  security : Dimension;
  architecture : Dimension;
  quality : Dimension;
  documentation : Documentation;
  metrics : option Metrics;
  issues : list Issue;
}.

Definition push (issue : Issue) (d : Dimension) : Dimension :=
  {| dim_issues := dim_issues d ++ [issue]; dim_score := dim_score d |}.

(** [analysis.linting.issues.push(issue)] and its siblings. *)
Definition push_linting (issue : Issue) (a : Analysis) : Analysis :=
  {| linting := push issue (linting a); security := security a;
     architecture := architecture a; quality := quality a;
     documentation := documentation a; metrics := metrics a; issues := issues a |}.

Definition push_security (issue : Issue) (a : Analysis) : Analysis :=
  {| linting := linting a; security := push issue (security a);
     architecture := architecture a; quality := quality a;
     documentation := documentation a; metrics := metrics a; issues := issues a |}.

Definition push_architecture (issue : Issue) (a : Analysis) : Analysis :=
  {| linting := linting a; security := security a;
     architecture := push issue (architecture a); quality := quality a;
     documentation := documentation a; metrics := metrics a; issues := issues a |}.

Definition push_quality (issue : Issue) (a : Analysis) : Analysis :=
  {| linting := linting a; security := security a;
     architecture := architecture a; quality := push issue (quality a);
     documentation := documentation a; metrics := metrics a; issues := issues a |}.

Definition push_documentation (issue : Issue) (a : Analysis) : Analysis :=
  {| linting := linting a; security := security a;
     architecture := architecture a; quality := quality a;
     documentation := {| doc_issues := doc_issues (documentation a) ++ [issue];
                         doc_suggestions := doc_suggestions (documentation a) |};
     metrics := metrics a; issues := issues a |}.

Definition push_suggestion (issue : Issue) (a : Analysis) : Analysis :=
  {| linting := linting a; security := security a;
     architecture := architecture a; quality := quality a;
     documentation := {| doc_issues := doc_issues (documentation a);
                         doc_suggestions := doc_suggestions (documentation a) ++ [issue] |};
     metrics := metrics a; issues := issues a |}.

Definition set_metrics (m : Metrics) (a : Analysis) : Analysis :=
  {| linting := linting a; security := security a;
     architecture := architecture a; quality := quality a;
     documentation := documentation a; metrics := Some m; issues := issues a |}.

Definition set_issues (l : list Issue) (a : Analysis) : Analysis :=
  {| linting := linting a; security := security a;
     architecture := architecture a; quality := quality a;
     documentation := documentation a; metrics := metrics a; issues := l |}.

Definition set_score (n : Z) (d : Dimension) : Dimension :=
  {| dim_issues := dim_issues d; dim_score := n |}.

(** An issue literal of this analyzer. *)
Definition issue (ty cat sev : string) (ln : Z) (msg sugg : string) (fixable : bool) : Issue :=
  {| type := ty; category := Some cat; severity := sev; line := ln;
     message := msg; suggestion := sugg; autoFixable := Some fixable |}.

(** A documentation suggestion: an issue literal without [autoFixable]. *)
Definition suggestion_entry (ty cat sev : string) (ln : Z) (msg sugg : string) : Issue :=
  {| type := ty; category := Some cat; severity := sev; line := ln;
     message := msg; suggestion := sugg; autoFixable := None |}.

Section Analyzer.
Context `{JsRuntime}.

(** ** Linting *)

Definition lintJavaScript (content : string) (lines : list string) (analysis : Analysis) : Analysis :=
  (* var usage *)
  let analysis := forEach lines (fun line index analysis =>
    if re_test P_var line then
      push_linting (issue "linting" "best-practice" "warning" (index + 1)
        ("Use of deprecated " +:+ quoted "var" +:+ " keyword")
        ("Replace " +:+ quoted "var" +:+ " with " +:+ quoted "const" +:+ " or "
           +:+ quoted "let" +:+ " for better scoping") true) analysis
    else analysis) analysis in
  (* Loose equality *)
  let analysis := forEach lines (fun line index analysis =>
    if re_test P_looseEquality line then
      push_linting (issue "linting" "best-practice" "warning" (index + 1)
        "Use of loose equality (==)"
        "Use strict equality (===) to avoid type coercion" true) analysis
    else analysis) analysis in
  (* console.log *)
  let analysis := forEach lines (fun line index analysis =>
    if re_test P_consoleLint line then
      push_linting (issue "linting" "cleanup" "info" (index + 1)
        "Console statement detected"
        "Remove console statements before production deployment" true) analysis
    else analysis) analysis in
  (* Syntax validation: try { acorn.parse(...) } catch (error) { ... } *)
  match acorn_parse content with
  | Normal _ => analysis
  | Throw error =>
      match err_loc error with
      | Some loc_line =>
          push_linting (issue "linting" "syntax" "error" loc_line
            ("Syntax error: " +:+ err_message error)
            "Fix the syntax error to ensure code can be parsed" false) analysis
      | None => analysis
      end
  end.

Definition lintPython (lines : list string) (analysis : Analysis) : Analysis :=
  forEach lines (fun line index analysis =>
    (* Tabs in Python (PEP 8) *)
    let analysis :=
      if includes line tab then
        push_linting (issue "linting" "style" "warning" (index + 1)
          "Tab character used for indentation"
          "Use 4 spaces for indentation (PEP 8)" true) analysis
      else analysis in
    (* print statements *)
    if re_test P_print line then
      push_linting (issue "linting" "cleanup" "info" (index + 1)
        "Print statement detected"
        "Use proper logging instead of print statements" false) analysis
    else analysis) analysis.

Definition lintCSS (lines : list string) (analysis : Analysis) : Analysis :=
  forEach lines (fun line index analysis =>
    if includes line "!important" then
      push_linting (issue "linting" "best-practice" "warning" (index + 1)
        "Use of !important detected"
        "Avoid !important; refactor CSS specificity instead" false) analysis
    else analysis) analysis.

Definition performLintingAnalysis (content : string) (lines : list string)
    (fileExtension : string) (analysis : Analysis) : Analysis :=
  let isJavaScript := array_includes ["js"; "jsx"; "ts"; "tsx"] fileExtension in
  let isPython := String.eqb fileExtension "py" in
  let isCSS := array_includes ["css"; "scss"; "sass"] fileExtension in
  (* Trailing whitespace *)
  let analysis := forEach lines (fun line index analysis =>
    if endsWith line " " || endsWith line tab then
      push_linting (issue "linting" "style" "info" (index + 1)
        "Trailing whitespace detected"
        "Remove trailing whitespace at the end of the line" true) analysis
    else analysis) analysis in
  (* Long lines *)
  let analysis := forEach lines (fun line index analysis =>
    if 120 <? strlen line then
      push_linting (issue "linting" "style" "info" (index + 1)
        ("Line too long (" +:+ show (strlen line) +:+ " characters)")
        "Break this line into multiple lines for better readability (max 120 chars)"
        false) analysis
    else analysis) analysis in
  if isJavaScript then lintJavaScript content lines analysis
  else if isPython then lintPython lines analysis
  else if isCSS then lintCSS lines analysis
  else analysis.

(** ** Security *)

Definition secretPatterns : list pattern :=
  [P_apiKey; P_apiSecret; P_password; P_token; P_secret; P_awsAccessKey].

Definition securityCheckJavaScript (content : string) (lines : list string)
    (analysis : Analysis) : Analysis :=
  (* eval() usage *)
  let analysis := forEach lines (fun line index analysis =>
    if re_test P_eval line then
      push_security (issue "security" "code-injection" "critical" (index + 1)
        "Use of eval() detected - code injection risk"
        "Avoid eval(); use safer alternatives like JSON.parse() or Function constructor"
        false) analysis
    else analysis) analysis in
  (* innerHTML usage *)
  let analysis := forEach lines (fun line index analysis =>
    if re_test P_innerHTML line then
      push_security (issue "security" "xss" "warning" (index + 1)
        "Use of innerHTML - XSS vulnerability risk"
        "Use textContent or sanitize HTML input to prevent XSS" false) analysis
    else analysis) analysis in
  (* document.write *)
  let analysis := forEach lines (fun line index analysis =>
    if re_test P_documentWrite line then
      push_security (issue "security" "xss" "warning" (index + 1)
        "Use of document.write() - security and performance risk"
        "Use modern DOM manipulation methods instead" false) analysis
    else analysis) analysis in
  (* Unsafe regex (ReDoS) *)
  if re_test P_redos content then
    forEach lines (fun line index analysis =>
      if re_test P_redos line then
        push_security (issue "security" "redos" "warning" (index + 1)
          "Potentially unsafe regex - ReDoS vulnerability"
          "Review regex pattern for catastrophic backtracking" false) analysis
      else analysis) analysis
  else analysis.

Definition securityCheckPython (content : string) (lines : list string)
    (analysis : Analysis) : Analysis :=
  (* exec() usage *)
  let analysis := forEach lines (fun line index analysis =>
    if re_test P_exec line then
      push_security (issue "security" "code-injection" "critical" (index + 1)
        "Use of exec() - code injection risk"
        "Avoid exec(); use safer alternatives" false) analysis
    else analysis) analysis in
  (* SQL injection risk *)
  forEach lines (fun line index analysis =>
    if re_test P_sqlSelect line then
      push_security (issue "security" "sql-injection" "critical" (index + 1)
        "Potential SQL injection vulnerability"
        "Use parameterized queries instead of string formatting" false) analysis
    else analysis) analysis.

Definition performSecurityAnalysis (content : string) (lines : list string)
    (fileExtension : string) (analysis : Analysis) : Analysis :=
  let isJavaScript := array_includes ["js"; "jsx"; "ts"; "tsx"] fileExtension in
  let isPython := String.eqb fileExtension "py" in
  let analysis :=
    if isJavaScript then securityCheckJavaScript content lines analysis
    else if isPython then securityCheckPython content lines analysis
    else analysis in
  (* Check for hardcoded secrets (all languages) *)
  forEach lines (fun line index analysis =>
    forEach secretPatterns (fun pattern _ analysis =>
      if re_test pattern line then
        push_security (issue "security" "secrets" "critical" (index + 1)
          "Potential hardcoded secret detected"
          "Move secrets to environment variables or secure vault" false) analysis
      else analysis) analysis) analysis.

(** ** Architecture *)

Definition performArchitectureAnalysis (content : string) (lines : list string)
    (fileExtension : string) (analysis : Analysis) : Analysis :=
  (* File size check: sizeInKB = byteLength / 1024 (an exact division by a
     power of two), and sizeInKB > 500 *)
  let analysis :=
    if 500 * 1024 <? byteLength content then
      push_architecture (issue "architecture" "modularity" "warning" 1
        ("Large file size: " +:+ kilobytes_toFixed2 (byteLength content) +:+ " KB")
        "Consider splitting into smaller, more focused modules" false) analysis
    else analysis in
  (* Function/method count and size *)
  let functionCount := re_count P_functionDecl content in
  let analysis :=
    if 20 <? functionCount then
      push_architecture (issue "architecture" "modularity" "info" 1
        ("High function count: " +:+ show functionCount)
        "Consider splitting this file into multiple modules" false) analysis
    else analysis in
  (* Dependency analysis *)
  let imports := re_match_all P_importLine content in
  let analysis :=
    if 15 <? len imports then
      push_architecture (issue "architecture" "dependencies" "info" 1
        ("High number of imports: " +:+ show (len imports))
        "Consider reducing dependencies or splitting into focused modules" false) analysis
    else analysis in
  (* Circular dependency detection (basic) *)
  let hasDefaultExport := includes content "export default" in
  let hasNamedExports := re_match_all P_namedExport content in
  let analysis :=
    if hasDefaultExport && re_test P_namedExport content && (5 <? len hasNamedExports) then
      push_architecture (issue "architecture" "module-design" "info" 1
        "Mixed default and named exports"
        "Consider using only named exports for better tree-shaking" false) analysis
    else analysis in
  (* Deep nesting *)
  forEach lines (fun line index analysis =>
    let leadingSpaces := search_nonspace line in
    if 24 <? leadingSpaces then
      push_architecture (issue "architecture" "complexity" "warning" (index + 1)
        "Deeply nested code (>6 levels)"
        "Refactor to reduce nesting - extract functions or use early returns" false) analysis
    else analysis) analysis.

(** ** Code quality *)

(** [lines.slice(i, i + 5)] for [0 <= i]. *)
Definition slice5 (lines : list string) (i : Z) : list string :=
  take 5 (drop (Z.to_nat i) lines).

(** [lines[i]]; [None] is [undefined]. *)
Definition at_index (lines : list string) (i : Z) : option string :=
  if i <? 0 then None else lines !! Z.to_nat i.

Definition performQualityAnalysis (content : string) (lines : list string)
    (fileExtension : string) (analysis : Analysis) : Analysis :=
  (* Magic numbers *)
  let analysis := forEach lines (fun line index analysis =>
    if re_test P_magicNumber line && negb (includes line "//")
       && negb (includes line "const") then
      push_quality (issue "quality" "maintainability" "info" (index + 1)
        "Magic number detected"
        "Extract magic numbers into named constants" false) analysis
    else analysis) analysis in
  (* Duplicate code detection (simple):
     for (let i = 0; i < lines.length - 5; i++) *)
  let '(_, analysis) :=
    forEach (seqZ 0 (len lines - 5))
      (fun i _ '(codeBlocks, analysis) =>
        let block := trim (join (String newline EmptyString) (slice5 lines i)) in
        if (50 <? strlen block) && negb (startsWith block "//")
           && negb (startsWith block "/*") then
          let analysis :=
            match (codeBlocks : gmap string Z) !! block with
            | Some _ =>
                push_quality (issue "quality" "duplication" "warning" (i + 1)
                  "Duplicate code block detected"
                  "Extract duplicate code into a reusable function" false) analysis
            | None => analysis
            end in
          (<[block := i + 1]> codeBlocks, analysis)
        else (codeBlocks, analysis))
      (∅, analysis) in
  (* TODO/FIXME comments *)
  let analysis := forEach lines (fun line index analysis =>
    if re_test P_todo line then
      push_quality (issue "quality" "technical-debt" "info" (index + 1)
        "TODO/FIXME comment found"
        "Address this comment or create a task to track it" false) analysis
    else analysis) analysis in
  (* Empty catch blocks *)
  let analysis :=
    if re_test P_emptyCatch content then
      forEach lines (fun line index analysis =>
        let next_is_closing :=
          match at_index lines (index + 1) with
          | Some next => truthy next && String.eqb (trim next) "}"
          | None => false
          end in
        if includes line "catch" && next_is_closing then
          push_quality (issue "quality" "error-handling" "warning" (index + 1)
            "Empty catch block"
            "Handle errors appropriately or at least log them" false) analysis
        else analysis) analysis
    else analysis in
  (* Long functions (approximate): functionStart and braceCount are the two
     variables the callback closes over *)
  let '(analysis, _, _) :=
    forEach lines (fun line index '(analysis, functionStart, braceCount) =>
      let '(functionStart, braceCount) :=
        if re_test P_functionDecl line then (index, 0)
        else (functionStart, braceCount) in
      let braceCount := braceCount + count_char "{" line in
      let braceCount := braceCount - count_char "}" line in
      if (0 <=? functionStart) && (braceCount =? 0) && (50 <? index - functionStart) then
        (push_quality (issue "quality" "complexity" "warning" (functionStart + 1)
           ("Long function: " +:+ show (index - functionStart) +:+ " lines")
           "Break down into smaller, more focused functions" false) analysis,
         -1, braceCount)
      else (analysis, functionStart, braceCount))
      (analysis, -1, 0) in
  analysis.

(** ** Documentation *)

Definition performDocumentationAnalysis (content : string) (lines : list string)
    (fileExtension : string) (analysis : Analysis) : Analysis :=
  let isCode := array_includes ["js"; "jsx"; "ts"; "tsx"; "py"; "java"] fileExtension in
  if negb isCode then analysis else
  (* Check for file-level documentation *)
  let hasFileComment :=
    startsWith (trimStart content) "/**" || startsWith (trimStart content) triple_dquote in
  let analysis :=
    if negb hasFileComment then
      push_suggestion (suggestion_entry "documentation" "file-header" "info" 1
        "Missing file-level documentation"
        "Add a file-level comment describing the purpose and contents of this file")
        analysis
    else analysis in
  (* Check for function documentation *)
  let analysis := forEach lines (fun line index analysis =>
    if re_test P_documentedDecl line then
      let prevLine :=
        if 0 <? index then
          match at_index lines (index - 1) with Some l => trim l | None => "" end
        else "" in
      let hasDocComment := startsWith prevLine "/**" || startsWith prevLine triple_dquote in
      if negb hasDocComment && negb (includes line "= () =>") then
        push_documentation (issue "documentation" "function-docs" "info" (index + 1)
          "Function lacks documentation"
          "Add JSDoc/docstring to describe parameters, return value, and purpose"
          false) analysis
      else analysis
    else analysis) analysis in
  (* Check for complex code without comments *)
  forEach lines (fun line index analysis =>
    let complexity := re_count P_branchingDoc line in
    if 3 <? complexity then
      let hasComment :=
        (0 <? index) &&
        match at_index lines (index - 1) with
        | Some l => startsWith (trim l) "//"
        | None => false
        end in
      if negb hasComment then
        push_suggestion (suggestion_entry "documentation" "code-clarity" "info" (index + 1)
          "Complex logic without explanation"
          "Add a comment explaining the logic flow") analysis
      else analysis
    else analysis) analysis.

(** ** Metrics *)

Definition Q_max (a b : Q) : Q := if Qle_bool a b then b else a.
Definition Q_min (a b : Q) : Q := if Qle_bool a b then a else b.

Definition calculateMetrics (content : string) (lines : list string)
    (analysis : Analysis) : Analysis :=
  let totalLines := len lines in
  let codeLines :=
    len (List.filter (fun l => truthy (trim l) && negb (startsWith (trim l) "//")) lines) in
  let commentLines :=
    len (List.filter (fun l => startsWith (trim l) "//" || startsWith (trim l) "*") lines) in
  let fileSize := byteLength content in
  (* Calculate cyclomatic complexity (approximate) *)
  let complexityKeywords := re_count P_branchingMetric content in
  let complexityScore := Z.min 100 (complexityKeywords * 2) in
  (* Maintainability index (simplified) *)
  let avgLineLength : Q :=
    if 0 <? codeLines then (inject_Z (strlen content) / inject_Z codeLines)%Q else 0%Q in
  let maintainabilityIndex :=
    Q_max 0 (Q_min 100 (100 - inject_Z complexityScore / 2 - avgLineLength / 5))%Q in
  set_metrics
    {| totalLines := totalLines; codeLines := codeLines; commentLines := commentLines;
       fileSize := fileSize; complexityScore := complexityScore;
       maintainabilityIndex := maintainabilityIndex |}
    analysis.

End Analyzer.

(** ** Scores *)

(** The body of the [issues.forEach] callback in [calculateScore]. *)
Definition deduct (issue : Issue) (score : Z) : Z :=
  if String.eqb (severity issue) "critical" then score - 15
  else if String.eqb (severity issue) "error" then score - 10
  else if String.eqb (severity issue) "warning" then score - 5
  else if String.eqb (severity issue) "info" then score - 1
  else score.

(** [calculateScore(issues, maxDeduction = 50)]; a call that omits the
    second argument passes [default_maxDeduction]. *)
Definition default_maxDeduction : Z := 50.

Definition calculateScore (issues : list Issue) (maxDeduction : Z) : Z :=
  let score := forEach issues (fun issue _ score => deduct issue score) 100 in
  Z.max (100 - maxDeduction) score.

Definition calculateScores (analysis : Analysis) : Analysis :=
  {| linting :=
       set_score (calculateScore (dim_issues (linting analysis)) default_maxDeduction)
                 (linting analysis);
     security :=
       set_score (calculateScore (dim_issues (security analysis)) 100)
                 (security analysis);
     architecture :=
       set_score (calculateScore (dim_issues (architecture analysis)) default_maxDeduction)
                 (architecture analysis);
     quality :=
       set_score (calculateScore (dim_issues (quality analysis)) default_maxDeduction)
                 (quality analysis);
     documentation := documentation analysis;
     metrics := metrics analysis;
     issues := issues analysis |}.

(** The penalty of one issue, by severity: critical 15, error 10, warning 5,
    info 1. *)
Definition penalty (issue : Issue) : Z :=
  if String.eqb (severity issue) "critical" then 15
  else if String.eqb (severity issue) "error" then 10
  else if String.eqb (severity issue) "warning" then 5
  else if String.eqb (severity issue) "info" then 1
  else 0.

(** The accumulated penalty of a list of issues. *)
Definition total_penalty (issues : list Issue) : Z :=
  foldr (fun issue acc => penalty issue + acc) 0 issues.

(** ** The entry point *)

Definition initial_analysis : Analysis :=
  {| linting := {| dim_issues := []; dim_score := 100 |};
     security := {| dim_issues := []; dim_score := 100 |};
     architecture := {| dim_issues := []; dim_score := 100 |};
     quality := {| dim_issues := []; dim_score := 100 |};
     documentation := {| doc_issues := []; doc_suggestions := [] |};
     metrics := None;
     issues := [] |}.

(** The passes up to and including [calculateMetrics]. *)
Definition run_passes `{JsRuntime} (content : string) (lines : list string)
    (fileExtension : string) (analysis : Analysis) : Analysis :=
  let analysis := performLintingAnalysis content lines fileExtension analysis in
  let analysis := performSecurityAnalysis content lines fileExtension analysis in
  let analysis := performArchitectureAnalysis content lines fileExtension analysis in
  let analysis := performQualityAnalysis content lines fileExtension analysis in
  let analysis := performDocumentationAnalysis content lines fileExtension analysis in
  calculateMetrics content lines analysis.

(** [analysis.issues = [...linting, ...security, ...architecture, ...quality,
    ...documentation]]. *)
Definition combine_issues (analysis : Analysis) : Analysis :=
  set_issues (dim_issues (linting analysis) ++ dim_issues (security analysis)
              ++ dim_issues (architecture analysis) ++ dim_issues (quality analysis)
              ++ doc_issues (documentation analysis)) analysis.

Definition analyzeCodeMultiDimensional `{JsRuntime} (content fileName : string) : Analysis :=
  let lines := split_lines content in
  let fileExtension := toLowerCase (pop (split_on "." fileName)) in
  let analysis := run_passes content lines fileExtension initial_analysis in
  let analysis := combine_issues analysis in
  calculateScores analysis.

(** ** The syntax check *)

(** The issue that the [catch] of [lintJavaScript] pushes for an error
    located on line [l]. *)
Definition syntax_issue (error : JsError) (l : Z) : Issue :=
  issue "linting" "syntax" "error" l ("Syntax error: " +:+ err_message error)
    "Fix the syntax error to ensure code can be parsed" false.

(** What the parser's answer adds to the linting issues of a JavaScript
    file: one issue for an error with a location, nothing otherwise. *)
Definition parse_effect `{JsRuntime} (content : string) (a : Analysis) : Analysis :=
  match acorn_parse content with
  | Normal _ => a
  | Throw error =>
      match err_loc error with
      | Some l => push_linting (syntax_issue error l) a
      | None => a
      end
  end.

Definition lints_as_JavaScript (fileName : string) : bool :=
  array_includes ["js"; "jsx"; "ts"; "tsx"] (toLowerCase (pop (split_on "." fileName))).

(** ** What every issue of this analyzer looks like *)

(** The severities of this analyzer. *)
Definition known_severity (i : Issue) : bool :=
  array_includes ["critical"; "error"; "warning"; "info"] (severity i).

(** An issue carries a known severity and, unless it is the finding of the
    syntax check (whose line is the parser's), a line of a file of [n]
    lines. *)
Definition within_file (n : Z) (i : Issue) : Prop :=
  known_severity i = true
  /\ (category i = Some "syntax" \/ 1 <= line i <= n).

(** The extensions the documentation pass looks at. *)
Definition documented_extension (fileName : string) : bool :=
  array_includes ["js"; "jsx"; "ts"; "tsx"; "py"; "java"]
    (toLowerCase (pop (split_on "." fileName))).

(** ** Where issues are attributed *)

(** The findings about the file as a whole: size, function count, import
    count and mixed exports carry these categories. *)
Definition file_level_finding (i : Issue) : bool :=
  match category i with
  | Some c => array_includes ["modularity"; "dependencies"; "module-design"] c
  | None => false
  end.

(** An issue is attributed to a real line, and to line 1 when it is a
    file-level finding. *)
Definition well_attributed (i : Issue) : Prop :=
  1 <= line i /\ (file_level_finding i = true -> line i = 1).

(** A property of every issue and suggestion that the passes have pushed. *)
Definition every_issue (P : Issue -> Prop) (a : Analysis) : Prop :=
  Forall P (dim_issues (linting a))
  /\ Forall P (dim_issues (security a))
  /\ Forall P (dim_issues (architecture a))
  /\ Forall P (dim_issues (quality a))
  /\ Forall P (doc_issues (documentation a))
  /\ Forall P (doc_suggestions (documentation a)).

(** acorn numbers lines from 1: the [loc.line] of a syntax error it throws
    is at least 1. *)
Definition acorn_lines_from_1 `{JsRuntime} : Prop :=
  forall (content : string) (error : JsError) (l : Z),
    acorn_parse content = Throw error -> err_loc error = Some l -> 1 <= l.

End MultiDimensional.

(* ===================================================================== *)
(** * The flat analyzer of the code-review route ([analyzeCode]) *)
(* ===================================================================== *)

Module CodeReview.

(** [metrics] as [calculateMetrics] returns it. *)
Record Metrics := {
  totalLines : Z;
  codeLines : Z;
  commentLines : Z;
  blankLines : Z;
  errorCount : Z;
  warningCount : Z;
  infoCount : Z;
  qualityScore : Z;
}.

(** [{ issues, metrics }] *)
Record Analysis := {
  issues : list Issue;
  metrics : Metrics;
}.

(** An issue literal of this analyzer: no [category], no [autoFixable]. *)
Definition issue (ty sev : string) (ln : Z) (msg sugg : string) : Issue :=
  {| type := ty; category := None; severity := sev; line := ln;
     message := msg; suggestion := sugg; autoFixable := None |}.

(** [issues.push(issue)] *)
Definition push (i : Issue) (issues : list Issue) : list Issue := issues ++ [i].

Section Analyzer.
Context `{JsRuntime}.

Definition checkTrailingWhitespace (lines : list string) (issues : list Issue) : list Issue :=
  forEach lines (fun line index issues =>
    if endsWith line " " || endsWith line tab then
      push (issue "style" "info" (index + 1)
        "Trailing whitespace detected"
        "Remove trailing whitespace at the end of the line") issues
    else issues) issues.

Definition checkFileSize (content : string) (issues : list Issue) : list Issue :=
  if 500 * 1024 <? byteLength content then
    push (issue "performance" "warning" 1
      ("Large file size: " +:+ kilobytes_toFixed2 (byteLength content) +:+ " KB")
      "Consider splitting this file into smaller modules for better maintainability") issues
  else issues.

Definition checkLongLines (lines : list string) (issues : list Issue) : list Issue :=
  forEach lines (fun line index issues =>
    if 120 <? strlen line then
      push (issue "style" "info" (index + 1)
        ("Line too long (" +:+ show (strlen line) +:+ " characters)")
        "Consider breaking this line into multiple lines for better readability") issues
    else issues) issues.

Definition checkEmptyFile (content : string) (issues : list Issue) : list Issue :=
  if strlen (trim content) =? 0 then
    push (issue "quality" "warning" 1 "File is empty"
      "Remove unused files or add content") issues
  else issues.

Definition analyzeJavaScript (content : string) (lines : list string)
    (issues : list Issue) (fileName : string) : list Issue :=
  (* Check for console.log statements *)
  let issues := forEach lines (fun line index issues =>
    if re_test P_console line then
      push (issue "quality" "warning" (index + 1)
        "Console statement detected"
        "Remove console statements before production deployment") issues
    else issues) issues in
  (* Check for var declarations *)
  let issues := forEach lines (fun line index issues =>
    if re_test P_var line then
      push (issue "best-practice" "warning" (index + 1)
        ("Use of " +:+ quoted "var" +:+ " keyword")
        ("Use " +:+ quoted "const" +:+ " or " +:+ quoted "let" +:+ " instead of "
           +:+ quoted "var" +:+ " for better scoping")) issues
    else issues) issues in
  (* Check for == instead of === *)
  let issues := forEach lines (fun line index issues =>
    if re_test P_looseEquality line && negb (includes line "===") then
      push (issue "best-practice" "warning" (index + 1)
        "Use of loose equality (==)"
        "Use strict equality (===) to avoid type coercion issues") issues
    else issues) issues in
  (* Check for missing semicolons (simple check) *)
  let issues := forEach lines (fun line index issues =>
    let trimmed := trim line in
    if truthy trimmed &&
       negb (endsWith trimmed ";") &&
       negb (endsWith trimmed "{") &&
       negb (endsWith trimmed "}") &&
       negb (endsWith trimmed ",") &&
       negb (startsWith trimmed "//") &&
       negb (startsWith trimmed "/*") &&
       negb (startsWith trimmed "*") &&
       negb (includes trimmed "import ") &&
       negb (includes trimmed "export ") &&
       (includes trimmed "const " || includes trimmed "let " ||
        includes trimmed "var " || includes trimmed "return ") then
      push (issue "syntax" "info" (index + 1)
        "Possibly missing semicolon"
        "Add semicolon at the end of the statement") issues
    else issues) issues in
  (* Try to parse with acorn for syntax errors *)
  let issues :=
    match acorn_parse content with
    | Normal _ => issues
    | Throw error =>
        match err_loc error with
        | Some loc_line =>
            push (issue "syntax" "error" loc_line
              ("Syntax error: " +:+ err_message error)
              "Fix the syntax error to ensure the code can be parsed correctly") issues
        | None => issues
        end
    end in
  (* Check for unused variables (simple detection) *)
  let variableDeclarations := re_match_all P_declaration content in
  let issues := forEach variableDeclarations (fun declaration _ issues =>
    let varName := default "undefined" (split_spaces declaration !! 1%nat) in
    (* Count occurrences (excluding the declaration line) *)
    let occurrences := re_count (P_word varName) content in
    if occurrences =? 1 then
      push (issue "quality" "info" 0
        ("Variable " +:+ quoted varName +:+ " may be unused")
        "Remove unused variables to improve code clarity") issues
    else issues) issues in
  (* Check for TODO/FIXME comments *)
  let issues := forEach lines (fun line index issues =>
    if re_test P_todo line then
      push (issue "quality" "info" (index + 1)
        "TODO/FIXME comment found"
        "Address this comment or create a task to track it") issues
    else issues) issues in
  (* Check for deeply nested code *)
  forEach lines (fun line index issues =>
    let leadingSpaces := search_nonspace line in
    if 20 <? leadingSpaces then
      push (issue "complexity" "warning" (index + 1)
        "Deeply nested code detected"
        "Consider refactoring to reduce nesting levels for better readability") issues
    else issues) issues.

Definition analyzePython (lines : list string) (issues : list Issue) : list Issue :=
  forEach lines (fun line index issues =>
    (* Check for print statements *)
    let issues :=
      if re_test P_print line then
        push (issue "quality" "warning" (index + 1)
          "Print statement detected"
          "Use proper logging instead of print statements") issues
      else issues in
    (* Check for tabs (PEP 8) *)
    if includes line tab then
      push (issue "style" "warning" (index + 1)
        "Tab character used for indentation"
        "Use 4 spaces for indentation (PEP 8)") issues
    else issues) issues.

Definition analyzeCSS (lines : list string) (issues : list Issue) : list Issue :=
  forEach lines (fun line index issues =>
    (* Check for !important *)
    let issues :=
      if includes line "!important" then
        push (issue "best-practice" "warning" (index + 1)
          "Use of !important detected"
          "Avoid using !important; refactor specificity instead") issues
      else issues in
    (* Check for color values that could be variables *)
    if re_test P_cssColor line then
      push (issue "best-practice" "info" (index + 1)
        "Hard-coded color value"
        "Consider using CSS variables for better maintainability") issues
    else issues) issues.

Definition analyzeHTML (lines : list string) (issues : list Issue) : list Issue :=
  let '(issues, hasDoctype) :=
    forEach lines (fun line index '(issues, hasDoctype) =>
      let hasDoctype :=
        if includes (toLowerCase line) "<!doctype" then true else hasDoctype in
      (* Check for inline styles *)
      let issues :=
        if includes line "style=" then
          push (issue "best-practice" "info" (index + 1)
            "Inline style attribute detected"
            "Use external CSS for better maintainability") issues
        else issues in
      (* Check for missing alt attributes on images *)
      let issues :=
        if includes line "<img" && negb (includes line "alt=") then
          push (issue "accessibility" "warning" (index + 1)
            "Image missing alt attribute"
            "Add alt attribute for accessibility") issues
        else issues in
      (issues, hasDoctype))
      (issues, false) in
  if negb hasDoctype then
    push (issue "quality" "warning" 1
      "Missing DOCTYPE declaration"
      "Add <!DOCTYPE html> at the beginning of the file") issues
  else issues.

Definition analyzeJSON (content : string) (issues : list Issue) : list Issue :=
  match JSON_parse content with
  | Normal _ => issues
  | Throw error =>
      push (issue "syntax" "error" 0
        ("Invalid JSON: " +:+ err_message error)
        "Fix the JSON syntax error") issues
  end.

Definition count_severity (sev : string) (issues : list Issue) : Z :=
  len (List.filter (fun i => String.eqb (severity i) sev) issues).

Definition calculateMetrics (content : string) (lines : list string)
    (issues : list Issue) : Metrics :=
  let totalLines := len lines in
  let codeLines := len (List.filter (fun line => 0 <? strlen (trim line)) lines) in
  let commentLines :=
    len (List.filter (fun line =>
           let trimmed := trim line in
           startsWith trimmed "//" || startsWith trimmed "/*" || startsWith trimmed "*")
         lines) in
  let errorCount := count_severity "error" issues in
  let warningCount := count_severity "warning" issues in
  let infoCount := count_severity "info" issues in
  (* Calculate quality score (0-100) *)
  let qualityScore := 100 in
  let qualityScore := qualityScore - errorCount * 10 in
  let qualityScore := qualityScore - warningCount * 3 in
  let qualityScore := qualityScore - infoCount * 1 in
  let qualityScore := Z.max 0 qualityScore in
  {| totalLines := totalLines; codeLines := codeLines; commentLines := commentLines;
     blankLines := totalLines - codeLines; errorCount := errorCount;
     warningCount := warningCount; infoCount := infoCount;
     qualityScore := qualityScore |}.

(** The language-specific branch of [analyzeCode]. *)
Definition language_checks (content : string) (lines : list string)
    (fileExtension fileName : string) (issues : list Issue) : list Issue :=
  let isJavaScript := array_includes ["js"; "jsx"; "mjs"; "cjs"] fileExtension in
  let isTypeScript := array_includes ["ts"; "tsx"] fileExtension in
  let isPython := array_includes ["py"] fileExtension in
  let isCSS := array_includes ["css"; "scss"; "sass"; "less"] fileExtension in
  let isHTML := array_includes ["html"; "htm"] fileExtension in
  let isJSON := array_includes ["json"] fileExtension in
  if isJavaScript || isTypeScript then analyzeJavaScript content lines issues fileName
  else if isPython then analyzePython lines issues
  else if isCSS then analyzeCSS lines issues
  else if isHTML then analyzeHTML lines issues
  else if isJSON then analyzeJSON content issues
  else issues.

Definition analyzeCode (content fileName : string) : Analysis :=
  let issues := [] in
  let lines := split_lines content in
  let fileExtension := toLowerCase (pop (split_on "." fileName)) in
  (* General checks for all files *)
  let issues := checkTrailingWhitespace lines issues in
  let issues := checkFileSize content issues in
  let issues := checkLongLines lines issues in
  let issues := checkEmptyFile content issues in
  (* Language-specific checks *)
  let issues := language_checks content lines fileExtension fileName issues in
  (* Calculate metrics *)
  let metrics := calculateMetrics content lines issues in
  {| issues := issues; metrics := metrics |}.

End Analyzer.

(** The issue that the [catch] of [analyzeJavaScript] pushes for an error
    located on line [l]. *)
Definition syntax_issue (error : JsError) (l : Z) : Issue :=
  issue "syntax" "error" l ("Syntax error: " +:+ err_message error)
    "Fix the syntax error to ensure the code can be parsed correctly".

(** The severities of this analyzer. *)
Definition known_severity (i : Issue) : bool :=
  array_includes ["error"; "warning"; "info"] (severity i).

Definition is_error (i : Issue) : bool := String.eqb (severity i) "error".

(** [fileName.split('.').pop().toLowerCase()] *)
Definition extension_of (fileName : string) : string :=
  toLowerCase (pop (split_on "." fileName)).

(** How many error-severity issues the parse of a JavaScript file adds: one
    for a thrown error with a location. *)
Definition syntax_errors `{JsRuntime} (content : string) : Z :=
  match acorn_parse content with
  | Normal _ => 0
  | Throw error => match err_loc error with Some _ => 1 | None => 0 end
  end.

(** How many error-severity issues the parse of a JSON file adds: one for
    any thrown error. *)
Definition json_errors `{JsRuntime} (content : string) : Z :=
  match JSON_parse content with
  | Normal _ => 0
  | Throw _ => 1
  end.

(** The issues [t] are the issues [s] with [extra] inserted after the
    first [pre]. *)
Definition inserted (pre : list Issue) (extra : Issue) (s t : list Issue) : Prop :=
  exists post, s = pre ++ post /\ t = pre ++ extra :: post.

Definition analyzed_as_JavaScript (fileName : string) : bool :=
  let fileExtension := toLowerCase (pop (split_on "." fileName)) in
  array_includes ["js"; "jsx"; "mjs"; "cjs"] fileExtension
  || array_includes ["ts"; "tsx"] fileExtension.

End CodeReview.

(* ===================================================================== *)
(** * The database (Prisma models [fileVersion] and [review]) *)
(* ===================================================================== *)

(** A diff entry as the orchestrator reads it: [lineNumber] and [type]
    (["added"], ["deleted"] or ["modified"]), with the optional texts. *)
Record ChangedLine := {
  lineNumber : Z;
  change_type : string;
  oldText : option string;
  newText : option string;
}.

(** [incrementalData] of the review metrics. *)
Record IncrementalData := {
  linesChanged : Z;
  linesAdded : Z;
  linesDeleted : Z;
  issuesFound : Z;
}.

(** [{ ...fullAnalysis.metrics, incrementalData }] *)
Record IncrementalMetrics := {
  base_metrics : CodeReview.Metrics;
  incrementalData : IncrementalData;
}.

Module Prisma.

(** A row of [fileVersion]. *)
Record FileVersion := {
  fv_id : Z;
  userId : string;
  fileKey : string;
  fileName : string;
  version : Z;
  content : string;
  hash : string;
  fv_size : Z;
}.

(** A row of [review]. *)
Record Review := {
  review_id : Z;
  review_userId : string;
  fileVersionId : Z;
  reviewType : string;
  linesReviewed : list ChangedLine;
  review_issues : list Issue;
  review_metrics : IncrementalMetrics;
}.

(** The two tables, rows in insertion order, and the counter the primary
    keys are drawn from. *)
Record Database := {
  fileVersions : list FileVersion;
  reviews : list Review;
  next_id : Z;
}.

Definition empty : Database :=
  {| fileVersions := []; reviews := []; next_id := 1 |}.

(** One step of the scan behind
    [findFirst({ where: { fileKey }, orderBy: { version: 'desc' } })]. *)
Definition keep_latest (key : string) (best : option FileVersion) (row : FileVersion)
    : option FileVersion :=
  if String.eqb (fileKey row) key then
    match best with
    | None => Some row
    | Some b => if version b <? version row then Some row else Some b
    end
  else best.

(** [prisma.fileVersion.findFirst({ where: { fileKey }, orderBy: { version:
    'desc' } })]: a row of that file with the greatest version. *)
Definition findFirst_latest (key : string) (db : Database) : option FileVersion :=
  foldl (keep_latest key) None (fileVersions db).

(** [prisma.fileVersion.create({ data })]: the new row, with its fresh key,
    and the database after the insertion. *)
Definition fileVersion_create (userId fileKey fileName : string) (version : Z)
    (content hash : string) (size : Z) (db : Database) : FileVersion * Database :=
  let row := {| fv_id := next_id db; userId := userId; fileKey := fileKey;
                fileName := fileName; version := version; content := content;
                hash := hash; fv_size := size |} in
  (row, {| fileVersions := fileVersions db ++ [row]; reviews := reviews db;
           next_id := next_id db + 1 |}).

(** [prisma.review.create({ data })]. *)
Definition review_create (userId : string) (fileVersionId : Z) (reviewType : string)
    (linesReviewed : list ChangedLine) (issues : list Issue)
    (metrics : IncrementalMetrics) (db : Database) : Review * Database :=
  let row := {| review_id := next_id db; review_userId := userId;
                fileVersionId := fileVersionId; reviewType := reviewType;
                linesReviewed := linesReviewed; review_issues := issues;
                review_metrics := metrics |} in
  (row, {| fileVersions := fileVersions db; reviews := reviews db ++ [row];
           next_id := next_id db + 1 |}).

End Prisma.

(* ===================================================================== *)
(** * The version store ([lib/version-tracker]) *)
(* ===================================================================== *)

Module VersionTracker.
Import Prisma.

(** [{ changed, version, id }]; [id] is present only on a new version. *)
Record StoreResult := {
  changed : bool;
  result_version : Z;
  result_id : option Z;
}.

Section Store.
Context `{JsRuntime}.

Definition generateContentHash (content : string) : string := sha256_hex content.

(** [(latestVersion?.version || 0) + 1] *)
Definition next_version (latestVersion : option FileVersion) : Z :=
  num_or (match latestVersion with Some lv => version lv | None => 0 end) 0 + 1.

(** [storeFileVersion(userId, fileKey, fileName, content)], as a transition
    of the database when nothing else touches the database between its
    query and its insertion. *)
Definition storeFileVersion (userId fileKey fileName content : string)
    (db : Database) : StoreResult * Database :=
  let hash := generateContentHash content in
  let size := byteLength content in
  (* Get the latest version number for this file *)
  let latestVersion := findFirst_latest fileKey db in
  (* Create new version *)
  let create_new :=
    let newVersion := next_version latestVersion in
    let '(fileVersion, db) :=
      fileVersion_create userId fileKey fileName newVersion content hash size db in
    ({| changed := true; result_version := newVersion;
        result_id := Some (fv_id fileVersion) |}, db) in
  (* Check if content has changed *)
  match latestVersion with
  | Some lv =>
      if String.eqb (Prisma.hash lv) hash then
        ({| changed := false; result_version := version lv; result_id := None |}, db)
      else create_new
  | None => create_new
  end.

(** [getLatestFileVersion(fileKey)] *)
Definition getLatestFileVersion (fileKey : string) (db : Database) : option FileVersion :=
  findFirst_latest fileKey db.

(** ** The two awaits of [storeFileVersion]

    The function suspends at [await prisma.fileVersion.findFirst(...)] and at
    [await prisma.fileVersion.create(...)]; between the two the database
    serves other requests.  A call is at one of three points. *)
Inductive Call : Type :=
| Started (userId fileKey fileName content : string)
| Creating (userId fileKey fileName content hash : string) (size newVersion : Z)
| Returned (r : StoreResult).

(** The database serves the pending operation of a call, which then runs to
    its next await (or returns). *)
Definition step (c : Call) (db : Database) : Call * Database :=
  match c with
  | Started userId fileKey fileName content =>
      let hash := generateContentHash content in
      let size := byteLength content in
      let latestVersion := findFirst_latest fileKey db in
      let creating :=
        (Creating userId fileKey fileName content hash size (next_version latestVersion),
         db) in
      match latestVersion with
      | Some lv =>
          if String.eqb (Prisma.hash lv) hash then
            (Returned {| changed := false; result_version := version lv;
                         result_id := None |}, db)
          else creating
      | None => creating
      end
  | Creating userId fileKey fileName content hash size newVersion =>
      let '(fileVersion, db) :=
        fileVersion_create userId fileKey fileName newVersion content hash size db in
      (Returned {| changed := true; result_version := newVersion;
                   result_id := Some (fv_id fileVersion) |}, db)
  | Returned r => (Returned r, db)
  end.

(** Which of two concurrent calls the database serves next. *)
Inductive Turn : Type := First | Second.

(** Two calls in flight, served in the order of the schedule. *)
Fixpoint run (schedule : list Turn) (a b : Call) (db : Database)
    : Call * Call * Database :=
  match schedule with
  | [] => (a, b, db)
  | First :: rest => let '(a', db') := step a db in run rest a' b db'
  | Second :: rest => let '(b', db') := step b db in run rest a b' db'
  end.

(** A sequence of saves, one after the other. *)
Record Save := {
  save_userId : string;
  save_fileKey : string;
  save_fileName : string;
  save_content : string;
}.

Definition save (s : Save) (db : Database) : StoreResult * Database :=
  storeFileVersion (save_userId s) (save_fileKey s) (save_fileName s) (save_content s) db.

Definition save_all (saves : list Save) (db : Database) : Database :=
  foldl (fun db s => snd (save s db)) db saves.

End Store.

(** The version numbers stored for a file, in insertion order. *)
Definition versions_of (key : string) (db : Database) : list Z :=
  version <$> List.filter (fun row => String.eqb (fileKey row) key) (fileVersions db).

(** The version numbers of a file are exactly 1, 2, ..., in the order of
    their creation. *)
Definition gapless (key : string) (db : Database) : Prop :=
  versions_of key db = seqZ 1 (len (versions_of key db)).

End VersionTracker.

(* ===================================================================== *)
(** * The incremental orchestrator (the incremental code-review route) *)
(* ===================================================================== *)

(** The two functions imported from [lib/diff-engine]; that file is not
    among the sources, so the orchestrator is parameterised by them. *)
Class DiffEngine := {
  Diff : Type;
  calculateDiff : string -> string -> Diff;
  getChangedLines : Diff -> list ChangedLine;
}.

Module Incremental.
Import Prisma.

(** The user [withAuth()] resolves to. *)
Record User := { user_id : string }.

(** What a request carries: the session user ([None] is [null]) and the two
    fields of the JSON body ([None] is a missing field). *)
Record Request := {
  user : option User;
  req_fileKey : option string;
  req_fileName : option string;
}.

(** Calls the handler makes, in the order it makes them. *)
Inductive Event : Type :=
| GetFileContent (key : string)
| GetLatestFileVersion (key : string)
| CalculateDiff
| ReviewCreate.

(** The object store, the database and the log of calls. *)
Record World := {
  s3 : gmap string string;
  db : Database;
  events : list Event;
}.

(** [analysis] of the JSON response. *)
Record ResponseAnalysis := {
  issues : list Issue;
  metrics : IncrementalMetrics;
}.

(** The JSON responses of the handler. *)
Inductive Response : Type :=
| Unauthorized        (* { error: 'Unauthorized' }, status 401 *)
| FileKeyRequired     (* { error: 'fileKey is required' }, status 400 *)
| RequiresFullReview  (* { success: false, message, requiresFullReview: true } *)
| NoChanges (fileName fileKey content : string) (changedLines : list ChangedLine)
    (analysis : ResponseAnalysis)
| IncrementalReview (fileName fileKey content : string) (changedLines : list ChangedLine)
    (analysis : ResponseAnalysis)
| Failed (details : string).  (* { error: 'Failed to perform incremental review', details }, status 500 *)

(** ** Computations of the handler: state and exceptions *)

Definition M (A : Type) : Type := World -> completion A * World.

Definition ret {A : Type} (a : A) : M A := fun w => (Normal a, w).

Definition bind {A B : Type} (m : M A) (k : A -> M B) : M B :=
  fun w => match m w with
           | (Normal a, w') => k a w'
           | (Throw e, w') => (Throw e, w')
           end.

Definition throw {A : Type} (e : JsError) : M A := fun w => (Throw e, w).

Definition log (ev : Event) : M unit :=
  fun w => (Normal tt, {| s3 := s3 w; db := db w; events := events w ++ [ev] |}).

Notation "'let*' x := m 'in' k" := (bind m (fun x => k))
  (at level 10, x name, m at level 100, k at level 200).
Notation "'run*' m 'in' k" := (bind m (fun _ => k))
  (at level 10, m at level 100, k at level 200).

(** [new Set(arr)] followed by [Array.from]: the distinct elements in the
    order of their first occurrence. *)
Definition Set_add (x : Z) (s : list Z) : list Z :=
  if bool_decide (x ∈ s) then s else s ++ [x].
Definition new_Set (arr : list Z) : list Z := foldl (fun s x => Set_add x s) [] arr.

(** The filter of the handler: issues on changed lines or within 2 lines of
    changes. *)
Definition incremental_filter (changedLines : list ChangedLine)
    (fullIssues : list Issue) : list Issue :=
  let changedLineNumbers := new_Set (lineNumber <$> changedLines) in
  List.filter (fun issue =>
      some (fun lineNum => Z.abs (line issue - lineNum) <=? 2) changedLineNumbers)
    fullIssues.

(** [changedLines.filter(c => c.type === t).length] *)
Definition count_type (t : string) (changedLines : list ChangedLine) : Z :=
  len (List.filter (fun c => String.eqb (change_type c) t) changedLines).

Section Handler.
Context `{DiffEngine}.

(** [await getFileContent(key)]: the object's text, or the error of the
    object store. *)
Definition getFileContent (key : string) : M string :=
  run* log (GetFileContent key) in
  fun w => match s3 w !! key with
           | Some text => (Normal text, w)
           | None => (Throw {| err_message := "NoSuchKey"; err_loc := None |}, w)
           end.

Definition getLatestFileVersion (key : string) : M (option FileVersion) :=
  run* log (GetLatestFileVersion key) in
  fun w => (Normal (VersionTracker.getLatestFileVersion key (db w)), w).

Definition calculateDiff_call (old new : string) : M Diff :=
  run* log CalculateDiff in ret (calculateDiff old new).

(** [analyzeCode(currentContent, fileName)].  The handler imports
    [analyzeCode] from [../route], but that module declares the function
    without [export]: its only export is [POST].  The imported binding is
    therefore [undefined], and calling it throws a [TypeError] before any
    analysis runs.  The wording of the message is the engine's. *)
Definition analyzeCode_call (content : string) (fileName : option string)
    : M CodeReview.Analysis :=
  throw {| err_message := "analyzeCode is not a function"; err_loc := None |}.

Definition review_create_call (userId : string) (fileVersionId : Z)
    (linesReviewed : list ChangedLine) (issues : list Issue)
    (metrics : IncrementalMetrics) : M unit :=
  run* log ReviewCreate in
  fun w =>
    let '(_, db') :=
      review_create userId fileVersionId "incremental" linesReviewed issues metrics (db w) in
    (Normal tt, {| s3 := s3 w; db := db'; events := events w |}).

(** [fileName || fileKey.split('/').pop()] *)
Definition display_name (fileName : option string) (fileKey : string) : string :=
  match fileName with
  | Some name => if truthy name then name else pop (split_on "/" fileKey)
  | None => pop (split_on "/" fileKey)
  end.

(** The body of the [try] block. *)
Definition POST_body (request : Request) : M Response :=
  match user request with
  | None => ret Unauthorized
  | Some user =>
  match req_fileKey request with
  | None => ret FileKeyRequired
  | Some fileKey =>
  if negb (truthy fileKey) then ret FileKeyRequired else
  let fileName := req_fileName request in
  (* Get current content *)
  let* currentContent := getFileContent fileKey in
  (* Get latest stored version *)
  let* previousVersion := getLatestFileVersion fileKey in
  match previousVersion with
  | None => ret RequiresFullReview
  | Some previousVersion =>
  (* Calculate diff *)
  let* diff := calculateDiff_call (content previousVersion) currentContent in
  let changedLines := getChangedLines diff in
  if len changedLines =? 0 then
    ret (NoChanges (display_name fileName fileKey) fileKey currentContent []
          {| issues := [];
             metrics :=
               {| base_metrics :=
                    {| CodeReview.totalLines := len (split_lines currentContent);
                       CodeReview.codeLines := 0;
                       CodeReview.commentLines := 0;
                       CodeReview.blankLines := 0;
                       CodeReview.errorCount := 0;
                       CodeReview.warningCount := 0;
                       CodeReview.infoCount := 0;
                       CodeReview.qualityScore := 100 |};
                  incrementalData :=
                    {| linesChanged := 0; linesAdded := 0; linesDeleted := 0;
                       issuesFound := 0 |} |} |})
  else
  (* Run analysis only on changed lines *)
  let* fullAnalysis := analyzeCode_call currentContent fileName in
  (* Filter issues to only those on or near changed lines *)
  let incrementalIssues := incremental_filter changedLines (CodeReview.issues fullAnalysis) in
  let metrics :=
    {| base_metrics := CodeReview.metrics fullAnalysis;
       incrementalData :=
         {| linesChanged := len changedLines;
            linesAdded := count_type "added" changedLines;
            linesDeleted := count_type "deleted" changedLines;
            issuesFound := len incrementalIssues |} |} in
  (* Store the review *)
  run* review_create_call (user_id user) (fv_id previousVersion) changedLines
         incrementalIssues metrics in
  ret (IncrementalReview (display_name fileName fileKey) fileKey currentContent
         changedLines {| issues := incrementalIssues; metrics := metrics |})
  end end end.

(** [POST(request)]: the [try] block, and the [catch] that answers 500. *)
Definition POST (request : Request) (w : World) : Response * World :=
  match POST_body request w with
  | (Normal response, w') => (response, w')
  | (Throw error, w') => (Failed (err_message error), w')
  end.

End Handler.

(** The world after further calls have been logged. *)
Definition logged (evs : list Event) (w : World) : World :=
  {| s3 := s3 w; db := db w; events := events w ++ evs |}.

(** What the handler has in hand when it reaches the version check: an
    authenticated user, a non-empty key, and the current content of the
    object. *)
Definition fetched (request : Request) (w : World) (u : User) (k content : string) : Prop :=
  user request = Some u /\ req_fileKey request = Some k /\ truthy k = true
  /\ s3 w !! k = Some content.

End Incremental.


(* ===================================================================== *)
(** * A small runtime and diff engine for worked examples *)
(* ===================================================================== *)

Module Examples.

(** Keyword search standing in for the regular-expression engine on the few
    patterns the examples exercise. *)
Definition found (keyword s : string) : list string :=
  if includes s keyword then [keyword] else [].

Definition example_matches (p : pattern) (s : string) : list string :=
  match p with
  | P_var => found "var " s
  | P_looseEquality => found " == " s
  | P_consoleLint | P_console => found "console.log" s
  | P_password => found "password = 'hunter2'" s
  | _ => []
  end.

(** How many opening parentheses in a row the examples take to exhaust the
    stack of the recursive-descent parser: more than the engine has frames,
    one frame at least being used for each level. *)
Definition stack_depth : nat := 200 * 100.

Fixpoint repeat_char (c : ascii) (n : nat) (rest : string) : string :=
  match n with
  | O => rest
  | S n' => String c (repeat_char c n' rest)
  end.

(** The parser on the inputs of the examples: a stray closing brace is a
    syntax error located on line 1; an expression nested [stack_depth]
    parentheses deep exhausts the stack, and the [RangeError] of the engine
    carries no [loc]. *)
Definition example_acorn (content : string) : completion unit :=
  if includes content (repeat_char "(" stack_depth "") then
    Throw {| err_message := "Maximum call stack size exceeded"; err_loc := None |}
  else if startsWith content "}" then
    Throw {| err_message := "Unexpected token (1:0)"; err_loc := Some 1 |}
  else Normal tt.

Definition example_JSON (content : string) : completion unit :=
  if String.eqb content "{}" then Normal tt
  else Throw {| err_message := "Unexpected end of JSON input"; err_loc := None |}.

(** The digest is the identity here: distinct contents, distinct digests. *)
Definition example_runtime : JsRuntime :=
  {| re_match_all := example_matches;
     byteLength := strlen;
     kilobytes_toFixed2 := fun bytes => show (bytes / 1024);
     acorn_parse := example_acorn;
     JSON_parse := example_JSON;
     sha256_hex := fun content => content |}.

(** A line-by-line positional diff: line [n] is modified when both sides
    have a different line [n], deleted when only the old side has it, added
    when only the new side has it. *)
Fixpoint tail_entries (kind : string) (old_side : bool) (n : Z) (rest : list string)
    : list ChangedLine :=
  match rest with
  | [] => []
  | text :: rest' =>
      {| lineNumber := n; change_type := kind;
         oldText := if old_side then Some text else None;
         newText := if old_side then None else Some text |}
      :: tail_entries kind old_side (n + 1) rest'
  end.

Fixpoint positional_diff (n : Z) (old new : list string) : list ChangedLine :=
  match old with
  | [] => tail_entries "added" false n new
  | o :: old' =>
      match new with
      | [] => tail_entries "deleted" true n old
      | a :: new' =>
          if String.eqb o a then positional_diff (n + 1) old' new'
          else {| lineNumber := n; change_type := "modified";
                  oldText := Some o; newText := Some a |}
               :: positional_diff (n + 1) old' new'
      end
  end.

Definition example_diff : DiffEngine :=
  {| Diff := list ChangedLine;
     calculateDiff := fun old new => positional_diff 1 (split_lines old) (split_lines new);
     getChangedLines := fun diff => diff |}.

(** Twenty-one lines, each indented by 26 spaces and assigning a literal
    password. *)
Definition nested_secret_line : string :=
  "                          password = 'hunter2'".
Definition overloaded_content : string :=
  join (String newline EmptyString) (replicate 21 nested_secret_line).

(** An expression nested beyond what the parser's stack allows:
    [x = (((...(1)...)))] with [stack_depth] parentheses on each side. *)
Definition deeply_nested_content : string :=
  "x = " +:+ repeat_char "(" stack_depth (String "1" (repeat_char ")" stack_depth "")).

(** A twelve-line script whose line 10 declares with [var]; the edit
    touches line 8. *)
Definition script_before : string :=
  join (String newline EmptyString)
    ["// 1"; "// 2"; "// 3"; "// 4"; "// 5"; "// 6"; "// 7"; "let a = 1;";
     "// 9"; "var y = 2;"; "// 11"; "// 12"].
Definition script_after : string :=
  join (String newline EmptyString)
    ["// 1"; "// 2"; "// 3"; "// 4"; "// 5"; "// 6"; "// 7"; "let a = 2;";
     "// 9"; "var y = 2;"; "// 11"; "// 12"].

(** The warning of the flat analyzer for the [var] on line 10. *)
Definition var_warning_line_10 : Issue :=
  CodeReview.issue "best-practice" "warning" 10
    ("Use of " +:+ quoted "var" +:+ " keyword")
    ("Use " +:+ quoted "const" +:+ " or " +:+ quoted "let" +:+ " instead of "
       +:+ quoted "var" +:+ " for better scoping").


(** The world in which [key] was saved once with [before] and now holds
    [after] in the object store. *)
Definition edited_world (key name before after : string) : Incremental.World :=
  {| Incremental.s3 := {[ key := after ]};
     Incremental.db :=
       snd (@VersionTracker.storeFileVersion example_runtime "u1" key name before
              Prisma.empty);
     Incremental.events := [] |}.

Definition review_request (key name : string) : Incremental.Request :=
  {| Incremental.user := Some {| Incremental.user_id := "u1" |};
     Incremental.req_fileKey := Some key;
     Incremental.req_fileName := Some name |}.

(** The same request without a session. *)
Definition anonymous_request (key name : string) : Incremental.Request :=
  {| Incremental.user := None;
     Incremental.req_fileKey := Some key;
     Incremental.req_fileName := Some name |}.

(** A world whose object store is empty. *)
Definition empty_world : Incremental.World :=
  {| Incremental.s3 := ∅; Incremental.db := Prisma.empty; Incremental.events := [] |}.

End Examples.

(* ===================================================================== *)
(** * The queries of the version store *)
(* ===================================================================== *)

Module VersionQueries.
Import Prisma VersionTracker.

(** [orderBy: { version: 'desc' }] and [orderBy: { version: 'asc' }]. *)
Definition newer_first : relation FileVersion :=
  fun r1 r2 => version r2 <= version r1.
Definition older_first : relation FileVersion :=
  fun r1 r2 => version r1 <= version r2.

Global Instance newer_first_dec : RelDecision newer_first.
Proof. intros r1 r2. unfold newer_first. apply _. Defined.
Global Instance older_first_dec : RelDecision older_first.
Proof. intros r1 r2. unfold older_first. apply _. Defined.

(** [where: { fileKey }] *)
Definition rows_of (key : string) (db : Database) : list FileVersion :=
  List.filter (fun row => String.eqb (fileKey row) key) (fileVersions db).

(** [prisma.fileVersion.findMany({ where: { fileKey }, orderBy: { version } })] *)
Definition findMany_desc (key : string) (db : Database) : list FileVersion :=
  merge_sort newer_first (rows_of key db).
Definition findMany_asc (key : string) (db : Database) : list FileVersion :=
  merge_sort older_first (rows_of key db).

(** [prisma.fileVersion.findUnique({ where: { id } })] *)
Definition findUnique (id : Z) (db : Database) : option FileVersion :=
  List.find (fun row => fv_id row =? id) (fileVersions db).

(** [select: { id, version, createdAt, size, hash }] *)
Record VersionSummary := {
  summary_id : Z;
  summary_version : Z;
  summary_createdAt : Z;
  summary_size : Z;
  summary_hash : string;
}.

(** [select: { id, version, createdAt, size, hash, fileName }] *)
Record HistoryEntry := {
  entry_id : Z;
  entry_version : Z;
  entry_createdAt : Z;
  entry_size : Z;
  entry_hash : string;
  entry_fileName : string;
}.

(** What [getVersionStats] returns when the file has versions. *)
Record VersionStats := {
  totalVersions : Z;
  firstCreated : Z;
  lastModified : Z;
  currentSize : Z;
  initialSize : Z;
}.

(** One side of a comparison. *)
Record VersionInfo := {
  info_id : Z;
  info_version : Z;
  info_createdAt : Z;
  info_size : Z;
  info_content : string;
}.

(** What [compareFileVersions] returns. *)
Record Comparison := {
  version1 : VersionInfo;
  version2 : VersionInfo;
  sizeDiff : Z;
  hashChanged : bool;
}.

Section Queries.
Context `{JsRuntime}.

(** The [createdAt] column, which the database fills in; the rows of the
    model do not carry it, so it is a function of the row. *)
Variable createdAt : FileVersion -> Z.

(** [getFileVersion(id)] *)
Definition getFileVersion (id : Z) (db : Database) : option FileVersion :=
  findUnique id db.

(** [getFileVersions(fileKey)] *)
Definition getFileVersions (fileKey : string) (db : Database) : list VersionSummary :=
  (fun row => {| summary_id := fv_id row; summary_version := version row;
                 summary_createdAt := createdAt row; summary_size := fv_size row;
                 summary_hash := hash row |})
  <$> findMany_desc fileKey db.

(** [hasFileChanged(fileKey, content)]:
    [!latestVersion || latestVersion.hash !== hash] *)
Definition hasFileChanged (fileKey content : string) (db : Database) : bool :=
  let hash := generateContentHash content in
  match findFirst_latest fileKey db with
  | None => true
  | Some latestVersion => negb (String.eqb (Prisma.hash latestVersion) hash)
  end.

(** [getVersionStats(fileKey)]; [None] is [null]. *)
Definition getVersionStats (fileKey : string) (db : Database) : option VersionStats :=
  let versions := findMany_asc fileKey db in
  match versions with
  | [] => None
  | first :: _ =>
      let final := List.last versions first in
      Some {| totalVersions := len versions;
              firstCreated := createdAt first;
              lastModified := createdAt final;
              currentSize := fv_size final;
              initialSize := fv_size first |}
  end.

(** [getFileVersionHistory(fileKey)] *)
Definition getFileVersionHistory (fileKey : string) (db : Database) : list HistoryEntry :=
  (fun row => {| entry_id := fv_id row; entry_version := version row;
                 entry_createdAt := createdAt row; entry_size := fv_size row;
                 entry_hash := hash row; entry_fileName := fileName row |})
  <$> findMany_desc fileKey db.

Definition version_info (row : FileVersion) : VersionInfo :=
  {| info_id := fv_id row; info_version := version row;
     info_createdAt := createdAt row; info_size := fv_size row;
     info_content := content row |}.

(** [compareFileVersions(versionId1, versionId2)] *)
Definition compareFileVersions (versionId1 versionId2 : Z) (db : Database)
    : completion Comparison :=
  match findUnique versionId1 db, findUnique versionId2 db with
  | Some v1, Some v2 =>
      Normal {| version1 := version_info v1;
                version2 := version_info v2;
                sizeDiff := fv_size v2 - fv_size v1;
                hashChanged := negb (String.eqb (hash v1) (hash v2)) |}
  | _, _ =>
      Throw {| err_message := "One or both versions not found"; err_loc := None |}
  end.

End Queries.

(** A call in flight for the file [key] agrees with the database: the
    version it is about to insert is the next one of the file. *)
Definition in_step_with (key : string) (c : Call) (db : Database) : Prop :=
  match c with
  | Started _ k _ _ => k = key
  | Creating _ k _ _ _ _ newVersion =>
      k = key /\ newVersion = len (versions_of key db) + 1
  | Returned _ => True
  end.

(** Every row's key is below the counter the next key is drawn from. *)
Definition keys_below_counter (db : Database) : Prop :=
  Forall (fun row => fv_id row < next_id db) (fileVersions db).

End VersionQueries.
(* ===================================================================== *)
(** * Properties *)
(* ===================================================================== *)

(** ** The string methods on small inputs *)

Example split_keeps_trailing_empty_line :
  split_lines (join (String newline EmptyString) ["a"; "b"; ""]) = ["a"; "b"; ""]
  /\ split_lines "" = [""].
Proof. split; reflexivity. Qed.

Example string_methods :
  endsWith "let a = 1; " " " = true
  /\ endsWith "" " " = false
  /\ includes "const f = () => 1" "= () =>" = true
  /\ trim "  a b  " = "a b"
  /\ split_spaces "const  x" = ["const"; "x"]
  /\ toLowerCase (pop (split_on "." "src/App.test.JS")) = "js"
  /\ search_nonspace "    x" = 4
  /\ search_nonspace "    " = -1
  /\ show 123 = "123".
Proof. repeat split; vm_compute; reflexivity. Qed.

(** ** Loops *)

(** An invariant of the accumulator is preserved by [forEach] when every
    call of the callback preserves it; the callback may rely on its element
    being in the array and on its index being a valid one. *)
Lemma forEach_from_invariant {A S : Type} (P : S -> Prop) (f : A -> Z -> S -> S)
    (l : list A) :
  forall (index : Z) (s : S),
    0 <= index ->
    (forall x i s, x ∈ l -> 0 <= i -> P s -> P (f x i s)) ->
    P s -> P (forEach_from index f l s).
Proof.
  induction l as [|x l IH]; intros index s Hidx Hf Hs; simpl; [exact Hs|].
  apply IH; [lia | | ].
  - intros y i t Hy Hi Ht. apply Hf; [apply elem_of_cons; by right | lia | exact Ht].
  - apply Hf; [apply elem_of_cons; by left | lia | exact Hs].
Qed.

Lemma forEach_invariant {A S : Type} (P : S -> Prop) (f : A -> Z -> S -> S)
    (l : list A) (s : S) :
  (forall x i s, x ∈ l -> 0 <= i -> P s -> P (f x i s)) ->
  P s -> P (forEach l f s).
Proof. intros Hf Hs. unfold forEach. by apply forEach_from_invariant. Qed.

(** Two runs of the same loop over related accumulators, with callbacks
    that keep them related, end in related accumulators. *)
Lemma forEach_from_related {A S T : Type} (R : S -> T -> Prop)
    (f : A -> Z -> S -> S) (g : A -> Z -> T -> T) (l : list A) :
  forall (index : Z) (s : S) (t : T),
    (forall x i s t, R s t -> R (f x i s) (g x i t)) ->
    R s t -> R (forEach_from index f l s) (forEach_from index g l t).
Proof.
  induction l as [|x l IH]; intros index s t Hfg Hst; simpl; [exact Hst|].
  apply IH; [exact Hfg|]. by apply Hfg.
Qed.

Lemma forEach_related {A S T : Type} (R : S -> T -> Prop)
    (f : A -> Z -> S -> S) (g : A -> Z -> T -> T) (l : list A) (s : S) (t : T) :
  (forall x i s t, R s t -> R (f x i s) (g x i t)) ->
  R s t -> R (forEach l f s) (forEach l g t).
Proof. intros. unfold forEach. by apply forEach_from_related. Qed.

(** A transformation of the accumulator that commutes with every call of the
    callback commutes with the loop. *)
Lemma forEach_from_commute {A S : Type} (h : S -> S) (f : A -> Z -> S -> S) (l : list A) :
  (forall x i s, f x i (h s) = h (f x i s)) ->
  forall (index : Z) (s : S), forEach_from index f l (h s) = h (forEach_from index f l s).
Proof.
  intros Hf. induction l as [|x l IH]; intros index s; simpl; [reflexivity|].
  rewrite Hf. apply IH.
Qed.

Lemma forEach_commute {A S : Type} (h : S -> S) (f : A -> Z -> S -> S) (l : list A)
    (s t : S) :
  (forall x i s, f x i (h s) = h (f x i s)) ->
  t = h s -> forEach l f t = h (forEach l f s).
Proof. intros Hf ->. unfold forEach. by apply forEach_from_commute. Qed.

(** The invariant rule again, with the index known to be a position of
    the array. *)
Lemma forEach_from_invariant_bounded {A S : Type} (P : S -> Prop)
    (f : A -> Z -> S -> S) (l : list A) :
  forall (index : Z) (s : S),
    0 <= index ->
    (forall x i s, x ∈ l -> index <= i < index + len l -> P s -> P (f x i s)) ->
    P s -> P (forEach_from index f l s).
Proof.
  unfold len. induction l as [|x l IH]; intros index s Hidx Hf Hs; simpl; [exact Hs|].
  apply IH; [lia | | ].
  - intros y i t Hy Hi Ht. apply Hf; [apply elem_of_cons; by right | | exact Ht].
    simpl length. lia.
  - apply Hf; [apply elem_of_cons; by left | | exact Hs]. simpl length. lia.
Qed.

Lemma forEach_invariant_bounded {A S : Type} (P : S -> Prop) (f : A -> Z -> S -> S)
    (l : list A) (s : S) :
  (forall x i s, x ∈ l -> 0 <= i < len l -> P s -> P (f x i s)) ->
  P s -> P (forEach l f s).
Proof.
  intros Hf Hs. unfold forEach. apply forEach_from_invariant_bounded; [lia | | exact Hs].
  intros x i t Hx Hi Ht. apply Hf; [exact Hx | lia | exact Ht].
Qed.

(** A callback that ignores its index makes [forEach] a left fold. *)
Lemma forEach_from_foldl {A S : Type} (f : A -> S -> S) (l : list A) :
  forall (index : Z) (s : S),
    forEach_from index (fun x _ s => f x s) l s = foldl (fun s x => f x s) s l.
Proof. induction l as [|x l IH]; intros index s; simpl; [reflexivity | apply IH]. Qed.

(* ===================================================================== *)
(** ** Scores of the multi-dimensional analyzer *)
(* ===================================================================== *)

Module ScoreProperties.
Import MultiDimensional.

Lemma deduct_penalty (issue : Issue) (score : Z) :
  deduct issue score = score - penalty issue.
Proof.
  unfold deduct, penalty.
  repeat (destruct (String.eqb _ _); [lia|]). lia.
Qed.

Lemma deduct_all (issues : list Issue) :
  forall score : Z,
    foldl (fun s i => deduct i s) score issues = score - total_penalty issues.
Proof.
  induction issues as [|i issues IH]; intros score; simpl; [lia|].
  rewrite IH, deduct_penalty. lia.
Qed.

Lemma calculateScore_penalty (issues : list Issue) (maxDeduction : Z) :
  calculateScore issues maxDeduction
  = Z.max (100 - maxDeduction) (100 - total_penalty issues).
Proof.
  unfold calculateScore, forEach.
  rewrite (forEach_from_foldl deduct), deduct_all. reflexivity.
Qed.

(** C1.  For every analyzed content, the score of each scored dimension is
    100 minus the accumulated severity-weighted penalty of that dimension's
    issues (critical 15, error 10, warning 5, info 1), clamped below at the
    dimension's floor: 0 for security, 50 for linting, architecture and
    quality.  In particular an architecture dimension whose penalty exceeds
    100 reports exactly 50 and a security dimension whose penalty exceeds 100
    reports 0. *)
Theorem dimension_scores `{JsRuntime} (content fileName : string) :
  let a := analyzeCodeMultiDimensional content fileName in
  dim_score (linting a) = Z.max 50 (100 - total_penalty (dim_issues (linting a)))
  /\ dim_score (security a) = Z.max 0 (100 - total_penalty (dim_issues (security a)))
  /\ dim_score (architecture a)
     = Z.max 50 (100 - total_penalty (dim_issues (architecture a)))
  /\ dim_score (quality a) = Z.max 50 (100 - total_penalty (dim_issues (quality a)))
  /\ (100 < total_penalty (dim_issues (architecture a)) -> dim_score (architecture a) = 50)
  /\ (100 < total_penalty (dim_issues (security a)) -> dim_score (security a) = 0).
Proof.
  intros a. subst a. unfold analyzeCodeMultiDimensional.
  set (b := combine_issues _).
  cbn [calculateScores linting security architecture quality set_score
       dim_score dim_issues].
  rewrite !calculateScore_penalty. unfold default_maxDeduction.
  repeat split; try reflexivity; intros; lia.
Qed.

(** The overloaded example: 21 deeply nested lines with a hardcoded secret
    put 105 penalty points on architecture and 315 on security. *)
Lemma dimension_scores_witness :
  let a := @analyzeCodeMultiDimensional Examples.example_runtime
             Examples.overloaded_content "config.txt" in
  dim_score (architecture a) = 50 /\ dim_score (security a) = 0.
Proof.
  intros a.
  destruct (@dimension_scores Examples.example_runtime
              Examples.overloaded_content "config.txt") as (_ & _ & _ & _ & Harch & Hsec).
  split; [apply Harch | apply Hsec]; vm_compute; reflexivity.
Defined.

(** The two-line script [var x = 1 / if (x == 1) { console.log(x) }] as a
    JavaScript file: the linting pass reports the [var], the loose equality
    and the console statement, and the linting score drops to 89. *)
Example var_equality_console :
  let a := @analyzeCodeMultiDimensional Examples.example_runtime
             (join (String newline EmptyString)
                ["var x = 1"; "if (x == 1) { console.log(x) }"; ""])
             "script.js" in
  (fun i => (line i, severity i, message i)) <$> dim_issues (linting a)
  = [(1, "warning", "Use of deprecated " +:+ quoted "var" +:+ " keyword");
     (2, "warning", "Use of loose equality (==)");
     (2, "info", "Console statement detected")]
  /\ dim_score (linting a) = 89.
Proof. vm_compute. split; reflexivity. Qed.

End ScoreProperties.

(* ===================================================================== *)
(** ** Line attribution in the multi-dimensional analyzer *)
(* ===================================================================== *)

Module AttributionProperties.
Import MultiDimensional.

Section Attribution.
Context `{JsRuntime}.
Variable P : Issue -> Prop.

Lemma every_issue_push_linting (i : Issue) (a : Analysis) :
  P i -> every_issue P a -> every_issue P (push_linting i a).
Proof.
  intros Hi (?&?&?&?&?&?). repeat split; simpl; try assumption.
  apply Forall_app; split; [assumption | by constructor].
Qed.

Lemma every_issue_push_security (i : Issue) (a : Analysis) :
  P i -> every_issue P a -> every_issue P (push_security i a).
Proof.
  intros Hi (?&?&?&?&?&?). repeat split; simpl; try assumption.
  apply Forall_app; split; [assumption | by constructor].
Qed.

Lemma every_issue_push_architecture (i : Issue) (a : Analysis) :
  P i -> every_issue P a -> every_issue P (push_architecture i a).
Proof.
  intros Hi (?&?&?&?&?&?). repeat split; simpl; try assumption.
  apply Forall_app; split; [assumption | by constructor].
Qed.

Lemma every_issue_push_quality (i : Issue) (a : Analysis) :
  P i -> every_issue P a -> every_issue P (push_quality i a).
Proof.
  intros Hi (?&?&?&?&?&?). repeat split; simpl; try assumption.
  apply Forall_app; split; [assumption | by constructor].
Qed.

Lemma every_issue_push_documentation (i : Issue) (a : Analysis) :
  P i -> every_issue P a -> every_issue P (push_documentation i a).
Proof.
  intros Hi (?&?&?&?&?&?). repeat split; simpl; try assumption.
  apply Forall_app; split; [assumption | by constructor].
Qed.

Lemma every_issue_push_suggestion (i : Issue) (a : Analysis) :
  P i -> every_issue P a -> every_issue P (push_suggestion i a).
Proof.
  intros Hi (?&?&?&?&?&?). repeat split; simpl; try assumption.
  apply Forall_app; split; [assumption | by constructor].
Qed.

Lemma every_issue_set_metrics (m : Metrics) (a : Analysis) :
  every_issue P a -> every_issue P (set_metrics m a).
Proof. intros H0. exact H0. Qed.

End Attribution.

(** An issue literal at line [index + 1] of a [forEach] callback, in a
    category that is not file-level. *)
Lemma well_attributed_at_index (ty cat sev : string) (index : Z) (msg sugg : string)
    (fixable : bool) :
  0 <= index ->
  array_includes ["modularity"; "dependencies"; "module-design"] cat = false ->
  well_attributed (issue ty cat sev (index + 1) msg sugg fixable).
Proof.
  intros Hi Hcat. split; [simpl; lia|].
  unfold file_level_finding, issue. cbn [category]. rewrite Hcat. discriminate.
Qed.

Lemma well_attributed_line_1 (ty cat sev msg sugg : string) (fixable : bool) :
  well_attributed (issue ty cat sev 1 msg sugg fixable).
Proof. split; simpl; [lia | reflexivity]. Qed.

Lemma well_attributed_suggestion (ty cat sev : string) (ln : Z) (msg sugg : string) :
  1 <= ln ->
  array_includes ["modularity"; "dependencies"; "module-design"] cat = false ->
  well_attributed (suggestion_entry ty cat sev ln msg sugg).
Proof.
  intros Hl Hcat. split; [simpl; lia|].
  unfold file_level_finding, suggestion_entry. cbn [category]. rewrite Hcat. discriminate.
Qed.

(** One step through a pass: enter a loop, split a condition, account for a
    push. *)
Ltac attribution_step :=
  match goal with
  | |- every_issue _ (forEach _ _ _) =>
      apply forEach_invariant; [intros ? ? ? ? ? ? |]
  | |- every_issue _ (push_linting _ _) => apply every_issue_push_linting
  | |- every_issue _ (push_security _ _) => apply every_issue_push_security
  | |- every_issue _ (push_architecture _ _) => apply every_issue_push_architecture
  | |- every_issue _ (push_quality _ _) => apply every_issue_push_quality
  | |- every_issue _ (push_documentation _ _) => apply every_issue_push_documentation
  | |- every_issue _ (push_suggestion _ _) => apply every_issue_push_suggestion
  | |- every_issue _ (if ?c then _ else _) => destruct c
  | |- well_attributed (issue _ _ _ (_ + 1) _ _ _) =>
      apply well_attributed_at_index; [lia | reflexivity]
  | |- well_attributed (issue _ _ _ 1 _ _ _) => apply well_attributed_line_1
  | |- well_attributed (suggestion_entry _ _ _ _ _ _) =>
      apply well_attributed_suggestion; [lia | reflexivity]
  | |- every_issue _ _ => assumption
  end.

Ltac attribution := cbv zeta; repeat attribution_step.

Section Passes.
Context `{JsRuntime}.
Hypothesis acorn_1_based : acorn_lines_from_1.

Lemma lintJavaScript_attribution (content : string) (lines : list string) (a : Analysis) :
  every_issue well_attributed a ->
  every_issue well_attributed (lintJavaScript content lines a).
Proof.
  intros Ha. unfold lintJavaScript. cbv zeta.
  destruct (acorn_parse content) as [u|error] eqn:Hparse; [attribution|].
  destruct (err_loc error) as [l|] eqn:Hloc; [|attribution].
  apply every_issue_push_linting; [|attribution].
  split; simpl; [|discriminate]. eapply acorn_1_based; eassumption.
Qed.

Lemma performLintingAnalysis_attribution (content : string) (lines : list string)
    (ext : string) (a : Analysis) :
  every_issue well_attributed a ->
  every_issue well_attributed (performLintingAnalysis content lines ext a).
Proof.
  intros Ha. unfold performLintingAnalysis. cbv zeta.
  destruct (array_includes _ ext).
  { apply lintJavaScript_attribution. attribution. }
  destruct (String.eqb ext "py"); [unfold lintPython; attribution|].
  destruct (array_includes _ ext); [unfold lintCSS; attribution|].
  attribution.
Qed.

Lemma performSecurityAnalysis_attribution (content : string) (lines : list string)
    (ext : string) (a : Analysis) :
  every_issue well_attributed a ->
  every_issue well_attributed (performSecurityAnalysis content lines ext a).
Proof.
  intros Ha. unfold performSecurityAnalysis, securityCheckJavaScript, securityCheckPython.
  attribution.
Qed.

Lemma performArchitectureAnalysis_attribution (content : string) (lines : list string)
    (ext : string) (a : Analysis) :
  every_issue well_attributed a ->
  every_issue well_attributed (performArchitectureAnalysis content lines ext a).
Proof. intros Ha. unfold performArchitectureAnalysis. attribution. Qed.

Lemma performQualityAnalysis_attribution (content : string) (lines : list string)
    (ext : string) (a : Analysis) :
  every_issue well_attributed a ->
  every_issue well_attributed (performQualityAnalysis content lines ext a).
Proof.
  intros Ha. unfold performQualityAnalysis. cbv zeta.
  (* the duplicate-block loop, whose accumulator carries the map *)
  set (duplicates := forEach (seqZ 0 _) _ (∅, _)).
  assert (every_issue well_attributed (snd duplicates)) as Hdup.
  { apply (forEach_invariant (fun st => every_issue well_attributed (snd st)));
      [|simpl; attribution].
    intros i index [codeBlocks a'] Hin _ Ha'; simpl in Ha'.
    apply elem_of_seqZ in Hin.
    destruct (_ && _ && _); simpl; [|assumption].
    destruct (codeBlocks !! _); [|assumption].
    apply every_issue_push_quality; [|assumption].
    apply well_attributed_at_index; [lia | reflexivity]. }
  destruct duplicates as [codeBlocks a']. simpl in Hdup.
  (* the long-function loop, whose accumulator carries two counters *)
  set (long_functions := forEach lines _ (_, -1, 0)).
  assert (every_issue well_attributed (fst (fst long_functions))) as Hlong;
    [|destruct long_functions as [[? ?] ?]; exact Hlong].
  apply (forEach_invariant (fun st => every_issue well_attributed (fst (fst st))));
    [|simpl; attribution].
  intros line index [[a'' functionStart] braceCount] _ Hindex Ha''. simpl in Ha''.
  destruct (re_test P_functionDecl line); cbv zeta beta iota.
  - destruct (_ && _ && _); simpl; [|assumption].
    apply every_issue_push_quality; [|assumption].
    apply well_attributed_at_index; [lia | reflexivity].
  - destruct (_ && _ && _) eqn:Hguard; simpl; [|assumption].
    apply every_issue_push_quality; [|assumption].
    apply well_attributed_at_index; [|reflexivity].
    apply andb_prop in Hguard as [Hguard _].
    apply andb_prop in Hguard as [Hguard _]. lia.
Qed.

Lemma performDocumentationAnalysis_attribution (content : string) (lines : list string)
    (ext : string) (a : Analysis) :
  every_issue well_attributed a ->
  every_issue well_attributed (performDocumentationAnalysis content lines ext a).
Proof. intros Ha. unfold performDocumentationAnalysis. attribution. Qed.

Lemma run_passes_attribution (content : string) (lines : list string) (ext : string)
    (a : Analysis) :
  every_issue well_attributed a ->
  every_issue well_attributed (run_passes content lines ext a).
Proof.
  intros Ha. unfold run_passes. cbv zeta. unfold calculateMetrics. cbv zeta.
  apply every_issue_set_metrics.
  apply performDocumentationAnalysis_attribution, performQualityAnalysis_attribution,
    performArchitectureAnalysis_attribution, performSecurityAnalysis_attribution,
    performLintingAnalysis_attribution, Ha.
Qed.

(** C10.  Every issue that the multi-dimensional analyzer emits is attributed
    to a line number of at least 1, never to the file-level sentinel 0; the
    file-level findings (large file, function count, import count, mixed
    exports) are attributed to line 1.  The line of a syntax error is the one
    acorn reports, and acorn numbers lines from 1. *)
Theorem analyzer_issues_on_lines (content fileName : string) :
  let a := analyzeCodeMultiDimensional content fileName in
  Forall (fun i => 1 <= line i /\ line i <> 0) (issues a)
  /\ Forall (fun i => file_level_finding i = true -> line i = 1) (issues a)
  /\ every_issue well_attributed a.
Proof.
  intros a.
  assert (every_issue well_attributed a) as Hall.
  { subst a. unfold analyzeCodeMultiDimensional. cbv zeta.
    set (b := run_passes _ _ _ _).
    assert (every_issue well_attributed b) as Hb.
    { apply run_passes_attribution. repeat split; constructor. }
    exact Hb. }
  assert (Forall well_attributed (issues a)) as Hissues.
  { destruct Hall as (Hl & Hs & Ha & Hq & Hd & _).
    subst a. unfold analyzeCodeMultiDimensional. cbv zeta.
    cbn [calculateScores combine_issues set_issues issues].
    cbn [calculateScores combine_issues set_issues linting security architecture
         quality documentation set_score dim_issues] in Hl, Hs, Ha, Hq, Hd.
    repeat (apply Forall_app; split); assumption. }
  repeat split; [| |apply Hall..].
  - eapply Forall_impl; [exact Hissues|]. intros i [Hi _]. split; lia.
  - eapply Forall_impl; [exact Hissues|]. intros i [_ Hi]. exact Hi.
Qed.

End Passes.

Lemma example_acorn_lines_from_1 : @acorn_lines_from_1 Examples.example_runtime.
Proof.
  intros content error l. simpl. unfold Examples.example_acorn.
  destruct (includes content _); [intros [= <-]; discriminate|].
  destruct (startsWith content _); [|discriminate].
  intros [= <-] [= <-]. lia.
Qed.

(** A stray closing brace in a JavaScript file: the syntax issue sits on
    line 1. *)
Lemma analyzer_issues_on_lines_witness :
  Forall (fun i => 1 <= line i /\ line i <> 0)
    (issues (@analyzeCodeMultiDimensional Examples.example_runtime "}" "stray.js")).
Proof.
  apply (@analyzer_issues_on_lines Examples.example_runtime
           example_acorn_lines_from_1 "}" "stray.js").
Defined.

End AttributionProperties.

(* ===================================================================== *)
(** ** The version store *)
(* ===================================================================== *)

Module VersionStoreProperties.
Import Prisma VersionTracker.

(** *** The latest-version query *)

Lemma findFirst_latest_snoc (key : string) (rows : list FileVersion) (row : FileVersion)
    (rs : list Review) (n m : Z) :
  findFirst_latest key {| fileVersions := rows ++ [row]; reviews := rs; next_id := n |}
  = keep_latest key
      (findFirst_latest key {| fileVersions := rows; reviews := rs; next_id := m |}) row.
Proof. unfold findFirst_latest. simpl. by rewrite foldl_app. Qed.

(** What the query returns: nothing when the file has no row, otherwise a
    row of the file whose version no other row of the file exceeds. *)
Lemma latest_scan_spec (key : string) (rows : list FileVersion) :
  match foldl (keep_latest key) None rows with
  | None => forall r, r ∈ rows -> fileKey r <> key
  | Some lv =>
      fileKey lv = key /\ lv ∈ rows
      /\ forall r, r ∈ rows -> fileKey r = key -> version r <= version lv
  end.
Proof.
  induction rows as [|row rows IH] using rev_ind; simpl.
  { intros r Hr. by apply elem_of_nil in Hr. }
  rewrite foldl_app. simpl. unfold keep_latest at 1.
  destruct (String.eqb_spec (fileKey row) key) as [Hkey|Hkey].
  - destruct (foldl (keep_latest key) None rows) as [b|].
    + destruct IH as (Hb & Hin & Hmax).
      destruct (Z.ltb_spec (version b) (version row)).
      * split; [exact Hkey|]. split; [apply elem_of_app; right; by apply list_elem_of_singleton|].
        intros r Hr Hrk. apply elem_of_app in Hr as [Hr|Hr].
        -- specialize (Hmax r Hr Hrk). lia.
        -- apply list_elem_of_singleton in Hr. subst r. lia.
      * split; [exact Hb|]. split; [apply elem_of_app; by left|].
        intros r Hr Hrk. apply elem_of_app in Hr as [Hr|Hr].
        -- by apply Hmax.
        -- apply list_elem_of_singleton in Hr. subst r. lia.
    + split; [exact Hkey|]. split; [apply elem_of_app; right; by apply list_elem_of_singleton|].
      intros r Hr Hrk. apply elem_of_app in Hr as [Hr|Hr].
      * by destruct (IH r Hr).
      * apply list_elem_of_singleton in Hr. subst r. lia.
  - destruct (foldl (keep_latest key) None rows) as [b|].
    + destruct IH as (Hb & Hin & Hmax).
      split; [exact Hb|]. split; [apply elem_of_app; by left|].
      intros r Hr Hrk. apply elem_of_app in Hr as [Hr|Hr].
      * by apply Hmax.
      * apply list_elem_of_singleton in Hr. subst r. contradiction.
    + intros r Hr. apply elem_of_app in Hr as [Hr|Hr].
      * by apply IH.
      * apply list_elem_of_singleton in Hr. by subst r.
Qed.

(** The version that [storeFileVersion] computes is one more than the
    latest, also when the latest is 0. *)
Lemma next_version_Some (lv : FileVersion) : next_version (Some lv) = version lv + 1.
Proof. unfold next_version, num_or. destruct (Z.eqb_spec (version lv) 0); lia. Qed.

Lemma next_version_None : next_version None = 1.
Proof. reflexivity. Qed.

(** After an insertion for the file with [next_version], the query returns
    the inserted row. *)
Lemma findFirst_latest_after_create (userId key fileName content h : string) (size : Z)
    (db : Database) :
  let '(row, db') :=
    fileVersion_create userId key fileName (next_version (findFirst_latest key db))
      content h size db in
  findFirst_latest key db' = Some row.
Proof.
  unfold fileVersion_create. destruct db as [rows rs n]. cbn [fileVersions reviews next_id].
  rewrite (findFirst_latest_snoc key rows _ rs (n + 1) n).
  unfold keep_latest. cbn [fileKey version]. rewrite String.eqb_refl.
  destruct (findFirst_latest key _) as [b|]; [|reflexivity].
  rewrite next_version_Some.
  destruct (Z.ltb_spec (version b) (version b + 1)); [reflexivity | lia].
Qed.

(** *** The stored version numbers *)

Lemma elem_of_versions_of (key : string) (db : Database) (v : Z) :
  v ∈ versions_of key db
  <-> exists r, r ∈ fileVersions db /\ fileKey r = key /\ version r = v.
Proof.
  unfold versions_of. rewrite list_elem_of_fmap. split.
  - intros (r & -> & Hr). apply list_elem_of_In, filter_In in Hr as [Hr Hk].
    exists r. split; [by apply list_elem_of_In|]. split; [by apply String.eqb_eq | reflexivity].
  - intros (r & Hr & Hk & <-). exists r. split; [reflexivity|].
    apply list_elem_of_In, filter_In. split; [by apply list_elem_of_In | by apply String.eqb_eq].
Qed.

Lemma versions_of_create (key userId k fileName content h : string) (v size : Z)
    (db : Database) :
  versions_of key (snd (fileVersion_create userId k fileName v content h size db))
  = versions_of key db ++ (if String.eqb k key then [v] else []).
Proof.
  unfold versions_of, fileVersion_create. cbn [snd fileVersions].
  rewrite List.filter_app, fmap_app. cbn [List.filter fileKey].
  destruct (String.eqb k key); reflexivity.
Qed.

(** In a gapless store the latest version of a file is the number of its
    versions. *)
Lemma latest_of_gapless (key : string) (db : Database) :
  gapless key db ->
  match findFirst_latest key db with
  | None => versions_of key db = []
  | Some lv => version lv = len (versions_of key db) /\ 1 <= version lv
  end.
Proof.
  intros Hgap. unfold findFirst_latest.
  pose proof (latest_scan_spec key (fileVersions db)) as Hspec.
  destruct (foldl (keep_latest key) None (fileVersions db)) as [lv|].
  - destruct Hspec as (Hk & Hin & Hmax).
    assert (version lv ∈ versions_of key db) as Hv.
    { apply elem_of_versions_of. by exists lv. }
    rewrite Hgap in Hv. apply elem_of_seqZ in Hv.
    assert (len (versions_of key db) ∈ versions_of key db) as Hn.
    { rewrite Hgap at 2. apply elem_of_seqZ. lia. }
    apply elem_of_versions_of in Hn as (r & Hr & Hrk & Hrv).
    specialize (Hmax r Hr Hrk). lia.
  - destruct (versions_of key db) as [|v vs] eqn:Hvs; [reflexivity|].
    assert (v ∈ versions_of key db) as Hv by (rewrite Hvs; apply elem_of_cons; by left).
    apply elem_of_versions_of in Hv as (r & Hr & Hrk & _).
    by destruct (Hspec r Hr).
Qed.

Lemma gapless_extend (key : string) (db db' : Database) :
  gapless key db ->
  versions_of key db' = versions_of key db ++ [len (versions_of key db) + 1] ->
  gapless key db'.
Proof.
  unfold gapless. intros Hgap Hext. rewrite Hext at 1.
  rewrite Hext. unfold len. rewrite length_app. simpl.
  replace (Z.of_nat (length (versions_of key db) + 1)) with
    (Z.of_nat (S (length (versions_of key db)))) by lia.
  rewrite seqZ_S. rewrite Hgap at 1. f_equal. f_equal. unfold len. lia.
Qed.

Section Store.
Context `{JsRuntime}.

Lemma storeFileVersion_gapless (userId k fileName content : string) (db : Database)
    (key : string) :
  gapless key db ->
  gapless key (snd (storeFileVersion userId k fileName content db)).
Proof.
  intros Hgap. unfold storeFileVersion. cbv zeta.
  assert (forall v, (k = key -> v = len (versions_of k db) + 1) ->
    gapless key (snd (fileVersion_create userId k fileName v content
                        (generateContentHash content) (byteLength content) db))) as Hcreate.
  { intros v Hv. destruct (String.eqb_spec k key) as [->|Hne].
    - rewrite (Hv eq_refl). apply (gapless_extend key db); [apply Hgap|].
      rewrite versions_of_create, String.eqb_refl. reflexivity.
    - unfold gapless. rewrite versions_of_create.
      destruct (String.eqb_spec k key); [contradiction|]. rewrite app_nil_r. apply Hgap. }
  destruct (findFirst_latest k db) as [lv|] eqn:Hfind.
  - destruct (String.eqb (hash lv) (generateContentHash content)); [apply Hgap|].
    specialize (Hcreate (next_version (Some lv))).
    destruct (fileVersion_create _ _ _ _ _ _ _ _). apply Hcreate.
    intros ->. pose proof (latest_of_gapless key db Hgap) as Hlatest.
    rewrite Hfind in Hlatest. rewrite next_version_Some. lia.
  - specialize (Hcreate (next_version None)).
    destruct (fileVersion_create _ _ _ _ _ _ _ _). apply Hcreate.
    intros ->. pose proof (latest_of_gapless key db Hgap) as Hlatest.
    rewrite Hfind in Hlatest. rewrite Hlatest. reflexivity.
Qed.

Lemma save_all_gapless (saves : list Save) (key : string) :
  forall db, gapless key db -> gapless key (save_all saves db).
Proof.
  induction saves as [|s saves IH]; intros db Hgap; simpl; [apply Hgap|].
  apply IH. apply storeFileVersion_gapless, Hgap.
Qed.

(** A save when the latest row of the file carries the digest of the
    content: nothing is written. *)
Lemma storeFileVersion_unchanged (userId k fileName content : string) (db : Database)
    (lv : FileVersion) :
  findFirst_latest k db = Some lv ->
  hash lv = generateContentHash content ->
  storeFileVersion userId k fileName content db
  = ({| changed := false; result_version := version lv; result_id := None |}, db).
Proof.
  intros Hfind Hhash. unfold storeFileVersion. cbv zeta.
  rewrite Hfind, Hhash, String.eqb_refl. reflexivity.
Qed.

(** A save when the file has no row, or a latest row with another digest: a
    row numbered [next_version] is appended. *)
Lemma storeFileVersion_changed (userId k fileName content : string) (db : Database) :
  match findFirst_latest k db with
  | Some lv => hash lv <> generateContentHash content
  | None => True
  end ->
  storeFileVersion userId k fileName content db
  = (let '(row, db') :=
       fileVersion_create userId k fileName (next_version (findFirst_latest k db)) content
         (generateContentHash content) (byteLength content) db in
     ({| changed := true; result_version := next_version (findFirst_latest k db);
         result_id := Some (fv_id row) |}, db')).
Proof.
  intros Hne. unfold storeFileVersion. cbv zeta.
  destruct (findFirst_latest k db) as [lv|]; [|reflexivity].
  destruct (String.eqb_spec (hash lv) (generateContentHash content)); [contradiction|].
  reflexivity.
Qed.

(** After a save, the latest row of the file has the returned version and
    the digest of the saved content. *)
Lemma storeFileVersion_latest (userId k fileName content : string) (db : Database) :
  exists row,
    findFirst_latest k (snd (storeFileVersion userId k fileName content db)) = Some row
    /\ version row = result_version (fst (storeFileVersion userId k fileName content db))
    /\ hash row = generateContentHash content.
Proof.
  destruct (findFirst_latest k db) as [lv|] eqn:Hfind.
  - destruct (String.eqb_spec (hash lv) (generateContentHash content)) as [Heq|Hne].
    + rewrite (storeFileVersion_unchanged _ _ _ _ _ lv Hfind Heq). by exists lv.
    + rewrite storeFileVersion_changed by (rewrite Hfind; exact Hne).
      pose proof (findFirst_latest_after_create userId k fileName content
                    (generateContentHash content) (byteLength content) db) as Hafter.
      destruct (fileVersion_create _ _ _ _ _ _ _ _) as [row db'] eqn:Hcreate.
      exists row. split; [exact Hafter|].
      unfold fileVersion_create in Hcreate. injection Hcreate as <- _. split; reflexivity.
  - rewrite storeFileVersion_changed by (rewrite Hfind; exact I).
    pose proof (findFirst_latest_after_create userId k fileName content
                  (generateContentHash content) (byteLength content) db) as Hafter.
    destruct (fileVersion_create _ _ _ _ _ _ _ _) as [row db'] eqn:Hcreate.
    exists row. split; [exact Hafter|].
    unfold fileVersion_create in Hcreate. injection Hcreate as <- _. split; reflexivity.
Qed.

(** C4.  Saving the same content a second time is a no-op: the second call
    returns [changed = false] with the version number the first call
    returned, writes nothing (the database after it is the database before
    it, so no version row is created), and the latest version number of the
    file is unchanged. *)
Theorem repeated_save_is_noop (userId k fileName content userId' fileName' : string)
    (db : Database) :
  let '(r1, db1) := storeFileVersion userId k fileName content db in
  let '(r2, db2) := storeFileVersion userId' k fileName' content db1 in
  changed r2 = false
  /\ result_version r2 = result_version r1
  /\ result_id r2 = None
  /\ db2 = db1
  /\ versions_of k db2 = versions_of k db1
  /\ version <$> findFirst_latest k db1 = Some (result_version r1)
  /\ version <$> findFirst_latest k db2 = Some (result_version r1).
Proof.
  destruct (storeFileVersion_latest userId k fileName content db) as (row & Hfind & Hv & Hh).
  destruct (storeFileVersion userId k fileName content db) as [r1 db1].
  cbn [fst snd] in Hfind, Hv, Hh.
  rewrite (storeFileVersion_unchanged userId' k fileName' content db1 row Hfind Hh).
  cbn [changed result_version result_id]. rewrite Hfind. cbn. rewrite Hv.
  repeat split.
Qed.

Lemma fresh_file_has_no_latest (k : string) (db : Database) :
  versions_of k db = [] -> findFirst_latest k db = None.
Proof.
  intros Hfresh. unfold findFirst_latest.
  pose proof (latest_scan_spec k (fileVersions db)) as Hspec.
  destruct (foldl (keep_latest k) None (fileVersions db)) as [lv|]; [|reflexivity].
  destruct Hspec as (Hk & Hin & _).
  assert (version lv ∈ versions_of k db) as Hv by (apply elem_of_versions_of; by exists lv).
  rewrite Hfresh in Hv. by apply elem_of_nil in Hv.
Qed.

(** What a save that writes does to the version numbers of its file. *)
Lemma storeFileVersion_appends (userId k fileName content : string) (db : Database) :
  match findFirst_latest k db with
  | Some lv => hash lv <> generateContentHash content
  | None => True
  end ->
  changed (fst (storeFileVersion userId k fileName content db)) = true
  /\ result_version (fst (storeFileVersion userId k fileName content db))
     = next_version (findFirst_latest k db)
  /\ versions_of k (snd (storeFileVersion userId k fileName content db))
     = versions_of k db ++ [next_version (findFirst_latest k db)].
Proof.
  intros Hne. rewrite storeFileVersion_changed by exact Hne.
  pose proof (versions_of_create k userId k fileName content (generateContentHash content)
                (next_version (findFirst_latest k db)) (byteLength content) db) as Hvs.
  destruct (fileVersion_create _ _ _ _ _ _ _ _) as [row db'].
  cbn [fst snd changed result_version] in *.
  rewrite String.eqb_refl in Hvs. by repeat split.
Qed.

(** C5, as the code has it.  When the saves run one after another
    ([save_all]: the query and the insertion of a call are both done before
    the next call starts), the version numbers stored for a file are 1, 2,
    3, ... without gaps in the order of their creation: this holds after any
    such sequence of saves on an empty store.  A save whose content digest
    differs from the digest of the latest stored version, or that finds no
    version of the file, creates the version numbered latest + 1 (1 for the
    first save).  So two saves of contents with different digests, one after
    the other, on a fresh file get the version numbers 1 and 2. *)
Theorem version_numbers_gapless :
  (forall (saves : list Save) (key : string),
     let versions := versions_of key (save_all saves Prisma.empty) in
     versions = seqZ 1 (len versions)
     /\ forall (i : nat) (v : Z), versions !! i = Some v -> v = 1 + Z.of_nat i)
  /\ (forall (userId k fileName content : string) (db : Database),
        let '(r, db') := storeFileVersion userId k fileName content db in
        match findFirst_latest k db with
        | None =>
            changed r = true /\ result_version r = 1
            /\ versions_of k db' = versions_of k db ++ [1]
        | Some lv =>
            hash lv <> generateContentHash content ->
            changed r = true /\ result_version r = version lv + 1
            /\ versions_of k db' = versions_of k db ++ [version lv + 1]
        end)
  /\ (forall (userId k fileName c1 c2 : string) (db : Database),
        versions_of k db = [] ->
        generateContentHash c1 <> generateContentHash c2 ->
        let '(r1, db1) := storeFileVersion userId k fileName c1 db in
        let '(r2, db2) := storeFileVersion userId k fileName c2 db1 in
        changed r1 = true /\ result_version r1 = 1
        /\ changed r2 = true /\ result_version r2 = 2
        /\ versions_of k db2 = [1; 2]).
Proof.
  split; [|split].
  - intros saves key versions.
    assert (gapless key (save_all saves Prisma.empty)) as Hgap.
    { apply save_all_gapless. reflexivity. }
    split; [exact Hgap|].
    intros i v Hlook. subst versions. rewrite Hgap in Hlook.
    apply lookup_seqZ in Hlook. lia.
  - intros userId k fileName content db.
    pose proof (storeFileVersion_appends userId k fileName content db) as Happ.
    destruct (storeFileVersion userId k fileName content db) as [r db'].
    cbn [fst snd] in Happ.
    destruct (findFirst_latest k db) as [lv|].
    + intros Hne. rewrite next_version_Some in Happ. by apply Happ.
    + rewrite next_version_None in Happ. by apply Happ.
  - intros userId k fileName c1 c2 db Hfresh Hdiff.
    pose proof (fresh_file_has_no_latest k db Hfresh) as Hnone.
    pose proof (storeFileVersion_appends userId k fileName c1 db) as H1.
    pose proof (storeFileVersion_latest userId k fileName c1 db) as (row & Hrow & Hrv & Hrh).
    destruct (storeFileVersion userId k fileName c1 db) as [r1 db1].
    cbn [fst snd] in H1, Hrow, Hrv, Hrh.
    rewrite Hnone, next_version_None, Hfresh in H1.
    destruct (H1 I) as (Hc1 & Hv1 & Hvs1).
    pose proof (storeFileVersion_appends userId k fileName c2 db1) as H2.
    destruct (storeFileVersion userId k fileName c2 db1) as [r2 db2].
    cbn [fst snd] in H2.
    rewrite Hrow, next_version_Some, Hrv, Hv1, Hvs1 in H2.
    destruct H2 as (Hc2 & Hv2 & Hvs2); [by rewrite Hrh|].
    repeat split; assumption.
Qed.

(** *** Two calls in flight *)

(** Served twice in a row, a call does what [storeFileVersion] does. *)
Lemma step_step (userId k fileName content : string) (db : Database) :
  let '(c1, db1) := step (Started userId k fileName content) db in
  step c1 db1
  = (Returned (fst (storeFileVersion userId k fileName content db)),
     snd (storeFileVersion userId k fileName content db)).
Proof.
  unfold step, storeFileVersion. cbv zeta.
  destruct (findFirst_latest k db) as [lv|].
  - destruct (String.eqb (hash lv) (generateContentHash content)); [reflexivity|].
    destruct (fileVersion_create _ _ _ _ _ _ _ _); reflexivity.
  - destruct (fileVersion_create _ _ _ _ _ _ _ _); reflexivity.
Qed.

Lemma no_latest_no_versions (k : string) (db : Database) :
  findFirst_latest k db = None -> versions_of k db = [].
Proof.
  intros Hnone. unfold findFirst_latest in Hnone.
  pose proof (latest_scan_spec k (fileVersions db)) as Hspec. rewrite Hnone in Hspec.
  destruct (versions_of k db) as [|v vs] eqn:Hvs; [reflexivity|].
  assert (v ∈ versions_of k db) as Hv by (rewrite Hvs; apply elem_of_cons; by left).
  apply elem_of_versions_of in Hv as (r & Hr & Hrk & _). by destruct (Hspec r Hr).
Qed.

(** A save never repeats a version number of its file. *)
Lemma storeFileVersion_NoDup (userId k fileName content : string) (db : Database) :
  NoDup (versions_of k db) ->
  NoDup (versions_of k (snd (storeFileVersion userId k fileName content db))).
Proof.
  intros Hnodup.
  destruct (findFirst_latest k db) as [lv|] eqn:Hfind.
  - destruct (String.eqb_spec (hash lv) (generateContentHash content)) as [Heq|Hne].
    + by rewrite (storeFileVersion_unchanged _ _ _ _ _ lv Hfind Heq).
    + destruct (storeFileVersion_appends userId k fileName content db) as (_ & _ & ->);
        [by rewrite Hfind|].
      rewrite Hfind, next_version_Some.
      apply NoDup_app. split; [exact Hnodup|]. split; [|apply NoDup_singleton].
      intros v Hv Hlast. apply list_elem_of_singleton in Hlast. subst v.
      apply elem_of_versions_of in Hv as (r & Hr & Hrk & Hrv).
      pose proof (latest_scan_spec k (fileVersions db)) as Hspec.
      unfold findFirst_latest in Hfind. rewrite Hfind in Hspec.
      destruct Hspec as (_ & _ & Hmax). specialize (Hmax r Hr Hrk). lia.
  - destruct (storeFileVersion_appends userId k fileName content db) as (_ & _ & ->);
      [by rewrite Hfind|].
    rewrite (no_latest_no_versions k db Hfind). apply NoDup_singleton.
Qed.

(** A save returns the latest version number or its successor. *)
Lemma storeFileVersion_result (userId k fileName content : string) (db : Database)
    (lv : FileVersion) :
  findFirst_latest k db = Some lv ->
  let r := fst (storeFileVersion userId k fileName content db) in
  (changed r = false /\ result_version r = version lv)
  \/ (changed r = true /\ result_version r = version lv + 1).
Proof.
  intros Hfind r. subst r.
  destruct (String.eqb_spec (hash lv) (generateContentHash content)) as [Heq|Hne].
  - left. by rewrite (storeFileVersion_unchanged _ _ _ _ _ lv Hfind Heq).
  - right. destruct (storeFileVersion_appends userId k fileName content db) as (-> & -> & _);
      [by rewrite Hfind|].
    by rewrite Hfind, next_version_Some.
Qed.

(** C9, as the code has it.  [storeFileVersion] takes no lock and opens no
    transaction, so version creation is not serialized; what holds is the
    property of saves that do not overlap.  When the first call has returned
    before the database serves the second, the two calls behave as two
    successive saves: the second version number is the first or its
    successor, never smaller; a second save that writes gets the successor;
    and the version numbers of the file stay distinct, and gapless if they
    were. *)
Theorem serial_saves_ordered (u1 n1 c1 u2 n2 c2 k : string) (db : Database) :
  let '(a, b, db') :=
    run [First; First; Second; Second] (Started u1 k n1 c1) (Started u2 k n2 c2) db in
  let '(r1, db1) := storeFileVersion u1 k n1 c1 db in
  let '(r2, db2) := storeFileVersion u2 k n2 c2 db1 in
  a = Returned r1 /\ b = Returned r2 /\ db' = db2
  /\ result_version r1 <= result_version r2
  /\ (changed r2 = true -> result_version r2 = result_version r1 + 1)
  /\ (NoDup (versions_of k db) -> NoDup (versions_of k db'))
  /\ (gapless k db -> gapless k db').
Proof.
  cbn [run].
  pose proof (step_step u1 k n1 c1 db) as Ha.
  destruct (step (Started u1 k n1 c1) db) as [a1 dba1].
  rewrite Ha. clear Ha.
  pose proof (storeFileVersion_latest u1 k n1 c1 db) as (row & Hrow & Hrv & _).
  pose proof (storeFileVersion_NoDup u1 k n1 c1 db) as Hnd1.
  pose proof (storeFileVersion_gapless u1 k n1 c1 db k) as Hgap1.
  destruct (storeFileVersion u1 k n1 c1 db) as [r1 db1]. cbn [fst snd] in *.
  pose proof (step_step u2 k n2 c2 db1) as Hb.
  destruct (step (Started u2 k n2 c2) db1) as [b1 dbb1].
  rewrite Hb. clear Hb.
  pose proof (storeFileVersion_result u2 k n2 c2 db1 row Hrow) as Hres.
  pose proof (storeFileVersion_NoDup u2 k n2 c2 db1) as Hnd2.
  pose proof (storeFileVersion_gapless u2 k n2 c2 db1 k) as Hgap2.
  destruct (storeFileVersion u2 k n2 c2 db1) as [r2 db2]. cbn [fst snd] in *.
  repeat split.
  - destruct Hres as [[_ ->]|[_ ->]]; lia.
  - intros Hchanged. destruct Hres as [[Hc _]|[_ ->]]; [congruence | lia].
  - auto.
  - auto.
Qed.

End Store.

(** Two saves of different contents on the empty store. *)
Lemma version_numbers_gapless_witness :
  let '(r1, db1) :=
    @storeFileVersion Examples.example_runtime "u1" "src/a.js" "a.js" "let a = 1;"
      Prisma.empty in
  let '(r2, db2) :=
    @storeFileVersion Examples.example_runtime "u1" "src/a.js" "a.js" "let a = 2;" db1 in
  changed r1 = true /\ result_version r1 = 1
  /\ changed r2 = true /\ result_version r2 = 2
  /\ versions_of "src/a.js" db2 = [1; 2].
Proof.
  apply (proj2 (proj2 (@version_numbers_gapless Examples.example_runtime))
           "u1" "src/a.js" "a.js" "let a = 1;" "let a = 2;" Prisma.empty).
  - reflexivity.
  - vm_compute. discriminate.
Defined.

(** Two saves of the same file, one after the other, on the empty store. *)
Lemma serial_saves_ordered_witness :
  let '(a, b, db') :=
    @run Examples.example_runtime [First; First; Second; Second]
      (Started "u1" "src/a.js" "a.js" "let a = 1;")
      (Started "u2" "src/a.js" "a.js" "let a = 2;") Prisma.empty in
  exists r1 r2,
    a = Returned r1 /\ b = Returned r2
    /\ result_version r2 = result_version r1 + 1
    /\ NoDup (versions_of "src/a.js" db') /\ gapless "src/a.js" db'.
Proof.
  pose proof (@serial_saves_ordered Examples.example_runtime
                "u1" "a.js" "let a = 1;" "u2" "a.js" "let a = 2;" "src/a.js" Prisma.empty)
    as Hserial.
  vm_compute in Hserial. vm_compute.
  destruct Hserial as (_ & _ & _ & _ & Hnext & Hnodup & Hgap).
  eexists _, _. split; [reflexivity|]. split; [reflexivity|].
  split; [apply Hnext; reflexivity|].
  split; [apply Hnodup; constructor | apply Hgap; reflexivity].
Defined.

(** The two calls overlap: both queries are served before either insertion.
    Both calls compute version 1, both insert, both report [changed] with
    version 1, and the file ends up with the version numbers [1; 1]. *)
Lemma overlapping_saves_share_version :
  let a0 := Started "u1" "src/a.js" "a.js" "let a = 1;" in
  let b0 := Started "u2" "src/a.js" "a.js" "let a = 2;" in
  @run Examples.example_runtime [First; Second] a0 b0 Prisma.empty
  = (Creating "u1" "src/a.js" "a.js" "let a = 1;" "let a = 1;" 10 1,
     Creating "u2" "src/a.js" "a.js" "let a = 2;" "let a = 2;" 10 1,
     Prisma.empty)
  /\ let '(a, b, db') :=
       @run Examples.example_runtime [First; Second; First; Second] a0 b0 Prisma.empty in
     a = Returned {| changed := true; result_version := 1; result_id := Some 1 |}
     /\ b = Returned {| changed := true; result_version := 1; result_id := Some 2 |}
     /\ versions_of "src/a.js" db' = [1; 1]
     /\ ~ NoDup (versions_of "src/a.js" db').
Proof.
  split; [reflexivity|]. vm_compute.
  repeat split. intros Hnodup. apply NoDup_cons in Hnodup as [Hnotin _].
  apply Hnotin. apply elem_of_cons. by left.
Qed.

(** Two saves of different contents for a fresh file, the second started
    before the first has inserted: both find no version, both create version
    1, and the stored numbers [1; 1] are neither gapless nor increasing. *)
Lemma overlapping_saves_break_gapless :
  let a0 := Started "u1" "notes.md" "notes.md" "first draft" in
  let b0 := Started "u1" "notes.md" "notes.md" "second draft" in
  let '(a, b, db') :=
    @run Examples.example_runtime [First; Second; First; Second] a0 b0 Prisma.empty in
  @generateContentHash Examples.example_runtime "first draft"
  <> @generateContentHash Examples.example_runtime "second draft"
  /\ (exists r1 r2,
        a = Returned r1 /\ b = Returned r2
        /\ result_version r1 = 1 /\ result_version r2 = 1)
  /\ ~ gapless "notes.md" db'
  /\ ~ StronglySorted Z.lt (versions_of "notes.md" db').
Proof.
  vm_compute. split; [discriminate|]. split; [by eexists _, _|]. split.
  - discriminate.
  - intros Hsorted. apply StronglySorted_inv in Hsorted as [_ Hlt].
    apply Forall_inv in Hlt. vm_compute in Hlt. discriminate.
Qed.

End VersionStoreProperties.

(* ===================================================================== *)
(** ** The incremental orchestrator *)
(* ===================================================================== *)

Module IncrementalProperties.
Import Prisma Incremental.

(** *** The proximity filter *)

Lemma elem_of_Set_fold (x : Z) (arr : list Z) :
  forall s : list Z, x ∈ foldl (fun s y => Set_add y s) s arr <-> x ∈ s \/ x ∈ arr.
Proof.
  induction arr as [|y arr IH]; intros s; simpl.
  - rewrite elem_of_nil. tauto.
  - rewrite IH, elem_of_cons. unfold Set_add. case_bool_decide as Hy.
    + split; [tauto|]. intros [?|[->|?]]; tauto.
    + rewrite elem_of_app, list_elem_of_singleton. tauto.
Qed.

Lemma elem_of_new_Set (x : Z) (arr : list Z) : x ∈ new_Set arr <-> x ∈ arr.
Proof. unfold new_Set. rewrite elem_of_Set_fold, elem_of_nil. tauto. Qed.

Lemma some_true {A : Type} (p : A -> bool) (l : list A) :
  some p l = true <-> exists x, x ∈ l /\ p x = true.
Proof.
  unfold some. rewrite existsb_exists. split; intros (x & Hx & Hp); exists x;
    (split; [by apply list_elem_of_In | exact Hp]).
Qed.

(** An issue passes the filter exactly when it is an issue of the full
    analysis and some changed line is at distance at most 2 from its line. *)
Lemma elem_of_incremental_filter (changedLines : list ChangedLine)
    (fullIssues : list Issue) (i : Issue) :
  i ∈ incremental_filter changedLines fullIssues
  <-> i ∈ fullIssues
      /\ exists c, c ∈ changedLines /\ Z.abs (line i - lineNumber c) <= 2.
Proof.
  unfold incremental_filter. rewrite list_elem_of_In, filter_In, <- list_elem_of_In.
  rewrite some_true. split.
  - intros (Hi & n & Hn & Hclose). split; [exact Hi|].
    apply elem_of_new_Set, list_elem_of_fmap in Hn as (c & -> & Hc).
    exists c. split; [exact Hc | lia].
  - intros (Hi & c & Hc & Hclose). split; [exact Hi|].
    exists (lineNumber c). split; [|lia].
    apply elem_of_new_Set, list_elem_of_fmap. by exists c.
Qed.

Section Handler.
Context `{DiffEngine}.

(** *** Steps of the handler *)

Lemma bind_normal {A B : Type} (m : M A) (k : A -> M B) (w w' : World) (a : A) :
  m w = (Normal a, w') -> bind m k w = k a w'.
Proof. intros Hm. unfold bind. by rewrite Hm. Qed.

Lemma logged_logged (evs evs' : list Event) (w : World) :
  logged evs' (logged evs w) = logged (evs ++ evs') w.
Proof. unfold logged. simpl. by rewrite app_assoc. Qed.

Lemma getFileContent_found (k content : string) (w : World) :
  s3 w !! k = Some content ->
  getFileContent k w = (Normal content, logged [GetFileContent k] w).
Proof. intros Hs. unfold getFileContent, bind, log. cbn [s3]. by rewrite Hs. Qed.

Lemma getLatestFileVersion_run (k : string) (w : World) :
  getLatestFileVersion k w
  = (Normal (VersionTracker.getLatestFileVersion k (db w)),
     logged [GetLatestFileVersion k] w).
Proof. reflexivity. Qed.

Lemma calculateDiff_call_run (old new : string) (w : World) :
  calculateDiff_call old new w = (Normal (calculateDiff old new), logged [CalculateDiff] w).
Proof. reflexivity. Qed.

(** Up to the version check. *)
Lemma POST_body_fetched (request : Request) (w : World) (u : User) (k content : string) :
  fetched request w u k content ->
  POST_body request w
  = match VersionTracker.getLatestFileVersion k (db w) with
    | None => (Normal RequiresFullReview,
               logged [GetFileContent k; GetLatestFileVersion k] w)
    | Some previousVersion =>
        let changedLines :=
          getChangedLines (calculateDiff (Prisma.content previousVersion) content) in
        let w3 := logged [GetFileContent k; GetLatestFileVersion k; CalculateDiff] w in
        if len changedLines =? 0 then
          (Normal
             (NoChanges (display_name (req_fileName request) k) k content []
                {| issues := [];
                   metrics :=
                     {| base_metrics :=
                          {| CodeReview.totalLines := len (split_lines content);
                             CodeReview.codeLines := 0;
                             CodeReview.commentLines := 0;
                             CodeReview.blankLines := 0;
                             CodeReview.errorCount := 0;
                             CodeReview.warningCount := 0;
                             CodeReview.infoCount := 0;
                             CodeReview.qualityScore := 100 |};
                        incrementalData :=
                          {| linesChanged := 0; linesAdded := 0; linesDeleted := 0;
                             issuesFound := 0 |} |} |}), w3)
        else
          (Throw {| err_message := "analyzeCode is not a function"; err_loc := None |},
           w3)
    end.
Proof.
  intros (Hu & Hk & Ht & Hs).
  unfold POST_body. rewrite Hu, Hk, Ht. cbn [negb].
  rewrite (bind_normal _ _ _ _ _ (getFileContent_found k content w Hs)).
  rewrite (bind_normal _ _ _ _ _ (getLatestFileVersion_run k _)).
  cbn [logged db].
  destruct (VersionTracker.getLatestFileVersion k (db w)) as [pv|].
  2:{ unfold ret. rewrite logged_logged. reflexivity. }
  rewrite (bind_normal _ _ _ _ _ (calculateDiff_call_run _ _ _)).
  rewrite !logged_logged. cbn [app]. cbv zeta.
  destruct (len _ =? 0); reflexivity.
Qed.

Lemma POST_of_body (request : Request) (w w' : World) (response : Response) :
  POST_body request w = (Normal response, w') -> POST request w = (response, w').
Proof. intros Hbody. unfold POST. by rewrite Hbody. Qed.

Lemma no_rows_no_latest (k : string) (d : Database) :
  Forall (fun row => fileKey row <> k) (fileVersions d) ->
  VersionTracker.getLatestFileVersion k d = None.
Proof.
  intros Hrows. unfold VersionTracker.getLatestFileVersion, findFirst_latest.
  pose proof (VersionStoreProperties.latest_scan_spec k (fileVersions d)) as Hspec.
  destruct (foldl (keep_latest k) None (fileVersions d)) as [lv|]; [|reflexivity].
  destruct Hspec as (Hk & Hin & _).
  rewrite Forall_forall in Hrows. by destruct (Hrows lv Hin).
Qed.

Lemma changed_lines_counted (changedLines : list ChangedLine) :
  changedLines <> [] -> (len changedLines =? 0) = false.
Proof.
  intros Hne. apply Z.eqb_neq. unfold len.
  destruct changedLines; [contradiction | simpl; lia].
Qed.

(** After a diff with changed lines the handler calls [analyzeCode], which
    is not bound: the [catch] answers 500 with the message of the
    [TypeError]. *)
Lemma POST_changed (request : Request) (w : World) (u : User) (k content : string)
    (pv : FileVersion) :
  fetched request w u k content ->
  VersionTracker.getLatestFileVersion k (db w) = Some pv ->
  getChangedLines (calculateDiff (Prisma.content pv) content) <> [] ->
  POST request w
  = (Failed "analyzeCode is not a function",
     logged [GetFileContent k; GetLatestFileVersion k; CalculateDiff] w).
Proof.
  intros Hfetched Hpv Hchanged.
  pose proof (POST_body_fetched request w u k content Hfetched) as Hbody.
  rewrite Hpv in Hbody. cbv zeta in Hbody.
  rewrite (changed_lines_counted _ Hchanged) in Hbody.
  unfold POST. by rewrite Hbody.
Qed.

(** C7.  With no stored version of the file, the handler answers
    [requiresFullReview] and does nothing more: after fetching the content
    and querying the latest version it computes no diff, runs no analysis and
    writes no review; the database is unchanged. *)
Theorem no_stored_version_requires_full_review (request : Request) (w : World)
    (u : User) (k content : string) :
  fetched request w u k content ->
  Forall (fun row => fileKey row <> k) (fileVersions (db w)) ->
  let '(response, w') := POST request w in
  response = RequiresFullReview
  /\ events w' = events w ++ [GetFileContent k; GetLatestFileVersion k]
  /\ db w' = db w
  /\ s3 w' = s3 w.
Proof.
  intros Hfetched Hrows.
  pose proof (POST_body_fetched request w u k content Hfetched) as Hbody.
  rewrite (no_rows_no_latest k (db w) Hrows) in Hbody.
  rewrite (POST_of_body _ _ _ _ Hbody). repeat split.
Qed.

(** C6.  When the diff of the latest stored version against the current
    content has no changed line, the handler answers [No changes detected]
    with an empty issue list and all four incremental counters at 0; it runs
    no analysis and writes no review: the only calls are the content fetch,
    the version query and the diff, and the database is unchanged. *)
Theorem no_changes_short_circuit (request : Request) (w : World) (u : User)
    (k content : string) (pv : FileVersion) :
  fetched request w u k content ->
  VersionTracker.getLatestFileVersion k (db w) = Some pv ->
  getChangedLines (calculateDiff (Prisma.content pv) content) = [] ->
  let '(response, w') := POST request w in
  (exists (name : string) (analysis : ResponseAnalysis),
      response = NoChanges name k content [] analysis
      /\ issues analysis = []
      /\ incrementalData (metrics analysis)
         = {| linesChanged := 0; linesAdded := 0; linesDeleted := 0; issuesFound := 0 |})
  /\ events w' = events w ++ [GetFileContent k; GetLatestFileVersion k; CalculateDiff]
  /\ db w' = db w
  /\ reviews (db w') = reviews (db w)
  /\ s3 w' = s3 w.
Proof.
  intros Hfetched Hpv Hnone.
  pose proof (POST_body_fetched request w u k content Hfetched) as Hbody.
  rewrite Hpv in Hbody. cbv zeta in Hbody. rewrite Hnone in Hbody.
  change (len [] =? 0) with true in Hbody. cbv iota in Hbody.
  rewrite (POST_of_body _ _ _ _ Hbody).
  split; [|repeat split]. eexists _, _. repeat split.
Qed.

End Handler.

(** *** Worked examples *)

(** A first review of a file that was never saved. *)
Lemma no_stored_version_requires_full_review_witness :
  let w := {| s3 := {[ "src/new.js" := "let a = 1;" ]}; db := Prisma.empty; events := [] |} in
  let '(response, w') :=
    @POST Examples.example_diff
      (Examples.review_request "src/new.js" "new.js") w in
  response = RequiresFullReview
  /\ events w' = events w ++ [GetFileContent "src/new.js"; GetLatestFileVersion "src/new.js"]
  /\ db w' = db w
  /\ s3 w' = s3 w.
Proof.
  intros w.
  apply (@no_stored_version_requires_full_review Examples.example_diff (Examples.review_request "src/new.js" "new.js") w
           {| user_id := "u1" |} "src/new.js" "let a = 1;").
  - repeat split; vm_compute; reflexivity.
  - constructor.
Defined.

(** A review of a file whose content is the saved one. *)
Lemma no_changes_short_circuit_witness :
  let w := Examples.edited_world "src/a.js" "a.js" Examples.script_before
             Examples.script_before in
  let '(response, w') :=
    @POST Examples.example_diff
      (Examples.review_request "src/a.js" "a.js") w in
  (exists (name : string) (analysis : ResponseAnalysis),
      response = NoChanges name "src/a.js" Examples.script_before [] analysis
      /\ issues analysis = []
      /\ incrementalData (metrics analysis)
         = {| linesChanged := 0; linesAdded := 0; linesDeleted := 0; issuesFound := 0 |})
  /\ events w' = events w ++ [GetFileContent "src/a.js"; GetLatestFileVersion "src/a.js";
                              CalculateDiff]
  /\ db w' = db w
  /\ reviews (db w') = reviews (db w)
  /\ s3 w' = s3 w.
Proof.
  intros w.
  eapply (@no_changes_short_circuit Examples.example_diff
            (Examples.review_request "src/a.js" "a.js") w {| user_id := "u1" |}
            "src/a.js" Examples.script_before).
  - repeat split; vm_compute; reflexivity.
  - vm_compute. reflexivity.
  - vm_compute. reflexivity.
Defined.

(** C2.  The failing input: a twelve-line script saved once, whose line 8
    was edited since, reviewed by its owner.  The diff reports line 8, the
    full analysis has a [var] warning on line 10, and the filter of the
    handler keeps that warning, two lines from the change.  But the handler
    never gets to the filter: its call of the unbound [analyzeCode] throws,
    and the request is answered 500 after the fetch, the version query and
    the diff, with no issue returned and the database as it was. *)
Theorem window_issue_not_returned :
  let w := Examples.edited_world "src/a.js" "a.js" Examples.script_before
             Examples.script_after in
  let changedLines :=
    @getChangedLines Examples.example_diff
      (calculateDiff Examples.script_before Examples.script_after) in
  let full :=
    CodeReview.issues
      (@CodeReview.analyzeCode Examples.example_runtime Examples.script_after "a.js") in
  lineNumber <$> changedLines = [8]
  /\ Examples.var_warning_line_10 ∈ full
  /\ Examples.var_warning_line_10 ∈ incremental_filter changedLines full
  /\ (exists details,
        @POST Examples.example_diff
          (Examples.review_request "src/a.js" "a.js") w
        = (Failed details,
           logged [GetFileContent "src/a.js"; GetLatestFileVersion "src/a.js";
                   CalculateDiff] w))
  /\ db (snd (@POST Examples.example_diff
                (Examples.review_request "src/a.js" "a.js") w))
     = db w.
Proof.
  intros w changedLines full.
  assert (lineNumber <$> changedLines = [8]) as Hlines by (vm_compute; reflexivity).
  assert (Examples.var_warning_line_10 ∈ full) as Hfull.
  { vm_compute. apply elem_of_cons. by left. }
  assert (@POST Examples.example_diff
            (Examples.review_request "src/a.js" "a.js") w
          = (Failed "analyzeCode is not a function",
             logged [GetFileContent "src/a.js"; GetLatestFileVersion "src/a.js";
                     CalculateDiff] w)) as Hpost.
  { apply (@POST_changed Examples.example_diff
             (Examples.review_request "src/a.js" "a.js") w {| user_id := "u1" |}
             "src/a.js" Examples.script_after
             {| fv_id := 1; userId := "u1"; fileKey := "src/a.js"; fileName := "a.js";
                version := 1; content := Examples.script_before;
                hash := Examples.script_before;
                fv_size := strlen Examples.script_before |}).
    - repeat split; vm_compute; reflexivity.
    - vm_compute. reflexivity.
    - vm_compute. discriminate. }
  split; [exact Hlines|]. split; [exact Hfull|]. split.
  - apply elem_of_incremental_filter. split; [exact Hfull|].
    exists {| lineNumber := 8; change_type := "modified";
              oldText := Some "let a = 1;"; newText := Some "let a = 2;" |}.
    split; [vm_compute; apply elem_of_cons; by left | vm_compute; discriminate].
  - split; [by eexists|]. by rewrite Hpost.
Qed.




End IncrementalProperties.


(* ===================================================================== *)
(** ** The syntax check never aborts the analysis *)
(* ===================================================================== *)

Module SyntaxCheckProperties.

(** *** In the multi-dimensional analyzer *)

Section MultiDimensional.
Import MultiDimensional.
Context `{JsRuntime}.
Variable extra : Issue.

(** One step through a pass that follows the linting pass: the extra
    linting issue moves out of a loop, a condition or a push to another
    list. *)
Ltac commute_step :=
  match goal with
  | |- _ = _ => reflexivity
  | |- forEach ?l ?f _ = push_linting ?i (forEach ?l ?f _) =>
      apply (forEach_commute (push_linting i)); [intros ? ? ? |]
  | |- (if ?c then _ else _) = push_linting _ (if ?c then _ else _) => destruct c
  | |- push_security ?j _ = push_linting ?e (push_security ?j ?a) =>
      change (push_linting e (push_security j a))
        with (push_security j (push_linting e a)); f_equal
  | |- push_architecture ?j _ = push_linting ?e (push_architecture ?j ?a) =>
      change (push_linting e (push_architecture j a))
        with (push_architecture j (push_linting e a)); f_equal
  | |- push_quality ?j _ = push_linting ?e (push_quality ?j ?a) =>
      change (push_linting e (push_quality j a))
        with (push_quality j (push_linting e a)); f_equal
  | |- push_documentation ?j _ = push_linting ?e (push_documentation ?j ?a) =>
      change (push_linting e (push_documentation j a))
        with (push_documentation j (push_linting e a)); f_equal
  | |- push_suggestion ?j _ = push_linting ?e (push_suggestion ?j ?a) =>
      change (push_linting e (push_suggestion j a))
        with (push_suggestion j (push_linting e a)); f_equal
  end.

Ltac commute := cbv zeta; repeat commute_step.

Lemma performSecurityAnalysis_push_linting (content : string) (lines : list string)
    (ext : string) (a : Analysis) :
  performSecurityAnalysis content lines ext (push_linting extra a)
  = push_linting extra (performSecurityAnalysis content lines ext a).
Proof.
  unfold performSecurityAnalysis, securityCheckJavaScript, securityCheckPython. commute.
Qed.

Lemma performArchitectureAnalysis_push_linting (content : string) (lines : list string)
    (ext : string) (a : Analysis) :
  performArchitectureAnalysis content lines ext (push_linting extra a)
  = push_linting extra (performArchitectureAnalysis content lines ext a).
Proof. unfold performArchitectureAnalysis. commute. Qed.

Lemma performDocumentationAnalysis_push_linting (content : string) (lines : list string)
    (ext : string) (a : Analysis) :
  performDocumentationAnalysis content lines ext (push_linting extra a)
  = push_linting extra (performDocumentationAnalysis content lines ext a).
Proof. unfold performDocumentationAnalysis. commute. Qed.

Lemma performQualityAnalysis_push_linting (content : string) (lines : list string)
    (ext : string) (a : Analysis) :
  performQualityAnalysis content lines ext (push_linting extra a)
  = push_linting extra (performQualityAnalysis content lines ext a).
Proof.
  unfold performQualityAnalysis. cbv zeta.
  (* magic numbers *)
  erewrite (forEach_commute (push_linting extra) _ lines a (push_linting extra a));
    [|intros; commute|reflexivity].
  (* duplicate blocks: the map rides along *)
  erewrite (forEach_commute (fun st => (fst st, push_linting extra (snd st)))
              _ (seqZ _ _) (∅, _) (∅, push_linting extra _));
    [|intros i index [codeBlocks s]; cbn [fst snd];
      destruct (_ && _ && _); [|reflexivity];
      destruct (codeBlocks !! _); reflexivity
     |reflexivity].
  destruct (forEach (seqZ _ _) _ (∅, _)) as [codeBlocks a1]. cbn [fst snd].
  (* TODO comments and empty catch blocks *)
  match goal with
  | |- context [forEach lines ?g (?initL, -1, 0)] =>
      match goal with
      | |- context [forEach lines g (?initR, -1, 0)] =>
          assert (initL = push_linting extra initR) as Hinit; [solve [commute]|];
          rewrite Hinit;
          rewrite (forEach_commute
                     (fun st => (push_linting extra (fst (fst st)), snd (fst st), snd st))
                     g lines (initR, -1, 0) (push_linting extra initR, -1, 0));
          [destruct (forEach lines g (initR, -1, 0)) as [[? ?] ?]; reflexivity
          | | reflexivity]
      end
  end.
  (* long functions: the two counters ride along *)
  intros line index [[s functionStart] braceCount]. cbn [fst snd].
  destruct (re_test P_functionDecl line); cbv beta iota zeta;
    destruct (_ && _ && _); reflexivity.
Qed.

Lemma calculateMetrics_push_linting (content : string) (lines : list string)
    (a : Analysis) :
  calculateMetrics content lines (push_linting extra a)
  = push_linting extra (calculateMetrics content lines a).
Proof. reflexivity. Qed.

(** The passes that follow the linting pass carry an extra linting issue
    along unchanged. *)
Lemma later_passes_push_linting (content : string) (lines : list string) (ext : string)
    (a : Analysis) :
  calculateMetrics content lines
    (performDocumentationAnalysis content lines ext
       (performQualityAnalysis content lines ext
          (performArchitectureAnalysis content lines ext
             (performSecurityAnalysis content lines ext (push_linting extra a)))))
  = push_linting extra
      (calculateMetrics content lines
         (performDocumentationAnalysis content lines ext
            (performQualityAnalysis content lines ext
               (performArchitectureAnalysis content lines ext
                  (performSecurityAnalysis content lines ext a))))).
Proof.
  rewrite performSecurityAnalysis_push_linting, performArchitectureAnalysis_push_linting,
    performQualityAnalysis_push_linting, performDocumentationAnalysis_push_linting.
  apply calculateMetrics_push_linting.
Qed.

Lemma lintJavaScript_parse_effect (content : string) (lines : list string) (a : Analysis) :
  lintJavaScript content lines a
  = parse_effect content (@lintJavaScript (parses_everything _) content lines a).
Proof.
  unfold lintJavaScript, parse_effect. cbv zeta.
  change (@acorn_parse (parses_everything _) content) with (@Normal unit tt).
  destruct (acorn_parse content) as [?|error]; [reflexivity|].
  destruct (err_loc error); reflexivity.
Qed.

End MultiDimensional.

(** The passes with the real parser, against the passes with a parser that
    accepts everything. *)
Lemma run_passes_parse_effect `{JsRuntime} (content : string) (lines : list string)
    (ext : string) (a : MultiDimensional.Analysis) :
  MultiDimensional.run_passes content lines ext a
  = (if array_includes ["js"; "jsx"; "ts"; "tsx"] ext
     then MultiDimensional.parse_effect content
     else fun a0 => a0)
      (@MultiDimensional.run_passes (parses_everything _) content lines ext a).
Proof.
  unfold MultiDimensional.run_passes, MultiDimensional.performLintingAnalysis. cbv zeta.
  destruct (array_includes _ ext); [|reflexivity].
  rewrite lintJavaScript_parse_effect. unfold MultiDimensional.parse_effect.
  destruct (acorn_parse content) as [?|error]; [reflexivity|].
  destruct (err_loc error) as [l|]; [|reflexivity].
  etransitivity; [apply later_passes_push_linting | reflexivity].
Qed.

(** *** In the flat analyzer *)

Section CodeReview.
Import CodeReview.
Context `{JsRuntime}.

Lemma inserted_push (pre : list Issue) (extra i : Issue) (s t : list Issue) :
  inserted pre extra s t -> inserted pre extra (push i s) (push i t).
Proof.
  intros (post & -> & ->). exists (post ++ [i]). unfold push.
  split; [by rewrite app_assoc | by rewrite <- app_assoc].
Qed.

Lemma analyzeJavaScript_inserted (content : string) (lines : list string)
    (issues0 : list Issue) (fileName : string) (error : JsError) (l : Z) :
  acorn_parse content = Throw error ->
  err_loc error = Some l ->
  exists pre,
    inserted pre (syntax_issue error l)
      (@analyzeJavaScript (parses_everything _) content lines issues0 fileName)
      (analyzeJavaScript content lines issues0 fileName).
Proof.
  intros Hparse Hloc. unfold analyzeJavaScript. cbv zeta.
  rewrite Hparse, Hloc.
  change (@acorn_parse (parses_everything _) content) with (@Normal unit tt). cbv iota.
  eexists.
  repeat (apply forEach_related;
          [intros ? ? s t Hst; destruct (_ : bool); [by apply inserted_push | exact Hst]|]).
  exists []. split; [by rewrite app_nil_r | reflexivity].
Qed.

Lemma analyzeJavaScript_no_location (content : string) (lines : list string)
    (issues0 : list Issue) (fileName : string) (error : JsError) :
  acorn_parse content = Throw error ->
  err_loc error = None ->
  analyzeJavaScript content lines issues0 fileName
  = @analyzeJavaScript (parses_everything _) content lines issues0 fileName.
Proof.
  intros Hparse Hloc. unfold analyzeJavaScript. cbv zeta.
  rewrite Hparse, Hloc. reflexivity.
Qed.

Lemma count_severity_inserted (sev : string) (pre post : list Issue) (extra : Issue) :
  count_severity sev (pre ++ extra :: post)
  = count_severity sev (pre ++ post) + (if String.eqb (severity extra) sev then 1 else 0).
Proof.
  unfold count_severity, len. rewrite !List.filter_app. cbn [List.filter].
  destruct (String.eqb (severity extra) sev); rewrite !length_app; simpl; lia.
Qed.

End CodeReview.

(** C8, as the code has it.  A throw of the parse-based syntax check is
    always caught, so the analysis always completes.  When the error carries a
    location, it becomes exactly one error-severity issue at the reported
    line: the linting issues (multi-dimensional analyzer) or the issue list
    (flat analyzer) are those of an analysis whose parser accepted the input,
    with that one issue inserted; every other pass's issues and the metrics
    that do not count issues are the same.  When the error carries no
    location, the [catch] pushes nothing and the result is the one of an
    analysis whose parser accepted the input. *)
Theorem syntax_error_becomes_issue `{JsRuntime} (content fileName : string) :
  let a := MultiDimensional.analyzeCodeMultiDimensional content fileName in
  let a0 := @MultiDimensional.analyzeCodeMultiDimensional (parses_everything _)
              content fileName in
  let b := CodeReview.analyzeCode content fileName in
  let b0 := @CodeReview.analyzeCode (parses_everything _) content fileName in
  (MultiDimensional.security a = MultiDimensional.security a0
   /\ MultiDimensional.architecture a = MultiDimensional.architecture a0
   /\ MultiDimensional.quality a = MultiDimensional.quality a0
   /\ MultiDimensional.documentation a = MultiDimensional.documentation a0
   /\ MultiDimensional.metrics a = MultiDimensional.metrics a0)
  /\ (forall (error : JsError) (l : Z),
        acorn_parse content = Throw error -> err_loc error = Some l ->
        (MultiDimensional.lints_as_JavaScript fileName = true ->
           MultiDimensional.dim_issues (MultiDimensional.linting a)
           = MultiDimensional.dim_issues (MultiDimensional.linting a0)
             ++ [MultiDimensional.syntax_issue error l]
           /\ CodeReview.inserted
                (MultiDimensional.dim_issues (MultiDimensional.linting a0))
                (MultiDimensional.syntax_issue error l)
                (MultiDimensional.issues a0) (MultiDimensional.issues a))
        /\ (CodeReview.analyzed_as_JavaScript fileName = true ->
              (exists pre,
                 CodeReview.inserted pre (CodeReview.syntax_issue error l)
                   (CodeReview.issues b0) (CodeReview.issues b))
              /\ CodeReview.errorCount (CodeReview.metrics b)
                 = CodeReview.errorCount (CodeReview.metrics b0) + 1
              /\ CodeReview.warningCount (CodeReview.metrics b)
                 = CodeReview.warningCount (CodeReview.metrics b0)
              /\ CodeReview.infoCount (CodeReview.metrics b)
                 = CodeReview.infoCount (CodeReview.metrics b0)
              /\ CodeReview.totalLines (CodeReview.metrics b)
                 = CodeReview.totalLines (CodeReview.metrics b0)
              /\ CodeReview.codeLines (CodeReview.metrics b)
                 = CodeReview.codeLines (CodeReview.metrics b0)
              /\ CodeReview.commentLines (CodeReview.metrics b)
                 = CodeReview.commentLines (CodeReview.metrics b0)))
  /\ (forall error : JsError,
        acorn_parse content = Throw error -> err_loc error = None ->
        a = a0 /\ b = b0).
Proof.
  intros a a0 b b0.
  assert (a = (if MultiDimensional.lints_as_JavaScript fileName
               then fun x =>
                      MultiDimensional.calculateScores
                        (MultiDimensional.combine_issues
                           (MultiDimensional.parse_effect content x))
               else fun x =>
                      MultiDimensional.calculateScores (MultiDimensional.combine_issues x))
                (@MultiDimensional.run_passes (parses_everything _) content
                   (split_lines content) (toLowerCase (pop (split_on "." fileName)))
                   MultiDimensional.initial_analysis)) as Ha.
  { subst a. unfold MultiDimensional.analyzeCodeMultiDimensional. cbv zeta.
    rewrite run_passes_parse_effect. unfold MultiDimensional.lints_as_JavaScript.
    destruct (array_includes _ _); reflexivity. }
  assert (a0 = MultiDimensional.calculateScores
                 (MultiDimensional.combine_issues
                    (@MultiDimensional.run_passes (parses_everything _) content
                       (split_lines content) (toLowerCase (pop (split_on "." fileName)))
                       MultiDimensional.initial_analysis))) as Ha0 by reflexivity.
  set (passes := @MultiDimensional.run_passes (parses_everything _) _ _ _ _) in Ha, Ha0.
  split; [|split].
  - rewrite Ha, Ha0. unfold MultiDimensional.parse_effect.
    destruct (MultiDimensional.lints_as_JavaScript fileName); [|repeat split].
    destruct (acorn_parse content) as [?|error]; [repeat split|].
    destruct (err_loc error); repeat split.
  - intros error l Hparse Hloc. split.
    + intros Hjs. rewrite Ha, Ha0, Hjs. unfold MultiDimensional.parse_effect.
      rewrite Hparse, Hloc. split; [reflexivity|].
      exists (MultiDimensional.dim_issues (MultiDimensional.security passes)
              ++ MultiDimensional.dim_issues (MultiDimensional.architecture passes)
              ++ MultiDimensional.dim_issues (MultiDimensional.quality passes)
              ++ MultiDimensional.doc_issues (MultiDimensional.documentation passes)).
      split; [reflexivity|]. cbn. by rewrite <- app_assoc.
    + intros Hjs.
      assert (exists pre,
                CodeReview.inserted pre (CodeReview.syntax_issue error l)
                  (CodeReview.issues b0) (CodeReview.issues b)) as (pre & post & Hb0 & Hb).
      { subst b b0. unfold CodeReview.analyzeCode, CodeReview.language_checks.
        cbv zeta. cbn [CodeReview.issues].
        unfold CodeReview.analyzed_as_JavaScript in Hjs. cbv zeta in Hjs. rewrite Hjs.
        apply (analyzeJavaScript_inserted content _ _ fileName error l Hparse Hloc). }
      split; [exists pre, post; by split|].
      assert (CodeReview.metrics b
              = CodeReview.calculateMetrics content (split_lines content)
                  (CodeReview.issues b)) as -> by reflexivity.
      assert (CodeReview.metrics b0
              = CodeReview.calculateMetrics content (split_lines content)
                  (CodeReview.issues b0)) as -> by reflexivity.
      rewrite Hb, Hb0. unfold CodeReview.calculateMetrics. cbv zeta.
      cbn [CodeReview.errorCount CodeReview.warningCount CodeReview.infoCount
           CodeReview.totalLines CodeReview.codeLines CodeReview.commentLines].
      rewrite !count_severity_inserted. cbn. repeat split; lia.
  - intros error Hparse Hloc. split.
    + rewrite Ha, Ha0. unfold MultiDimensional.parse_effect. rewrite Hparse, Hloc.
      destruct (MultiDimensional.lints_as_JavaScript fileName); reflexivity.
    + subst b b0. unfold CodeReview.analyzeCode, CodeReview.language_checks. cbv zeta.
      destruct (_ || _); [|reflexivity].
      rewrite (analyzeJavaScript_no_location content _ _ fileName error Hparse Hloc).
      reflexivity.
Qed.

(** A stray closing brace: both analyzers report one error on line 1. *)
Lemma syntax_error_becomes_issue_witness :
  MultiDimensional.dim_issues
    (MultiDimensional.linting
       (@MultiDimensional.analyzeCodeMultiDimensional Examples.example_runtime "}" "stray.js"))
  = MultiDimensional.dim_issues
      (MultiDimensional.linting
         (@MultiDimensional.analyzeCodeMultiDimensional
            (parses_everything Examples.example_runtime) "}" "stray.js"))
    ++ [MultiDimensional.syntax_issue
          {| err_message := "Unexpected token (1:0)"; err_loc := Some 1 |} 1].
Proof.
  apply (@syntax_error_becomes_issue Examples.example_runtime "}" "stray.js");
    reflexivity.
Defined.

(** An expression nested too deeply for the parser: the engine throws a
    [RangeError], which carries no location, and neither analyzer reports
    it; the results are those of an input that parsed, with no
    error-severity issue. *)
Lemma syntax_error_without_location_dropped :
  let content := Examples.deeply_nested_content in
  let a := @MultiDimensional.analyzeCodeMultiDimensional Examples.example_runtime
             content "deep.js" in
  let b := @CodeReview.analyzeCode Examples.example_runtime content "deep.js" in
  (exists error, @acorn_parse Examples.example_runtime content = Throw error)
  /\ a = @MultiDimensional.analyzeCodeMultiDimensional
           (parses_everything Examples.example_runtime) content "deep.js"
  /\ Forall (fun i => severity i <> "error") (MultiDimensional.issues a)
  /\ b = @CodeReview.analyzeCode (parses_everything Examples.example_runtime)
           content "deep.js"
  /\ Forall (fun i => severity i <> "error") (CodeReview.issues b).
Proof.
  vm_compute. split; [eexists; reflexivity|].
  repeat split; repeat constructor; discriminate.
Qed.

End SyntaxCheckProperties.

(* ===================================================================== *)
(** ** The queries of the version store *)
(* ===================================================================== *)

Module VersionQueryProperties.
Import Prisma VersionTracker VersionQueries.

Lemma versions_of_rows_of (key : string) (db : Database) :
  versions_of key db = version <$> rows_of key db.
Proof. reflexivity. Qed.

Lemma find_snoc {A : Type} (f : A -> bool) (l : list A) (x : A) :
  List.find f (l ++ [x])
  = match List.find f l with
    | Some y => Some y
    | None => if f x then Some x else None
    end.
Proof.
  induction l as [|y l IH]; simpl; [reflexivity|].
  destruct (f y); [reflexivity | exact IH].
Qed.

Lemma find_none_below (id : Z) (rows : list FileVersion) :
  Forall (fun row => fv_id row < id) rows ->
  List.find (fun row => fv_id row =? id) rows = None.
Proof.
  induction 1 as [|row rows Hrow _ IH]; simpl; [reflexivity|].
  destruct (Z.eqb_spec (fv_id row) id); [lia | exact IH].
Qed.

Section Queries.
Context `{JsRuntime}.
Variable createdAt : FileVersion -> Z.

(** X1.  [hasFileChanged] predicts [storeFileVersion]: it answers [true]
    exactly when a save of that content would write a version, and after
    the save it answers [false] for the saved content. *)
Theorem change_detection_agrees (userId k fileName content : string) (db : Database) :
  hasFileChanged k content db
  = changed (fst (storeFileVersion userId k fileName content db))
  /\ hasFileChanged k content (snd (storeFileVersion userId k fileName content db)) = false.
Proof.
  split.
  - unfold hasFileChanged, storeFileVersion. cbv zeta.
    destruct (findFirst_latest k db) as [lv|].
    + destruct (String.eqb (hash lv) (generateContentHash content)); [reflexivity|].
      destruct (fileVersion_create _ _ _ _ _ _ _ _); reflexivity.
    + destruct (fileVersion_create _ _ _ _ _ _ _ _); reflexivity.
  - destruct (VersionStoreProperties.storeFileVersion_latest userId k fileName content db)
      as (row & Hrow & _ & Hhash).
    unfold hasFileChanged. cbv zeta. rewrite Hrow, Hhash, String.eqb_refl. reflexivity.
Qed.

(** What a save does to the table: one more row when it reports [changed],
    nothing otherwise. *)
Lemma storeFileVersion_row (userId k fileName content : string) (db : Database) :
  let '(r, db') := storeFileVersion userId k fileName content db in
  if changed r then
    exists row,
      fileVersions db' = fileVersions db ++ [row]
      /\ Prisma.userId row = userId /\ fileKey row = k /\ Prisma.fileName row = fileName
      /\ Prisma.content row = content
      /\ hash row = generateContentHash content
      /\ fv_size row = byteLength content
      /\ version row = result_version r
      /\ result_id r = Some (fv_id row)
  else db' = db.
Proof.
  unfold storeFileVersion. cbv zeta.
  assert (forall v,
    let '(row, db') := fileVersion_create userId k fileName v content
                         (generateContentHash content) (byteLength content) db in
    exists row',
      fileVersions db' = fileVersions db ++ [row']
      /\ Prisma.userId row' = userId /\ fileKey row' = k
      /\ Prisma.fileName row' = fileName /\ Prisma.content row' = content
      /\ hash row' = generateContentHash content
      /\ fv_size row' = byteLength content
      /\ version row' = v
      /\ Some (fv_id row) = Some (fv_id row')) as Hcreate.
  { intros v. unfold fileVersion_create. eexists. repeat split. }
  destruct (findFirst_latest k db) as [lv|].
  - destruct (String.eqb (hash lv) (generateContentHash content)).
    + reflexivity.
    + specialize (Hcreate (next_version (Some lv))).
      destruct (fileVersion_create _ _ _ _ _ _ _ _). exact Hcreate.
  - specialize (Hcreate (next_version None)).
    destruct (fileVersion_create _ _ _ _ _ _ _ _). exact Hcreate.
Qed.

(** X2.  A save only appends.  It never touches the reviews or the
    versions of another file; when it reports [changed] the table has
    exactly one more row, which carries the saved content, its digest and
    size, the returned version number and the returned key; otherwise the
    database is the same. *)
Theorem save_only_appends (userId k fileName content : string) (db : Database) :
  let '(r, db') := storeFileVersion userId k fileName content db in
  reviews db' = reviews db
  /\ (forall k', k' <> k -> rows_of k' db' = rows_of k' db)
  /\ if changed r then
       exists row,
         fileVersions db' = fileVersions db ++ [row]
         /\ Prisma.userId row = userId /\ fileKey row = k /\ Prisma.fileName row = fileName
         /\ Prisma.content row = content
         /\ hash row = generateContentHash content
         /\ fv_size row = byteLength content
         /\ version row = result_version r
         /\ result_id r = Some (fv_id row)
     else db' = db.
Proof.
  pose proof (storeFileVersion_row userId k fileName content db) as Hrow.
  assert (reviews (snd (storeFileVersion userId k fileName content db)) = reviews db)
    as Hreviews.
  { unfold storeFileVersion. cbv zeta.
    destruct (findFirst_latest k db) as [lv|];
      [destruct (String.eqb (hash lv) (generateContentHash content))|]; reflexivity. }
  destruct (storeFileVersion userId k fileName content db) as [r db'].
  cbn [snd] in Hreviews.
  split; [exact Hreviews|]. split; [|exact Hrow].
  intros k' Hne. destruct (changed r); [|by rewrite Hrow].
  destruct Hrow as (row & Hrows & _ & Hk & _).
  unfold rows_of. rewrite Hrows, List.filter_app. cbn [List.filter]. rewrite Hk.
  destruct (String.eqb_spec k k'); [congruence|]. by rewrite app_nil_r.
Qed.

(** X3.  A stored version can be fetched by the key the save returned, and
    it holds what was saved; rows fetched before the save are fetched
    unchanged after it.  This needs the keys in the table to be below the
    counter, which every save preserves. *)
Theorem saved_version_is_fetched (userId k fileName content : string) (db : Database) :
  keys_below_counter db ->
  let '(r, db') := storeFileVersion userId k fileName content db in
  keys_below_counter db'
  /\ (forall id, result_id r = Some id ->
        exists row,
          getFileVersion id db' = Some row
          /\ fileKey row = k /\ Prisma.content row = content
          /\ version row = result_version r
          /\ hash row = generateContentHash content)
  /\ (forall id row, getFileVersion id db = Some row -> getFileVersion id db' = Some row).
Proof.
  intros Hkeys.
  pose proof (storeFileVersion_row userId k fileName content db) as Hrows.
  assert (next_id db <= next_id (snd (storeFileVersion userId k fileName content db))
          /\ (changed (fst (storeFileVersion userId k fileName content db)) = true ->
              result_id (fst (storeFileVersion userId k fileName content db))
              = Some (next_id db)
              /\ next_id (snd (storeFileVersion userId k fileName content db))
                 = next_id db + 1)
          /\ (changed (fst (storeFileVersion userId k fileName content db)) = false ->
              result_id (fst (storeFileVersion userId k fileName content db)) = None))
    as Hcounter.
  { unfold storeFileVersion. cbv zeta.
    destruct (findFirst_latest k db) as [lv|];
      [destruct (String.eqb (hash lv) (generateContentHash content))|];
      cbn; repeat split; try lia; try discriminate. }
  destruct (storeFileVersion userId k fileName content db) as [r db'].
  cbn [fst snd] in Hcounter. destruct Hcounter as (Hle & Hnew & Hold).
  destruct (changed r) eqn:Hchanged.
  - destruct Hrows as (row & Hrows & _ & Hk & _ & Hc & Hh & _ & Hv & Hid).
    destruct (Hnew eq_refl) as (Hid' & Hnext).
    assert (fv_id row = next_id db) as Hrowid by congruence.
    split; [|split].
    + unfold keys_below_counter. rewrite Hrows, Hnext.
      apply Forall_app. split.
      * eapply Forall_impl; [exact Hkeys|]. simpl. intros; lia.
      * constructor; [lia | constructor].
    + intros id Hr. exists row. unfold getFileVersion, findUnique.
      rewrite Hrows, find_snoc.
      assert (id = next_id db) as -> by congruence.
      rewrite (find_none_below _ _ Hkeys), Hrowid, Z.eqb_refl. by repeat split.
    + intros id row' Hget. unfold getFileVersion, findUnique in *.
      rewrite Hrows, find_snoc, Hget. reflexivity.
  - subst db'. split; [exact Hkeys|]. split; [|auto].
    intros id Hid. rewrite (Hold eq_refl) in Hid. discriminate.
Qed.

(** *** Listings *)

Lemma newest_first_versions (rows : list FileVersion) :
  StronglySorted newer_first rows ->
  StronglySorted (fun a b : Z => b <= a) (version <$> rows).
Proof.
  induction 1 as [|row rows _ IH Hall]; simpl; constructor; [exact IH|].
  apply Forall_fmap. exact Hall.
Qed.

Lemma descending_run (n : nat) (m : Z) :
  StronglySorted (fun a b : Z => b <= a) (reverse (seqZ m (Z.of_nat n))).
Proof.
  induction n as [|n IH]; [constructor|].
  rewrite seqZ_S, reverse_snoc. constructor; [exact IH|].
  apply Forall_forall. intros v Hv. apply elem_of_reverse, elem_of_seqZ in Hv. lia.
Qed.

Lemma findMany_desc_sorted (k : string) (db : Database) :
  StronglySorted newer_first (findMany_desc k db).
Proof.
  unfold findMany_desc. apply StronglySorted_merge_sort.
  - intros r1 r2 r3. unfold newer_first. lia.
  - intros r1 r2. unfold newer_first. lia.
Qed.

Lemma findMany_asc_Permutation (k : string) (db : Database) :
  findMany_asc k db ≡ₚ rows_of k db.
Proof. apply merge_sort_Permutation. Qed.

Lemma findMany_desc_Permutation (k : string) (db : Database) :
  findMany_desc k db ≡ₚ rows_of k db.
Proof. apply merge_sort_Permutation. Qed.

(** X4.  The history of a file lists exactly its stored versions, newest
    first; its first entry has the version number of the latest version; and
    in a gapless store it reads n, n-1, ..., 1. *)
Theorem history_newest_first (k : string) (db : Database) :
  let listed := summary_version <$> getFileVersions createdAt k db in
  listed ≡ₚ versions_of k db
  /\ StronglySorted (fun a b : Z => b <= a) listed
  /\ head listed = version <$> findFirst_latest k db
  /\ (gapless k db -> listed = reverse (seqZ 1 (len (versions_of k db)))).
Proof.
  intros listed.
  assert (listed = version <$> findMany_desc k db) as Hlisted.
  { subst listed. unfold getFileVersions. rewrite <- list_fmap_compose. reflexivity. }
  assert (listed ≡ₚ versions_of k db) as Hperm.
  { rewrite Hlisted, versions_of_rows_of. by rewrite findMany_desc_Permutation. }
  assert (StronglySorted (fun a b : Z => b <= a) listed) as Hsorted.
  { rewrite Hlisted. apply newest_first_versions, findMany_desc_sorted. }
  split; [exact Hperm|]. split; [exact Hsorted|]. split.
  - pose proof (VersionStoreProperties.latest_scan_spec k (fileVersions db)) as Hspec.
    unfold findFirst_latest.
    destruct (foldl (keep_latest k) None (fileVersions db)) as [lv|]; simpl.
    + destruct Hspec as (Hk & Hin & Hmax).
      assert (version lv ∈ listed) as Hlv.
      { rewrite Hperm. apply VersionStoreProperties.elem_of_versions_of. by exists lv. }
      destruct listed as [|v vs]; [by apply elem_of_nil in Hlv|]. simpl. f_equal.
      assert (v ∈ versions_of k db) as Hv by (rewrite <- Hperm; apply elem_of_cons; by left).
      apply VersionStoreProperties.elem_of_versions_of in Hv as (r & Hr & Hrk & Hrv).
      specialize (Hmax r Hr Hrk).
      apply StronglySorted_inv in Hsorted as [_ Hall].
      apply elem_of_cons in Hlv as [Heq|Hlv]; [lia|].
      rewrite Forall_forall in Hall. specialize (Hall _ Hlv). simpl in Hall. lia.
    + destruct listed as [|v vs]; [reflexivity|]. exfalso.
      assert (v ∈ versions_of k db) as Hv by (rewrite <- Hperm; apply elem_of_cons; by left).
      apply VersionStoreProperties.elem_of_versions_of in Hv as (r & Hr & Hrk & _).
      by destruct (Hspec r Hr).
  - intros Hgap.
    assert (AntiSymm (=) (fun a b : Z => b <= a)) as Hanti.
    { intros a b ? ?. lia. }
    apply (StronglySorted_unique (fun a b : Z => b <= a)); [exact Hsorted| |].
    + unfold len. apply descending_run.
    + rewrite Hperm. rewrite Hgap at 1. by rewrite reverse_Permutation.
Qed.

(** X5.  [getVersionStats] answers [null] exactly for a file without stored
    versions; otherwise [totalVersions] is the number of stored versions of
    the file, and in a gapless store it is the version number of the latest
    version. *)
Theorem version_stats_count (k : string) (db : Database) :
  (getVersionStats createdAt k db = None <-> versions_of k db = [])
  /\ (forall stats, getVersionStats createdAt k db = Some stats ->
        totalVersions stats = len (versions_of k db)
        /\ 1 <= totalVersions stats
        /\ (gapless k db ->
            version <$> findFirst_latest k db = Some (totalVersions stats))).
Proof.
  assert (len (findMany_asc k db) = len (versions_of k db)) as Hlen.
  { unfold len. rewrite findMany_asc_Permutation, versions_of_rows_of.
    by rewrite length_fmap. }
  unfold getVersionStats. cbv zeta.
  destruct (findMany_asc k db) as [|first rest] eqn:Hasc.
  - assert (versions_of k db = []) as Hnil.
    { unfold len in Hlen. simpl in Hlen. destruct (versions_of k db); [reflexivity|].
      simpl in Hlen. lia. }
    split; [tauto|]. intros stats [=].
  - split.
    + split; [discriminate|]. intros Hnil. rewrite Hnil in Hlen.
      unfold len in Hlen. simpl in Hlen. lia.
    + intros stats [= <-]. cbn [totalVersions]. split; [exact Hlen|].
      split; [unfold len; simpl; lia|].
      intros Hgap. rewrite Hlen.
      pose proof (VersionStoreProperties.latest_of_gapless k db Hgap) as Hlatest.
      destruct (findFirst_latest k db) as [lv|]; simpl.
      * destruct Hlatest as [-> _]. reflexivity.
      * rewrite Hlatest in Hlen. unfold len in Hlen. simpl in Hlen. lia.
Qed.

(** X6.  [compareFileVersions] throws exactly when one of the two keys has
    no row.  Swapping the arguments swaps the two sides, negates the size
    difference and keeps [hashChanged]; a version compared with itself gives
    size difference 0 and [hashChanged = false]. *)
Theorem comparison_is_symmetric (id1 id2 : Z) (db : Database) :
  ((exists e, compareFileVersions createdAt id1 id2 db = Throw e)
   <-> findUnique id1 db = None \/ findUnique id2 db = None)
  /\ (forall c, compareFileVersions createdAt id1 id2 db = Normal c ->
        exists c',
          compareFileVersions createdAt id2 id1 db = Normal c'
          /\ sizeDiff c' = - sizeDiff c
          /\ hashChanged c' = hashChanged c
          /\ version1 c' = version2 c /\ version2 c' = version1 c)
  /\ (forall c, compareFileVersions createdAt id1 id1 db = Normal c ->
        sizeDiff c = 0 /\ hashChanged c = false).
Proof.
  unfold compareFileVersions. split; [|split].
  - destruct (findUnique id1 db) as [v1|], (findUnique id2 db) as [v2|]; split.
    + intros [e He]. discriminate.
    + intros [Hn|Hn]; discriminate.
    + intros _. by right.
    + intros _. eexists. reflexivity.
    + intros _. by left.
    + intros _. eexists. reflexivity.
    + intros _. by left.
    + intros _. eexists. reflexivity.
  - intros c Hc.
    destruct (findUnique id1 db) as [v1|], (findUnique id2 db) as [v2|];
      try discriminate.
    injection Hc as <-. eexists. split; [reflexivity|]. cbn.
    split; [lia|]. split; [|by split]. f_equal. apply String.eqb_sym.
  - intros c Hc. destruct (findUnique id1 db) as [v1|]; [|discriminate].
    injection Hc as <-. cbn. split; [lia|]. by rewrite String.eqb_refl.
Qed.

(** *** Calls in flight for different files *)

Lemma step_in_step (key : string) (c : Call) (db : Database) :
  gapless key db -> in_step_with key c db ->
  gapless key (snd (step c db)) /\ in_step_with key (fst (step c db)) (snd (step c db)).
Proof.
  intros Hgap Hc. destruct c as [u k n c|u k n c h s nv|r]; simpl in Hc.
  - subst k. unfold step. cbv zeta.
    pose proof (VersionStoreProperties.latest_of_gapless key db Hgap) as Hlatest.
    destruct (findFirst_latest key db) as [lv|].
    + destruct (String.eqb (hash lv) (generateContentHash c)); cbn; [by split|].
      split; [exact Hgap|]. split; [reflexivity|].
      rewrite VersionStoreProperties.next_version_Some. lia.
    + cbn. split; [exact Hgap|]. split; [reflexivity|]. by rewrite Hlatest.
  - destruct Hc as [-> ->]. unfold step.
    pose proof (VersionStoreProperties.versions_of_create key u key n c h
                  (len (versions_of key db) + 1) s db) as Hvs.
    destruct (fileVersion_create _ _ _ _ _ _ _ _) as [row db']. cbn [fst snd] in *.
    rewrite String.eqb_refl in Hvs. split; [|exact I].
    by apply (VersionStoreProperties.gapless_extend key db).
  - by split.
Qed.

Lemma step_other_file (key key' : string) (c : Call) (db : Database) :
  in_step_with key' c db -> key' <> key ->
  versions_of key (snd (step c db)) = versions_of key db.
Proof.
  intros Hc Hne. destruct c as [u k n c|u k n c h s nv|r]; simpl in Hc.
  - subst k. unfold step. cbv zeta.
    destruct (findFirst_latest key' db) as [lv|]; [|reflexivity].
    destruct (String.eqb (hash lv) (generateContentHash c)); reflexivity.
  - destruct Hc as [-> _]. unfold step.
    pose proof (VersionStoreProperties.versions_of_create key u key' n c h nv s db) as Hvs.
    destruct (fileVersion_create _ _ _ _ _ _ _ _) as [row db']. cbn [snd] in *.
    destruct (String.eqb_spec key' key); [contradiction|]. by rewrite app_nil_r in Hvs.
  - reflexivity.
Qed.

Lemma in_step_with_same_versions (key : string) (c : Call) (db db' : Database) :
  versions_of key db' = versions_of key db ->
  (gapless key db -> gapless key db')
  /\ (in_step_with key c db -> in_step_with key c db').
Proof.
  intros Hvs. split.
  - unfold gapless. by rewrite Hvs.
  - destruct c; simpl; [auto | | auto]. by rewrite Hvs.
Qed.

Lemma run_different_files (k1 k2 : string) (schedule : list Turn) :
  k1 <> k2 ->
  forall (a b : Call) (db : Database),
    gapless k1 db -> gapless k2 db ->
    in_step_with k1 a db -> in_step_with k2 b db ->
    let '(a', b', db') := run schedule a b db in
    gapless k1 db' /\ gapless k2 db'
    /\ in_step_with k1 a' db' /\ in_step_with k2 b' db'.
Proof.
  intros Hne. induction schedule as [|turn schedule IH]; intros a b db Hg1 Hg2 Ha Hb.
  { simpl. by repeat split. }
  destruct turn; simpl.
  - destruct (step_in_step k1 a db Hg1 Ha) as [Hg1' Ha'].
    pose proof (step_other_file k2 k1 a db Ha Hne) as Hvs.
    destruct (in_step_with_same_versions k2 b db _ Hvs) as [Hg2' Hb'].
    destruct (step a db) as [a' db']. cbn [fst snd] in *. apply IH; auto.
  - destruct (step_in_step k2 b db Hg2 Hb) as [Hg2' Hb'].
    assert (k2 <> k1) as Hne' by congruence.
    pose proof (step_other_file k1 k2 b db Hb Hne') as Hvs.
    destruct (in_step_with_same_versions k1 a db _ Hvs) as [Hg1' Ha'].
    destruct (step b db) as [b' db']. cbn [fst snd] in *. apply IH; auto.
Qed.

(** X7.  Two calls of [storeFileVersion] for different files never disturb
    each other, however the database interleaves their queries and
    insertions: from a store in which both files are gapless, every schedule
    leaves both files gapless (and so without duplicate version numbers). *)
Theorem different_files_never_race (u1 k1 n1 c1 u2 k2 n2 c2 : string)
    (schedule : list Turn) (db : Database) :
  k1 <> k2 -> gapless k1 db -> gapless k2 db ->
  let '(_, _, db') := run schedule (Started u1 k1 n1 c1) (Started u2 k2 n2 c2) db in
  gapless k1 db' /\ gapless k2 db'
  /\ NoDup (versions_of k1 db') /\ NoDup (versions_of k2 db').
Proof.
  intros Hne Hg1 Hg2.
  pose proof (run_different_files k1 k2 schedule Hne (Started u1 k1 n1 c1)
                (Started u2 k2 n2 c2) db Hg1 Hg2 eq_refl eq_refl) as Hrun.
  destruct (run schedule _ _ db) as [[a' b'] db'].
  destruct Hrun as (Hg1' & Hg2' & _). repeat split; try assumption.
  - rewrite Hg1'. apply NoDup_seqZ.
  - rewrite Hg2'. apply NoDup_seqZ.
Qed.

End Queries.

(** *** Worked examples *)

(** A first save on the empty store, fetched by its key. *)
Lemma saved_version_is_fetched_witness :
  let '(r, db') :=
    @storeFileVersion Examples.example_runtime "u1" "src/a.js" "a.js" "let a = 1;"
      Prisma.empty in
  exists row,
    getFileVersion 1 db' = Some row /\ Prisma.content row = "let a = 1;".
Proof.
  pose proof (@saved_version_is_fetched Examples.example_runtime
                "u1" "src/a.js" "a.js" "let a = 1;" Prisma.empty) as Hsaved.
  destruct (@storeFileVersion Examples.example_runtime _ _ _ _ _) as [r db'] eqn:Hstore.
  destruct Hsaved as (_ & Hfetch & _); [constructor|].
  destruct (Hfetch 1) as (row & Hrow & _ & Hcontent & _).
  - vm_compute in Hstore. by injection Hstore as <- _.
  - by exists row.
Defined.

(** The store after three saves of one file. *)
Lemma history_newest_first_witness :
  let db :=
    @save_all Examples.example_runtime
      [{| save_userId := "u1"; save_fileKey := "src/a.js"; save_fileName := "a.js";
          save_content := "let a = 1;" |};
       {| save_userId := "u1"; save_fileKey := "src/a.js"; save_fileName := "a.js";
          save_content := "let a = 2;" |};
       {| save_userId := "u1"; save_fileKey := "src/a.js"; save_fileName := "a.js";
          save_content := "let a = 3;" |}] Prisma.empty in
  summary_version <$> getFileVersions (fun row => fv_id row) "src/a.js" db = [3; 2; 1].
Proof.
  intros db.
  destruct (history_newest_first (fun row => fv_id row) "src/a.js" db)
    as (_ & _ & _ & Hgap).
  rewrite Hgap; [reflexivity|]. reflexivity.
Defined.

Lemma version_stats_count_witness :
  let db :=
    @save_all Examples.example_runtime
      [{| save_userId := "u1"; save_fileKey := "src/a.js"; save_fileName := "a.js";
          save_content := "let a = 1;" |};
       {| save_userId := "u1"; save_fileKey := "src/a.js"; save_fileName := "a.js";
          save_content := "let a = 2;" |}] Prisma.empty in
  exists stats,
    getVersionStats (fun row => fv_id row) "src/a.js" db = Some stats
    /\ totalVersions stats = 2.
Proof.
  intros db. eexists. split; [vm_compute; reflexivity|].
  eapply (proj2 (version_stats_count (fun row => fv_id row) "src/a.js" db)).
  vm_compute. reflexivity.
Defined.

Lemma comparison_is_symmetric_witness :
  let db :=
    @save_all Examples.example_runtime
      [{| save_userId := "u1"; save_fileKey := "src/a.js"; save_fileName := "a.js";
          save_content := "let a = 1;" |};
       {| save_userId := "u1"; save_fileKey := "src/a.js"; save_fileName := "a.js";
          save_content := "let a = 22;" |}] Prisma.empty in
  exists c',
    compareFileVersions (fun row => fv_id row) 2 1 db = Normal c'
    /\ sizeDiff c' = -1 /\ hashChanged c' = true.
Proof.
  intros db.
  destruct (comparison_is_symmetric (fun row => fv_id row) 1 2 db) as (_ & Hswap & _).
  edestruct Hswap as (c' & Hc' & Hsize & Hhash & _); [vm_compute; reflexivity|].
  exists c'. split; [exact Hc'|]. split; [exact Hsize | exact Hhash].
Defined.

(** Two files saved while the calls overlap. *)
Lemma different_files_never_race_witness :
  let '(_, _, db') :=
    @run Examples.example_runtime [First; Second; First; Second]
      (Started "u1" "src/a.js" "a.js" "let a = 1;")
      (Started "u2" "src/b.js" "b.js" "let b = 1;") Prisma.empty in
  gapless "src/a.js" db' /\ gapless "src/b.js" db'
  /\ NoDup (versions_of "src/a.js" db') /\ NoDup (versions_of "src/b.js" db').
Proof.
  apply (@different_files_never_race Examples.example_runtime
           "u1" "src/a.js" "a.js" "let a = 1;" "u2" "src/b.js" "b.js" "let b = 1;"
           [First; Second; First; Second] Prisma.empty).
  - discriminate.
  - reflexivity.
  - reflexivity.
Defined.

End VersionQueryProperties.

(* ===================================================================== *)
(** ** More on the incremental orchestrator *)
(* ===================================================================== *)

Module OrchestratorProperties.
Import Prisma Incremental.

(** *** The filter as a list operation *)

Lemma filter_sublist {A : Type} (p : A -> bool) (l : list A) : sublist (List.filter p l) l.
Proof.
  induction l as [|x l IH]; simpl; [constructor|].
  destruct (p x); by constructor.
Qed.

Lemma filter_all {A : Type} (p : A -> bool) (l : list A) :
  Forall (fun x => p x = true) l -> List.filter p l = l.
Proof.
  induction 1 as [|x l Hx _ IH]; simpl; [reflexivity|]. by rewrite Hx, IH.
Qed.

Lemma filter_filter_same {A : Type} (p : A -> bool) (l : list A) :
  List.filter p (List.filter p l) = List.filter p l.
Proof.
  apply filter_all, Forall_forall. intros x Hx.
  apply list_elem_of_In, filter_In in Hx. tauto.
Qed.

(** X8.  The proximity filter selects, it never reorders or invents: its
    result is a sublist of the full issue list.  It keeps every issue that
    sits on a changed line, keeps nothing when no line changed, and applying
    it twice is the same as applying it once. *)
Theorem filter_selects (changedLines : list ChangedLine) (fullIssues : list Issue) :
  sublist (incremental_filter changedLines fullIssues) fullIssues
  /\ (forall i c, i ∈ fullIssues -> c ∈ changedLines -> line i = lineNumber c ->
        i ∈ incremental_filter changedLines fullIssues)
  /\ incremental_filter [] fullIssues = []
  /\ incremental_filter changedLines (incremental_filter changedLines fullIssues)
     = incremental_filter changedLines fullIssues.
Proof.
  split; [apply filter_sublist|]. split; [|split].
  - intros i c Hi Hc Hline. apply IncrementalProperties.elem_of_incremental_filter.
    split; [exact Hi|]. exists c. split; [exact Hc | lia].
  - unfold incremental_filter. cbn. induction fullIssues as [|i l IH]; [reflexivity|].
    exact IH.
  - apply filter_filter_same.
Qed.

(** X13.  The window of the proximity filter is 2 lines on either side: an
    issue passes exactly when it is an issue of the full analysis and some
    changed line is at distance at most 2 from its line.  An issue on line 10
    passes when a change is on line 8 or 12, and does not when every change
    is on line 7 or before, or on line 13 or after. *)
Theorem proximity_window (changedLines : list ChangedLine) (fullIssues : list Issue)
    (i : Issue) :
  (i ∈ incremental_filter changedLines fullIssues
   <-> i ∈ fullIssues
       /\ exists c, c ∈ changedLines /\ Z.abs (line i - lineNumber c) <= 2)
  /\ (i ∈ fullIssues -> line i = 10 ->
      ((exists c, c ∈ changedLines /\ (lineNumber c = 8 \/ lineNumber c = 12)) ->
       i ∈ incremental_filter changedLines fullIssues)
      /\ ((forall c, c ∈ changedLines -> lineNumber c <= 7 \/ 13 <= lineNumber c) ->
          i ∉ incremental_filter changedLines fullIssues)).
Proof.
  split; [apply IncrementalProperties.elem_of_incremental_filter|].
  intros Hi Hline. split.
  - intros (c & Hc & Hat). apply IncrementalProperties.elem_of_incremental_filter.
    split; [exact Hi|]. exists c. split; [exact Hc | lia].
  - intros Hfar Hkept.
    apply IncrementalProperties.elem_of_incremental_filter in Hkept
      as (_ & c & Hc & Hclose).
    specialize (Hfar c Hc). lia.
Qed.

Section Handler.
Context `{DiffEngine}.

Lemma POST_unauthorized (request : Request) (w : World) :
  user request = None -> POST request w = (Unauthorized, w).
Proof. intros Hu. unfold POST, POST_body. by rewrite Hu. Qed.

Lemma POST_no_key (request : Request) (w : World) (u : User) :
  user request = Some u ->
  req_fileKey request = None \/ req_fileKey request = Some "" ->
  POST request w = (FileKeyRequired, w).
Proof. intros Hu [Hk|Hk]; unfold POST, POST_body; by rewrite Hu, Hk. Qed.

Lemma POST_missing_object (request : Request) (w : World) (u : User) (k : string) :
  user request = Some u -> req_fileKey request = Some k -> truthy k = true ->
  s3 w !! k = None ->
  POST request w = (Failed "NoSuchKey", logged [GetFileContent k] w).
Proof.
  intros Hu Hk Ht Hs. unfold POST, POST_body. rewrite Hu, Hk, Ht. cbn [negb].
  unfold getFileContent, bind, log. cbn [s3]. by rewrite Hs.
Qed.

(** X9.  A request without a session, or without a file key, is answered
    (401, 400) before anything is called: the world after it is the world
    before it. *)
Theorem rejected_before_any_call (request : Request) (w : World) :
  (user request = None -> POST request w = (Unauthorized, w))
  /\ (forall u, user request = Some u ->
        req_fileKey request = None \/ req_fileKey request = Some "" ->
        POST request w = (FileKeyRequired, w)).
Proof. split; [apply POST_unauthorized | apply POST_no_key]. Qed.

(** X10.  When the object store has no object under the key, the handler
    answers 500 right after the failed fetch: the latest version is not
    queried, no diff or analysis runs, and the database is unchanged. *)
Theorem missing_object_fails_early (request : Request) (w : World) (u : User)
    (k : string) :
  user request = Some u -> req_fileKey request = Some k -> truthy k = true ->
  s3 w !! k = None ->
  exists details,
    POST request w = (Failed details, logged [GetFileContent k] w).
Proof. intros. eexists. by eapply POST_missing_object. Qed.

(** X11.  When the diff reports changed lines, the handler answers 500
    whatever file name the request carries: its call of [analyzeCode], which
    the import leaves unbound, throws right after the diff.  The only calls
    are the content fetch, the version query and the diff; no review is
    written and the database is as it was. *)
Theorem changed_file_answers_500 (request : Request) (w : World) (u : User)
    (k content : string) (pv : FileVersion) :
  fetched request w u k content ->
  VersionTracker.getLatestFileVersion k (db w) = Some pv ->
  getChangedLines (calculateDiff (Prisma.content pv) content) <> [] ->
  (exists details,
     POST request w
     = (Failed details,
        logged [GetFileContent k; GetLatestFileVersion k; CalculateDiff] w))
  /\ db (snd (POST request w)) = db w
  /\ s3 (snd (POST request w)) = s3 w.
Proof.
  intros Hfetched Hpv Hchanged.
  rewrite (IncrementalProperties.POST_changed request w u k content pv
             Hfetched Hpv Hchanged).
  split; [by eexists | by split].
Qed.

(** X12.  Whatever the request and the world, the handler writes nothing:
    the object store and the database (file versions and reviews) are as
    they were, and the log of calls only grows, by the content fetch, the
    version query and the diff at most.  It never answers with an incremental
    review. *)
Theorem handler_never_writes (request : Request) (w : World) :
  let '(response, w') := POST request w in
  s3 w' = s3 w
  /\ db w' = db w
  /\ (exists k evs,
        events w' = events w ++ evs
        /\ evs `prefix_of` [GetFileContent k; GetLatestFileVersion k; CalculateDiff])
  /\ match response with
     | IncrementalReview _ _ _ _ _ => False
     | _ => True
     end.
Proof.
  assert (forall k evs,
            evs `prefix_of` [GetFileContent k; GetLatestFileVersion k; CalculateDiff] ->
            s3 (logged evs w) = s3 w
            /\ db (logged evs w) = db w
            /\ (exists k' evs',
                  events (logged evs w) = events w ++ evs'
                  /\ evs' `prefix_of`
                       [GetFileContent k'; GetLatestFileVersion k'; CalculateDiff]))
    as Hquiet.
  { intros k evs Hevs. split; [reflexivity|]. split; [reflexivity|]. by exists k, evs. }
  assert (s3 w = s3 w /\ db w = db w
          /\ exists (k : string) evs,
               events w = events w ++ evs
               /\ evs `prefix_of` [GetFileContent k; GetLatestFileVersion k; CalculateDiff])
    as Hnone.
  { split; [reflexivity|]. split; [reflexivity|].
    exists "", []. split; [by rewrite app_nil_r | apply prefix_nil]. }
  destruct (user request) as [u|] eqn:Hu.
  2:{ rewrite (POST_unauthorized request w Hu). by destruct Hnone as (? & ? & ?). }
  destruct (req_fileKey request) as [k|] eqn:Hk.
  2:{ rewrite (POST_no_key request w u Hu (or_introl Hk)).
      by destruct Hnone as (? & ? & ?). }
  destruct (truthy k) eqn:Ht.
  2:{ assert (k = "") as ->.
      { unfold truthy in Ht. apply negb_false_iff, String.eqb_eq in Ht. exact Ht. }
      rewrite (POST_no_key request w u Hu (or_intror Hk)).
      by destruct Hnone as (? & ? & ?). }
  destruct (s3 w !! k) as [content|] eqn:Hs.
  2:{ rewrite (POST_missing_object request w u k Hu Hk Ht Hs).
      destruct (Hquiet k [GetFileContent k]) as (? & ? & ?); [|done].
      by exists [GetLatestFileVersion k; CalculateDiff]. }
  assert (fetched request w u k content) as Hfetched by (by repeat split).
  pose proof (IncrementalProperties.POST_body_fetched request w u k content Hfetched)
    as Hbody.
  destruct (VersionTracker.getLatestFileVersion k (db w)) as [pv|] eqn:Hpv.
  2:{ rewrite (IncrementalProperties.POST_of_body _ _ _ _ Hbody).
      destruct (Hquiet k [GetFileContent k; GetLatestFileVersion k]) as (? & ? & ?);
        [|done].
      by exists [CalculateDiff]. }
  cbv zeta in Hbody. destruct (len _ =? 0) eqn:Hlen.
  - rewrite (IncrementalProperties.POST_of_body _ _ _ _ Hbody).
    by destruct (Hquiet k [GetFileContent k; GetLatestFileVersion k; CalculateDiff])
      as (? & ? & ?).
  - unfold POST. rewrite Hbody.
    by destruct (Hquiet k [GetFileContent k; GetLatestFileVersion k; CalculateDiff])
      as (? & ? & ?).
Qed.

End Handler.

(** *** Worked examples *)

Lemma filter_selects_witness :
  Examples.var_warning_line_10
  ∈ incremental_filter
      [{| lineNumber := 10; change_type := "modified"; oldText := None; newText := None |}]
      [Examples.var_warning_line_10].
Proof.
  eapply (proj1 (proj2 (filter_selects _ _))).
  - apply elem_of_cons. by left.
  - apply elem_of_cons. by left.
  - reflexivity.
Defined.

Lemma rejected_before_any_call_witness :
  @POST Examples.example_diff
    (Examples.anonymous_request "src/a.js" "a.js") Examples.empty_world
  = (Unauthorized, Examples.empty_world).
Proof.
  apply (proj1 (@rejected_before_any_call Examples.example_diff
                  (Examples.anonymous_request "src/a.js" "a.js") Examples.empty_world)).
  reflexivity.
Defined.

Lemma missing_object_fails_early_witness :
  exists details,
    @POST Examples.example_diff
      (Examples.review_request "src/a.js" "a.js") Examples.empty_world
    = (Failed details, logged [GetFileContent "src/a.js"] Examples.empty_world).
Proof.
  apply (@missing_object_fails_early Examples.example_diff
           (Examples.review_request "src/a.js" "a.js") Examples.empty_world
           {| user_id := "u1" |} "src/a.js"); reflexivity.
Defined.

(** The edit of line 8 of a saved script. *)
Lemma changed_file_answers_500_witness :
  let w := Examples.edited_world "src/a.js" "a.js" Examples.script_before
             Examples.script_after in
  exists details,
    @POST Examples.example_diff
      (Examples.review_request "src/a.js" "a.js") w
    = (Failed details,
       logged [GetFileContent "src/a.js"; GetLatestFileVersion "src/a.js";
               CalculateDiff] w).
Proof.
  intros w.
  edestruct (@changed_file_answers_500 Examples.example_diff
               (Examples.review_request "src/a.js" "a.js") w {| user_id := "u1" |}
               "src/a.js" Examples.script_after) as [Hfail _].
  - repeat split; vm_compute; reflexivity.
  - vm_compute. reflexivity.
  - vm_compute. discriminate.
  - exact Hfail.
Defined.

(** The [var] warning of line 10 against a change on line 12, and against a
    change on line 13. *)
Lemma proximity_window_witness :
  let on_line n :=
    {| lineNumber := n; change_type := "modified"; oldText := None; newText := None |} in
  Examples.var_warning_line_10
    ∈ incremental_filter [on_line 12] [Examples.var_warning_line_10]
  /\ Examples.var_warning_line_10
       ∉ incremental_filter [on_line 13] [Examples.var_warning_line_10].
Proof.
  intros on_line. split.
  - apply (proj2 (proximity_window [on_line 12] [Examples.var_warning_line_10]
                    Examples.var_warning_line_10)).
    + apply elem_of_cons. by left.
    + reflexivity.
    + exists (on_line 12). split; [apply elem_of_cons; by left | by right].
  - apply (proj2 (proximity_window [on_line 13] [Examples.var_warning_line_10]
                    Examples.var_warning_line_10)).
    + apply elem_of_cons. by left.
    + reflexivity.
    + intros c Hc. apply list_elem_of_singleton in Hc. subst c. right. simpl. lia.
Defined.

End OrchestratorProperties.

(* ===================================================================== *)
(** ** The flat analyzer *)
(* ===================================================================== *)

Module FlatAnalyzerProperties.
Import CodeReview.

Lemma Forall_push (Q : Issue -> Prop) (i : Issue) (s : list Issue) :
  Q i -> Forall Q s -> Forall Q (push i s).
Proof. intros Hi Hs. apply Forall_app. split; [exact Hs | by constructor]. Qed.

Lemma split_on_nonempty (sep : ascii) (s : string) : 1 <= len (split_on sep s).
Proof.
  unfold len. induction s as [|c s IH]; simpl; [lia|].
  destruct (Ascii.eqb c sep); simpl; [lia|].
  destruct (split_on sep s); simpl in *; lia.
Qed.

Lemma filter_length_le {A : Type} (p : A -> bool) (l : list A) :
  0 <= len (List.filter p l) <= len l.
Proof.
  unfold len. split; [lia|]. apply inj_le.
  induction l as [|x l IH]; simpl; [lia|]. destruct (p x); simpl; lia.
Qed.

(** One step through a check: enter a loop, split a condition, account for
    a push; [literal] settles the property of an issue literal. *)
Ltac check_step literal :=
  match goal with
  | |- Forall _ (forEach _ _ _) => apply forEach_invariant; [intros ? ? ? ? ? ? |]
  | |- Forall _ (push _ _) => apply Forall_push; [literal |]
  | |- Forall _ (if ?c then _ else _) => destruct c
  | |- Forall _ (match acorn_parse ?c with _ => _ end) => destruct (acorn_parse c)
  | |- Forall _ (match JSON_parse ?c with _ => _ end) => destruct (JSON_parse c)
  | |- Forall _ (match err_loc ?e with _ => _ end) => destruct (err_loc e)
  | |- Forall _ _ => assumption
  | |- Forall _ [] => constructor
  end.

Ltac checks literal := cbv zeta; repeat check_step literal.

Section Analyzer.
Context `{JsRuntime}.

Lemma analyzeHTML_invariant (Q : Issue -> Prop) (lines : list string) (s : list Issue) :
  (forall ty sev index msg sugg,
      0 <= index -> known_severity (issue ty sev (index + 1) msg sugg) = true ->
      Q (issue ty sev (index + 1) msg sugg)) ->
  Forall Q s -> Forall Q (analyzeHTML lines s).
Proof.
  intros Hlit Hs. unfold analyzeHTML.
  set (loop := forEach lines _ (s, false)).
  assert (Forall Q (fst loop)) as Hloop.
  { apply (forEach_invariant (fun st => Forall Q (fst st))); [|exact Hs].
    intros line index [s' d] _ Hindex Hs'. cbn [fst] in *.
    cbv zeta.
    repeat match goal with
           | |- context [if ?c then push _ _ else _] => destruct c
           end;
      cbn [fst]; repeat (apply Forall_push; [by apply Hlit|]); assumption. }
  destruct loop as [s' d]. cbn [fst] in Hloop.
  destruct (negb d); [|exact Hloop].
  apply Forall_push; [|exact Hloop]. by apply (Hlit _ _ 0).
Qed.

(** Every issue of the flat analyzer carries one of its three severities. *)
Lemma analyzeCode_severities (content fileName : string) :
  Forall (fun i => known_severity i = true) (issues (analyzeCode content fileName)).
Proof.
  unfold analyzeCode, language_checks. cbv zeta. cbn [issues].
  repeat match goal with |- Forall _ (if ?c then _ else _) => destruct c end.
  - unfold analyzeJavaScript, checkEmptyFile, checkLongLines, checkFileSize,
      checkTrailingWhitespace. checks ltac:(reflexivity).
  - unfold analyzePython, checkEmptyFile, checkLongLines, checkFileSize,
      checkTrailingWhitespace. checks ltac:(reflexivity).
  - unfold analyzeCSS, checkEmptyFile, checkLongLines, checkFileSize,
      checkTrailingWhitespace. checks ltac:(reflexivity).
  - apply analyzeHTML_invariant; [intros ty sev index msg sugg _ Hsev; exact Hsev|].
    unfold checkEmptyFile, checkLongLines, checkFileSize, checkTrailingWhitespace.
    checks ltac:(reflexivity).
  - unfold analyzeJSON, checkEmptyFile, checkLongLines, checkFileSize,
      checkTrailingWhitespace. checks ltac:(reflexivity).
  - unfold checkEmptyFile, checkLongLines, checkFileSize, checkTrailingWhitespace.
    checks ltac:(reflexivity).
Qed.

Lemma counts_cover (l : list Issue) :
  Forall (fun i => known_severity i = true) l ->
  count_severity "error" l + count_severity "warning" l + count_severity "info" l = len l.
Proof.
  unfold count_severity, len.
  induction 1 as [|i l Hi _ IH]; simpl; [reflexivity|].
  unfold known_severity, array_includes in Hi. simpl in Hi.
  destruct (String.eqb_spec (severity i) "error") as [He|He];
    [rewrite He; simpl; lia|].
  destruct (String.eqb_spec (severity i) "warning") as [Hw|Hw];
    [rewrite Hw; simpl; lia|].
  destruct (String.eqb_spec (severity i) "info") as [Hi'|Hi']; [simpl; lia|].
  discriminate.
Qed.

(** X14.  The metrics of the flat analyzer add up: the three severity
    counters together count every issue; the quality score lies between 0 and
    100 and is 100 exactly when there is no issue; there is at least one line,
    and blank lines and code lines partition the lines. *)
Theorem metrics_add_up (content fileName : string) :
  let a := analyzeCode content fileName in
  let m := metrics a in
  errorCount m + warningCount m + infoCount m = len (issues a)
  /\ 0 <= qualityScore m <= 100
  /\ (qualityScore m = 100 <-> issues a = [])
  /\ 1 <= totalLines m
  /\ 0 <= codeLines m <= totalLines m
  /\ 0 <= commentLines m <= totalLines m
  /\ codeLines m + blankLines m = totalLines m.
Proof.
  intros a m.
  pose proof (counts_cover (issues a) (analyzeCode_severities content fileName)) as Hcover.
  assert (m = calculateMetrics content (split_lines content) (issues a)) as Hm
    by reflexivity.
  pose proof (filter_length_le (fun i => String.eqb (severity i) "error") (issues a))
    as He.
  pose proof (filter_length_le (fun i => String.eqb (severity i) "warning") (issues a))
    as Hw.
  pose proof (filter_length_le (fun i => String.eqb (severity i) "info") (issues a))
    as Hi.
  rewrite Hm. unfold calculateMetrics. cbv zeta.
  cbn [errorCount warningCount infoCount qualityScore totalLines codeLines commentLines
       blankLines].
  unfold count_severity in *.
  split; [exact Hcover|]. split; [lia|]. split.
  - split.
    + intros Hscore. revert Hcover He Hw Hi Hscore.
      destruct (issues a) as [|i l]; [intros; reflexivity|].
      intros Hcover He Hw Hi Hscore. exfalso.
      assert (1 <= len (i :: l)) by (unfold len; simpl length; lia). lia.
    + intros ->. reflexivity.
  - split; [apply split_on_nonempty|]. split; [apply filter_length_le|].
    split; [apply filter_length_le | lia].
Qed.

(** *** Error-severity issues *)

Lemma count_push (sev : string) (i : Issue) (s : list Issue) :
  count_severity sev (push i s)
  = count_severity sev s + (if String.eqb (severity i) sev then 1 else 0).
Proof.
  unfold count_severity, push, len. rewrite List.filter_app, length_app. simpl.
  destruct (String.eqb (severity i) sev); simpl; lia.
Qed.

(** One step of counting the error-severity issues through a check. *)
Ltac count_step :=
  match goal with
  | |- count_severity ?sev (forEach ?l ?f ?s) = ?n =>
      apply (forEach_invariant (fun t => count_severity sev t = n));
      [intros ? ? ? ? ? ? |]
  | |- count_severity _ (push _ _) = _ => rewrite count_push; cbn [severity issue String.eqb Ascii.eqb Bool.eqb]; rewrite ?Z.add_0_r
  | |- count_severity _ (if ?c then _ else _) = _ => destruct c
  | |- _ = _ => assumption
  | |- _ = _ => reflexivity
  end.

Ltac count_errors := cbv zeta; repeat count_step.

Lemma general_checks_errors (content : string) (lines : list string) :
  count_severity "error"
    (checkEmptyFile content
       (checkLongLines lines (checkFileSize content (checkTrailingWhitespace lines []))))
  = 0.
Proof.
  unfold checkEmptyFile, checkLongLines, checkFileSize, checkTrailingWhitespace.
  count_errors.
Qed.

Lemma analyzeJavaScript_errors (content : string) (lines : list string)
    (s : list Issue) (fileName : string) :
  count_severity "error" (analyzeJavaScript content lines s fileName)
  = count_severity "error" s + syntax_errors content.
Proof.
  unfold analyzeJavaScript, syntax_errors. cbv zeta.
  do 3 count_step; try solve [count_errors].
  destruct (acorn_parse content) as [?|error].
  - rewrite Z.add_0_r. count_errors.
  - destruct (err_loc error).
    + rewrite count_push. cbn [severity issue]. rewrite String.eqb_refl.
      f_equal. count_errors.
    + rewrite Z.add_0_r. count_errors.
Qed.

Lemma analyzeHTML_errors (lines : list string) (s : list Issue) :
  count_severity "error" (analyzeHTML lines s) = count_severity "error" s.
Proof.
  unfold analyzeHTML.
  set (loop := forEach lines _ (s, false)).
  assert (count_severity "error" (fst loop) = count_severity "error" s) as Hloop.
  { apply (forEach_invariant
             (fun st => count_severity "error" (fst st) = count_severity "error" s));
      [|reflexivity].
    intros line index [s' d] _ Hindex Hs'. cbn [fst] in *.
    cbv zeta.
    repeat match goal with
           | |- context [if ?c then push _ _ else _] => destruct c
           end;
      cbn [fst]; rewrite ?count_push;
      cbn [severity issue String.eqb Ascii.eqb Bool.eqb]; rewrite ?Z.add_0_r;
      assumption. }
  destruct loop as [s' d]. cbn [fst] in Hloop.
  destruct (negb d); [|exact Hloop].
  rewrite count_push. cbn. lia.
Qed.

(** X15.  The flat analyzer reports at most one error-severity issue, and it
    comes from a parser: a JavaScript or TypeScript file has one exactly when
    acorn throws an error that carries a location, a JSON file exactly when
    [JSON.parse] throws, and no other file ever has one. *)
Theorem errors_come_from_parsers (content fileName : string) :
  let m := metrics (analyzeCode content fileName) in
  0 <= errorCount m <= 1
  /\ errorCount m
     = if analyzed_as_JavaScript fileName then syntax_errors content
       else if String.eqb (extension_of fileName) "json" then json_errors content
       else 0.
Proof.
  intros m.
  assert (errorCount m
          = if analyzed_as_JavaScript fileName then syntax_errors content
            else if String.eqb (extension_of fileName) "json" then json_errors content
            else 0) as Hcount.
  { subst m. unfold analyzeCode, calculateMetrics, language_checks. cbv zeta.
    cbn [metrics errorCount].
    unfold analyzed_as_JavaScript, extension_of. cbv zeta.
    pose proof (general_checks_errors content (split_lines content)) as Hgeneral.
    destruct (_ || _).
    { rewrite analyzeJavaScript_errors, Hgeneral. lia. }
    destruct (String.eqb_spec (toLowerCase (pop (split_on "." fileName))) "json")
      as [->|Hne].
    { cbn. unfold analyzeJSON, json_errors.
      destruct (JSON_parse content); [exact Hgeneral|].
      rewrite count_push, Hgeneral. reflexivity. }
    assert (array_includes ["json"] (toLowerCase (pop (split_on "." fileName))) = false)
      as Hjson.
    { unfold array_includes. simpl. rewrite orb_false_r. by apply String.eqb_neq. }
    rewrite Hjson.
    destruct (array_includes ["py"] _); [unfold analyzePython; count_errors|].
    destruct (array_includes ["css"; "scss"; "sass"; "less"] _);
      [unfold analyzeCSS; count_errors|].
    destruct (array_includes ["html"; "htm"] _); [|exact Hgeneral].
    by rewrite analyzeHTML_errors. }
  split; [|exact Hcount]. rewrite Hcount.
  unfold syntax_errors, json_errors.
  destruct (analyzed_as_JavaScript fileName).
  - destruct (acorn_parse content) as [?|e]; [lia|]. destruct (err_loc e); lia.
  - destruct (String.eqb _ "json"); [|lia]. destruct (JSON_parse content); lia.
Qed.

(** *** Line numbers *)

(** X16.  The flat analyzer attributes an issue to line 0 only for the
    unused-variable findings of a JavaScript or TypeScript file and for the
    invalid-JSON finding of a JSON file: for every other file each issue is on
    a line numbered 1 or more. *)
Theorem other_files_have_no_line_0 (content fileName : string) :
  analyzed_as_JavaScript fileName = false ->
  extension_of fileName <> "json" ->
  Forall (fun i => 1 <= line i) (issues (analyzeCode content fileName)).
Proof.
  intros Hjs Hjson. unfold analyzeCode, language_checks. cbv zeta. cbn [issues].
  unfold analyzed_as_JavaScript in Hjs. cbv zeta in Hjs. rewrite Hjs.
  assert (array_includes ["json"] (toLowerCase (pop (split_on "." fileName))) = false)
    as Hno.
  { unfold array_includes. simpl. rewrite orb_false_r. by apply String.eqb_neq. }
  rewrite Hno. cbn [orb].
  destruct (array_includes ["py"] _);
    [|destruct (array_includes ["css"; "scss"; "sass"; "less"] _);
      [|destruct (array_includes ["html"; "htm"] _)]].
  - unfold analyzePython, checkEmptyFile, checkLongLines, checkFileSize,
      checkTrailingWhitespace. checks ltac:(simpl; lia).
  - unfold analyzeCSS, checkEmptyFile, checkLongLines, checkFileSize,
      checkTrailingWhitespace. checks ltac:(simpl; lia).
  - apply analyzeHTML_invariant; [intros; simpl; lia|].
    unfold checkEmptyFile, checkLongLines, checkFileSize, checkTrailingWhitespace.
    checks ltac:(simpl; lia).
  - unfold checkEmptyFile, checkLongLines, checkFileSize, checkTrailingWhitespace.
    checks ltac:(simpl; lia).
Qed.

End Analyzer.

(** *** Which files are parsed *)

(** X17.  acorn is consulted only for the files an analyzer treats as
    JavaScript or TypeScript: for every other file the result of either
    analyzer is the same whatever the parser would answer. *)
Theorem only_scripts_are_parsed `{JsRuntime} (parse : string -> completion unit)
    (content fileName : string) :
  (analyzed_as_JavaScript fileName = false ->
   @analyzeCode (with_acorn parse _) content fileName = analyzeCode content fileName)
  /\ (MultiDimensional.lints_as_JavaScript fileName = false ->
      @MultiDimensional.analyzeCodeMultiDimensional (with_acorn parse _) content fileName
      = MultiDimensional.analyzeCodeMultiDimensional content fileName).
Proof.
  split.
  - intros Hjs. unfold analyzeCode, language_checks. cbv zeta.
    unfold analyzed_as_JavaScript in Hjs. cbv zeta in Hjs. rewrite Hjs. reflexivity.
  - intros Hjs.
    unfold MultiDimensional.analyzeCodeMultiDimensional, MultiDimensional.run_passes,
      MultiDimensional.performLintingAnalysis. cbv zeta.
    unfold MultiDimensional.lints_as_JavaScript in Hjs. rewrite Hjs. reflexivity.
Qed.

(** A style sheet: no issue on line 0, and no use for the parser. *)
Lemma other_files_have_no_line_0_witness :
  Forall (fun i => 1 <= line i)
    (issues (@analyzeCode Examples.example_runtime "a { color: red !important }  "
               "site.css")).
Proof.
  apply (@other_files_have_no_line_0 Examples.example_runtime); [reflexivity|].
  vm_compute. discriminate.
Defined.

Lemma only_scripts_are_parsed_witness :
  @analyzeCode
    (with_acorn (fun _ => Throw {| err_message := "never called"; err_loc := Some 1 |})
       Examples.example_runtime) "a { color: red !important }  " "site.css"
  = @analyzeCode Examples.example_runtime "a { color: red !important }  " "site.css".
Proof.
  apply (proj1 (@only_scripts_are_parsed Examples.example_runtime _ _ _)). reflexivity.
Defined.

End FlatAnalyzerProperties.

(* ===================================================================== *)
(** ** More on the multi-dimensional analyzer *)
(* ===================================================================== *)

Module AnalyzerProperties.
Import MultiDimensional.

(** One step through a pass, for a property of the shape [within_file]. *)
Ltac within_step :=
  match goal with
  | |- every_issue _ (forEach _ _ _) =>
      apply forEach_invariant_bounded; [intros ? ? ? ? ? ? |]
  | |- every_issue _ (push_linting _ _) =>
      apply AttributionProperties.every_issue_push_linting
  | |- every_issue _ (push_security _ _) =>
      apply AttributionProperties.every_issue_push_security
  | |- every_issue _ (push_architecture _ _) =>
      apply AttributionProperties.every_issue_push_architecture
  | |- every_issue _ (push_quality _ _) =>
      apply AttributionProperties.every_issue_push_quality
  | |- every_issue _ (push_documentation _ _) =>
      apply AttributionProperties.every_issue_push_documentation
  | |- every_issue _ (push_suggestion _ _) =>
      apply AttributionProperties.every_issue_push_suggestion
  | |- every_issue _ (if ?c then _ else _) => destruct c
  | |- every_issue _ (match acorn_parse ?c with _ => _ end) => destruct (acorn_parse c)
  | |- every_issue _ (match err_loc ?e with _ => _ end) => destruct (err_loc e)
  | |- within_file _ _ =>
      split; [reflexivity | first [left; reflexivity | right; simpl; lia]]
  | |- every_issue _ _ => assumption
  end.

Ltac within := cbv zeta; repeat within_step.

Section Passes.
Context `{JsRuntime}.
Variable lines : list string.
Hypothesis some_line : 1 <= len lines.

Lemma performLintingAnalysis_within (content ext : string) (a : Analysis) :
  every_issue (within_file (len lines)) a ->
  every_issue (within_file (len lines)) (performLintingAnalysis content lines ext a).
Proof.
  intros Ha. unfold performLintingAnalysis, lintJavaScript, lintPython, lintCSS. within.
Qed.

Lemma performSecurityAnalysis_within (content ext : string) (a : Analysis) :
  every_issue (within_file (len lines)) a ->
  every_issue (within_file (len lines)) (performSecurityAnalysis content lines ext a).
Proof.
  intros Ha. unfold performSecurityAnalysis, securityCheckJavaScript, securityCheckPython.
  within.
Qed.

Lemma performArchitectureAnalysis_within (content ext : string) (a : Analysis) :
  every_issue (within_file (len lines)) a ->
  every_issue (within_file (len lines)) (performArchitectureAnalysis content lines ext a).
Proof. intros Ha. unfold performArchitectureAnalysis. within. Qed.

Lemma performDocumentationAnalysis_within (content ext : string) (a : Analysis) :
  every_issue (within_file (len lines)) a ->
  every_issue (within_file (len lines)) (performDocumentationAnalysis content lines ext a).
Proof. intros Ha. unfold performDocumentationAnalysis. within. Qed.

Lemma performQualityAnalysis_within (content ext : string) (a : Analysis) :
  every_issue (within_file (len lines)) a ->
  every_issue (within_file (len lines)) (performQualityAnalysis content lines ext a).
Proof.
  intros Ha. unfold performQualityAnalysis. cbv zeta.
  set (duplicates := forEach (seqZ 0 _) _ (∅, _)).
  assert (every_issue (within_file (len lines)) (snd duplicates)) as Hdup.
  { apply (forEach_invariant (fun st => every_issue (within_file (len lines)) (snd st)));
      [|simpl; within].
    intros i index [codeBlocks a'] Hin _ Ha'; simpl in Ha'.
    apply elem_of_seqZ in Hin.
    destruct (_ && _ && _); simpl; [|assumption].
    destruct (codeBlocks !! _); [|assumption].
    apply AttributionProperties.every_issue_push_quality; [|assumption].
    split; [reflexivity | right; simpl; lia]. }
  destruct duplicates as [codeBlocks a']. simpl in Hdup.
  set (long_functions := forEach lines _ (_, -1, 0)).
  assert (every_issue (within_file (len lines)) (fst (fst long_functions))
          /\ snd (fst long_functions) < len lines) as [Hlong _];
    [|destruct long_functions as [[? ?] ?]; exact Hlong].
  apply (forEach_invariant_bounded
           (fun st => every_issue (within_file (len lines)) (fst (fst st))
                      /\ snd (fst st) < len lines));
    [|split; [simpl; within | simpl; lia]].
  intros line index [[a'' functionStart] braceCount] _ Hindex [Ha'' Hstart].
  simpl in Ha'', Hstart.
  destruct (re_test P_functionDecl line); cbv zeta beta iota.
  - destruct (_ && _ && _); simpl; (split; [|lia]); [|assumption].
    apply AttributionProperties.every_issue_push_quality; [|assumption].
    split; [reflexivity | right; simpl; lia].
  - destruct (_ && _ && _) eqn:Hguard; simpl; (split; [|lia]); [|assumption].
    apply AttributionProperties.every_issue_push_quality; [|assumption].
    apply andb_prop in Hguard as [Hguard _].
    apply andb_prop in Hguard as [Hguard _].
    split; [reflexivity | right; simpl; lia].
Qed.

Lemma run_passes_within (content ext : string) (a : Analysis) :
  every_issue (within_file (len lines)) a ->
  every_issue (within_file (len lines)) (run_passes content lines ext a).
Proof.
  intros Ha. unfold run_passes. cbv zeta. unfold calculateMetrics. cbv zeta.
  apply AttributionProperties.every_issue_set_metrics.
  apply performDocumentationAnalysis_within, performQualityAnalysis_within,
    performArchitectureAnalysis_within, performSecurityAnalysis_within,
    performLintingAnalysis_within, Ha.
Qed.

End Passes.


(** What the entry point returns, by the passes. *)
Lemma analyzed_within `{JsRuntime} (content fileName : string) :
  let a := analyzeCodeMultiDimensional content fileName in
  every_issue (within_file (len (split_lines content))) a
  /\ Forall (within_file (len (split_lines content))) (issues a).
Proof.
  intros a.
  assert (every_issue (within_file (len (split_lines content))) a) as Hall.
  { subst a. unfold analyzeCodeMultiDimensional. cbv zeta.
    apply (run_passes_within (split_lines content));
      [apply FlatAnalyzerProperties.split_on_nonempty | repeat split; constructor]. }
  split; [exact Hall|].
  destruct Hall as (Hl & Hs & Ha & Hq & Hd & _).
  subst a. unfold analyzeCodeMultiDimensional. cbv zeta.
  cbn [calculateScores combine_issues set_issues issues].
  cbn [calculateScores combine_issues set_issues linting security architecture
       quality documentation set_score dim_issues] in Hl, Hs, Ha, Hq, Hd.
  repeat (apply Forall_app; split); assumption.
Qed.

Lemma penalty_known (i : Issue) : known_severity i = true -> 1 <= penalty i <= 15.
Proof.
  unfold known_severity, penalty. simpl.
  repeat (destruct (String.eqb _ _); [lia|]). discriminate.
Qed.

Lemma total_penalty_known (l : list Issue) :
  Forall (fun i => known_severity i = true) l ->
  len l <= total_penalty l <= 15 * len l.
Proof.
  unfold len. induction 1 as [|i l Hi _ IH]; simpl; [lia|].
  apply penalty_known in Hi.
  change (foldr _ 0 l) with (total_penalty l). lia.
Qed.

(** How a score reads, for issues of known severity. *)
Lemma calculateScore_reads (l : list Issue) (maxDeduction : Z) :
  0 < maxDeduction ->
  Forall (fun i => known_severity i = true) l ->
  100 - maxDeduction <= calculateScore l maxDeduction <= 100
  /\ (calculateScore l maxDeduction = 100 <-> l = []).
Proof.
  intros Hmax Hl. rewrite ScoreProperties.calculateScore_penalty.
  apply total_penalty_known in Hl.
  destruct l as [|i l]; [unfold len in Hl; simpl in *; split; [lia | split; [done | lia]]|].
  assert (1 <= len (i :: l)) by (unfold len; simpl length; lia).
  split; [lia|]. split; [lia | discriminate].
Qed.

(** X18.  The severities that the analyzer's passes give their issues are
    critical, error, warning and info only, the ones [calculateScore] knows,
    so no issue is free: a scored dimension reports 100 exactly when it has
    no issue, and never less than its floor (50 for linting, architecture and
    quality, 0 for security). *)
Theorem perfect_score_means_no_issue `{JsRuntime} (content fileName : string) :
  let a := analyzeCodeMultiDimensional content fileName in
  Forall (fun i => known_severity i = true) (issues a)
  /\ (50 <= dim_score (linting a) <= 100
      /\ (dim_score (linting a) = 100 <-> dim_issues (linting a) = []))
  /\ (0 <= dim_score (security a) <= 100
      /\ (dim_score (security a) = 100 <-> dim_issues (security a) = []))
  /\ (50 <= dim_score (architecture a) <= 100
      /\ (dim_score (architecture a) = 100 <-> dim_issues (architecture a) = []))
  /\ (50 <= dim_score (quality a) <= 100
      /\ (dim_score (quality a) = 100 <-> dim_issues (quality a) = [])).
Proof.
  intros a. destruct (analyzed_within content fileName) as [Hall Hissues].
  fold a in Hall, Hissues.
  split; [eapply Forall_impl; [exact Hissues|]; intros i [Hi _]; exact Hi|].
  destruct Hall as (Hl & Hs & Ha & Hq & _).
  assert (forall l, Forall (within_file (len (split_lines content))) l ->
                    Forall (fun i => known_severity i = true) l) as Hknown.
  { intros l Hwithin. eapply Forall_impl; [exact Hwithin|]. intros i [Hi _]. exact Hi. }
  apply Hknown in Hl, Hs, Ha, Hq.
  subst a. unfold analyzeCodeMultiDimensional in *. cbv zeta in *.
  set (b := combine_issues _) in *.
  cbn [calculateScores linting security architecture quality set_score
       dim_score dim_issues] in *.
  unfold default_maxDeduction.
  pose proof (calculateScore_reads _ 50 ltac:(lia) Hl) as [Hlb Hliff].
  pose proof (calculateScore_reads _ 100 ltac:(lia) Hs) as [Hsb Hsiff].
  pose proof (calculateScore_reads _ 50 ltac:(lia) Ha) as [Hab Haiff].
  pose proof (calculateScore_reads _ 50 ltac:(lia) Hq) as [Hqb Hqiff].
  split; [split; [lia | exact Hliff]|].
  split; [split; [lia | exact Hsiff]|].
  split; [split; [lia | exact Haiff]|].
  split; [lia | exact Hqiff].
Qed.

(** X19.  Every issue of the analysis lies inside the analyzed file: its
    line is between 1 and the line count that the metrics report, unless it
    is the finding of the syntax check, whose line is the parser's. *)
Theorem issues_inside_file `{JsRuntime} (content fileName : string) :
  let a := analyzeCodeMultiDimensional content fileName in
  exists m : Metrics,
    metrics a = Some m
    /\ Forall (fun i => category i = Some "syntax" \/ 1 <= line i <= totalLines m)
              (issues a)
    /\ Forall (fun i => category i = Some "syntax" \/ 1 <= line i <= totalLines m)
              (doc_suggestions (documentation a)).
Proof.
  intros a. destruct (analyzed_within content fileName) as [Hall Hissues].
  fold a in Hall, Hissues.
  destruct Hall as (_ & _ & _ & _ & _ & Hsugg).
  subst a. unfold analyzeCodeMultiDimensional in *. cbv zeta in *.
  unfold run_passes in *. cbv zeta in *. unfold calculateMetrics in *. cbv zeta in *.
  eexists. split; [reflexivity|]. cbn [totalLines].
  split; (eapply Forall_impl; [eassumption|]); intros i [_ Hi]; exact Hi.
Qed.

(** X20.  The counts of the metrics are consistent: a file has at least one
    line, the code lines and the comment lines are each among its lines, and
    the complexity score is an even number between 0 and 100. *)
Theorem metrics_are_consistent `{JsRuntime} (content fileName : string) :
  exists m : Metrics,
    metrics (analyzeCodeMultiDimensional content fileName) = Some m
    /\ 1 <= totalLines m
    /\ 0 <= codeLines m <= totalLines m
    /\ 0 <= commentLines m <= totalLines m
    /\ 0 <= complexityScore m <= 100
    /\ Z.even (complexityScore m) = true.
Proof.
  unfold analyzeCodeMultiDimensional. cbv zeta.
  unfold run_passes. cbv zeta. unfold calculateMetrics. cbv zeta.
  eexists. split; [reflexivity|].
  cbn [totalLines codeLines commentLines complexityScore].
  split; [apply FlatAnalyzerProperties.split_on_nonempty|].
  split; [apply FlatAnalyzerProperties.filter_length_le|].
  split; [apply FlatAnalyzerProperties.filter_length_le|].
  assert (0 <= re_count P_branchingMetric content) as Hcount
    by (unfold re_count, len; lia).
  split; [lia|].
  destruct (Z.min_spec 100 (re_count P_branchingMetric content * 2)) as [[_ ->] | [_ ->]];
    [reflexivity|].
  rewrite Z.even_mul. apply orb_true_r.
Qed.

(** *** What the first four passes leave alone *)

(** One step through a pass that pushes no documentation entry. *)
Ltac frame_step d :=
  match goal with
  | |- documentation (forEach _ _ _) = _ =>
      apply (forEach_invariant (fun t => documentation t = d));
      [intros ? ? ? ? ? ? |]
  | |- documentation (push_linting _ ?a) = _ => change (documentation a = d)
  | |- documentation (push_security _ ?a) = _ => change (documentation a = d)
  | |- documentation (push_architecture _ ?a) = _ => change (documentation a = d)
  | |- documentation (push_quality _ ?a) = _ => change (documentation a = d)
  | |- documentation (if ?c then _ else _) = _ => destruct c
  | |- documentation (match acorn_parse ?c with _ => _ end) = _ =>
      destruct (acorn_parse c)
  | |- documentation (match err_loc ?e with _ => _ end) = _ => destruct (err_loc e)
  | |- documentation _ = _ => assumption
  | |- documentation _ = _ => reflexivity
  end.

Ltac frame d := cbv zeta; repeat frame_step d.

Section Frame.
Context `{JsRuntime}.

Lemma performLintingAnalysis_documentation (content : string) (lines : list string)
    (ext : string) (a : Analysis) :
  documentation (performLintingAnalysis content lines ext a) = documentation a.
Proof.
  unfold performLintingAnalysis, lintJavaScript, lintPython, lintCSS.
  frame (documentation a).
Qed.

Lemma performSecurityAnalysis_documentation (content : string) (lines : list string)
    (ext : string) (a : Analysis) :
  documentation (performSecurityAnalysis content lines ext a) = documentation a.
Proof.
  unfold performSecurityAnalysis, securityCheckJavaScript, securityCheckPython.
  frame (documentation a).
Qed.

Lemma performArchitectureAnalysis_documentation (content : string)
    (lines : list string) (ext : string) (a : Analysis) :
  documentation (performArchitectureAnalysis content lines ext a) = documentation a.
Proof. unfold performArchitectureAnalysis. frame (documentation a). Qed.

Lemma performQualityAnalysis_documentation (content : string) (lines : list string)
    (ext : string) (a : Analysis) :
  documentation (performQualityAnalysis content lines ext a) = documentation a.
Proof.
  unfold performQualityAnalysis. cbv zeta.
  set (duplicates := forEach (seqZ 0 _) _ (∅, _)).
  assert (documentation (snd duplicates) = documentation a) as Hdup.
  { apply (forEach_invariant (fun st => documentation (snd st) = documentation a));
      [|simpl; frame (documentation a)].
    intros i index [codeBlocks a'] _ _ Ha'; simpl in Ha'.
    destruct (_ && _ && _); simpl; [|assumption].
    destruct (codeBlocks !! _); assumption. }
  destruct duplicates as [codeBlocks a']. simpl in Hdup.
  set (long_functions := forEach lines _ (_, -1, 0)).
  assert (documentation (fst (fst long_functions)) = documentation a) as Hlong;
    [|destruct long_functions as [[? ?] ?]; exact Hlong].
  apply (forEach_invariant
           (fun st => documentation (fst (fst st)) = documentation a));
    [|simpl; frame (documentation a)].
  intros line index [[a'' functionStart] braceCount] _ _ Ha''. simpl in Ha''.
  destruct (re_test P_functionDecl line); cbv zeta beta iota;
    destruct (_ && _ && _); simpl; assumption.
Qed.

End Frame.

(** X21.  The documentation pass looks at js, jsx, ts, tsx, py and java files
    only, and no other pass writes to the documentation dimension: a file of
    any other extension gets no documentation issue and no suggestion,
    whatever it contains. *)
Theorem undocumented_languages_get_no_documentation_issue `{JsRuntime}
    (content fileName : string) :
  documented_extension fileName = false ->
  let a := analyzeCodeMultiDimensional content fileName in
  doc_issues (documentation a) = [] /\ doc_suggestions (documentation a) = [].
Proof.
  intros Hext a.
  assert (documentation a = documentation initial_analysis) as ->;
    [|split; reflexivity].
  subst a. unfold analyzeCodeMultiDimensional, run_passes. cbv zeta.
  cbn [calculateScores combine_issues set_issues documentation].
  unfold calculateMetrics. cbv zeta. cbn [set_metrics documentation].
  unfold performDocumentationAnalysis. cbv zeta.
  unfold documented_extension in Hext. rewrite Hext. cbn [negb].
  rewrite performQualityAnalysis_documentation, performArchitectureAnalysis_documentation,
    performSecurityAnalysis_documentation, performLintingAnalysis_documentation.
  reflexivity.
Qed.

(** A style sheet gets no documentation entry. *)
Lemma undocumented_languages_get_no_documentation_issue_witness :
  let a := @analyzeCodeMultiDimensional Examples.example_runtime
             "a { color: red !important }" "site.css" in
  doc_issues (documentation a) = [] /\ doc_suggestions (documentation a) = [].
Proof.
  apply (@undocumented_languages_get_no_documentation_issue Examples.example_runtime).
  reflexivity.
Defined.

End AnalyzerProperties.
